(** * widget2code: layout inference and the WidgetDSL-to-HTML compiler

    A shallow embedding of
    - [libs/python/generator/utils/layout_json_to_dsl.py] (the layout
      inference engine), and
    - [libs/python/generator/generation/widget/html_compiler.py] (the
      markup compiler),
    with the properties the specification states about them.

    Conventions of the embedding.
    - A Python [int] is a [Z].  A Python [float] is the rational number it
      denotes: the floats of the model are the finite doubles, with one
      zero.  An operation on floats yields the exact result rounded to the
      nearest double, a tie going to the even significand ([round_double]),
      where the source divides, multiplies by a float literal or rounds to
      decimals; sums, differences and halves of pixel coordinates, which
      are exact on whole numbers below [2^50], are kept exact.  A float
      literal is the double nearest its decimal value.  Magnitudes from
      [2^1024] on (where Python yields [inf] or raises OverflowError) are
      outside the model.  Inside JSON values a float is kept as a reduced
      fraction, so that equal numbers are equal values.
    - A JSON object is an association list in insertion order; [dict.get]
      reads the first binding of a key.
    - A Python exception is an [error]; a function that can raise returns a
      [result]. *)

From Stdlib Require Import ZArith QArith Qround Qminmax Qabs Qpower Lqa Lia.
From Stdlib Require Import List String Ascii Bool Permutation Sorted.
From Stdlib Require Import DecimalString DecimalNat.
Import ListNotations.

#[local] Set Warnings "-register-all".
Local Open Scope string_scope.
Local Open Scope Z_scope.

(** ** Exceptions *)

Inductive error : Type :=
| InvalidSpec          (* ValueError("Invalid widget spec: missing widget.root") *)
| InvalidLeaf          (* ValueError("Invalid leaf node: missing component") *)
| UnsupportedNodeType  (* ValueError("Unsupported leaf node type: ...") *)
| TypeError
| AttributeError
| ZeroDivisionError
| ValueError           (* any other ValueError: a failed unpacking, dict() *)
| OutOfFuel.           (* the recursion bound of the model, never Python's *)

Inductive result (A : Type) : Type :=
| Ok (a : A)
| Err (e : error).
Arguments Ok {A} a.
Arguments Err {A} e.

Definition bind {A B : Type} (r : result A) (k : A -> result B) : result B :=
  match r with
  | Ok a => k a
  | Err e => Err e
  end.

Notation "x <- r ;; k" := (bind r (fun x => k))
  (at level 61, r at next level, right associativity).

Section MapM.
Context {A B : Type} (f : A -> result B).

Fixpoint mapM (l : list A) : result (list B) :=
  match l with
  | [] => Ok []
  | x :: rest =>
      y <- f x ;;
      ys <- mapM rest ;;
      Ok (y :: ys)
  end.
End MapM.

(** ** JSON values *)

Inductive value : Type :=
| VNone
| VBool (b : bool)
| VInt (z : Z)
| VFloat (q : Q)
| VStr (s : string)
| VList (l : list value)
| VDict (d : list (string * value)).

Definition dict : Type := list (string * value).

Fixpoint lookup (d : dict) (k : string) : option value :=
  match d with
  | [] => None
  | (k', v) :: rest => if String.eqb k' k then Some v else lookup rest k
  end.

(** [d.get(k, default)] and [d.get(k)]. *)
Definition get_default (d : dict) (k : string) (default : value) : value :=
  match lookup d k with
  | Some v => v
  | None => default
  end.

Definition get (d : dict) (k : string) : value := get_default d k VNone.

(** [d[k] = v]: an existing key keeps its place. *)
Fixpoint dict_set (d : dict) (k : string) (v : value) : dict :=
  match d with
  | [] => [(k, v)]
  | (k', v') :: rest =>
      if String.eqb k' k then (k, v) :: rest else (k', v') :: dict_set rest k v
  end.

(** Truth value of an object, as tested by [if x], [not x], [x or y]. *)
Definition truthy (v : value) : bool :=
  match v with
  | VNone => false
  | VBool b => b
  | VInt z => negb (z =? 0)
  | VFloat q => negb (Qeq_bool q 0)
  | VStr s => negb (String.eqb s "")
  | VList l => match l with [] => false | _ => true end
  | VDict d => match d with [] => false | _ => true end
  end.

(** [x or y]. *)
Definition py_or (x y : value) : value := if truthy x then x else y.

(** [v == "literal"]. *)
Definition eq_str (v : value) (s : string) : bool :=
  match v with
  | VStr s' => String.eqb s' s
  | _ => false
  end.

Definition float (q : Q) : value := VFloat (Qred q).

(** ** Numbers *)

(** [round(x)] on a float: the nearest integer, a tie going to the even one. *)
Definition py_round (q : Q) : Z :=
  let f := Qfloor q in
  match (q - inject_Z f ?= 1 # 2)%Q with
  | Lt => f
  | Gt => f + 1
  | Eq => if Z.even f then f else f + 1
  end.

(** [q] rounded half-even to [ndigits >= 0] decimals, as a decimal
    fraction: the first step of [round(x, ndigits)]. *)
Definition py_round_digits (q : Q) (ndigits : nat) : Q :=
  let scale := inject_Z (10 ^ Z.of_nat ndigits) in
  (inject_Z (py_round (q * scale)) / scale)%Q.

(** [floor(log2 q)] of a positive rational. *)
Definition Qlog2 (q : Q) : Z :=
  let k := Z.log2 (Qnum q) - Z.log2 (Z.pos (Qden q)) in
  if Qle_bool (2 ^ k) q then k else k - 1.

(** The exponent of the last bit of the doubles around [q]: a double has 53
    significant bits, and no bit below [2^-1074]. *)
Definition ulp_exponent (q : Q) : Z := Z.max (Qlog2 (Qabs q) - 52) (-1074).

(** [q] rounded to the nearest multiple of [2^e], a tie going to the even
    multiple. *)
Definition round_at (e : Z) (q : Q) : Q :=
  (inject_Z (py_round (q / 2 ^ e)) * 2 ^ e)%Q.

(** The double nearest to [q], a tie going to the even significand (IEEE
    754 binary64, round to nearest even): the result of a float operation
    whose exact result is [q]. *)
Definition round_double (q : Q) : Q :=
  if Qeq_bool q 0 then 0%Q else round_at (ulp_exponent q) q.

(** [round(x, ndigits)] on a float: the decimal fraction nearest to [x]
    (half-even), then the double nearest to that fraction. *)
Definition py_round_float (x : Q) (ndigits : nat) : Q :=
  round_double (py_round_digits x ndigits).

Definition Qlt_bool (a b : Q) : bool := negb (Qle_bool b a).

(** [max(a, b)] and [min(a, b)] return the first argument on a tie. *)
Definition py_max (a b : Q) : Q := if Qlt_bool a b then b else a.
Definition py_min (a b : Q) : Q := if Qlt_bool b a then b else a.

(** [abs(x) <= tol]. *)
Definition within (x tol : Q) : bool := Qle_bool (Qabs x) tol.

(** [min(xs)] and [max(xs)] over a non-empty sequence given as head and tail. *)
Definition min_list (x : Q) (xs : list Q) : Q := fold_left py_min xs x.
Definition max_list (x : Q) (xs : list Q) : Q := fold_left py_max xs x.

(** [sum(xs)]. *)
Definition sum_list (xs : list Q) : Q := fold_left Qplus xs (0 : Q).

(** A stable sort by key ([list.sort(key=...)] is stable). *)
Section Sort.
Context {A : Type} (key : A -> Q).

Fixpoint insert_by (x : A) (l : list A) : list A :=
  match l with
  | [] => [x]
  | y :: rest =>
      if Qle_bool (key x) (key y) then x :: l else y :: insert_by x rest
  end.

Fixpoint sort_by (l : list A) : list A :=
  match l with
  | [] => []
  | x :: rest => insert_by x (sort_by rest)
  end.

End Sort.

(** [statistics.median] of a non-empty list: the middle element of the
    sorted data, or the mean of the two middle ones. *)
Definition median (data : list Q) : Q :=
  let sorted := sort_by (fun x => x) data in
  let n := List.length sorted in
  let i := Nat.div n 2 in
  if Nat.odd n then nth i sorted (0 : Q)
  else ((nth (i - 1) sorted 0 + nth i sorted 0) / 2)%Q.

(** ** Strings *)

Definition lower_ascii (c : ascii) : ascii :=
  let n := nat_of_ascii c in
  if (Nat.leb 65 n && Nat.leb n 90)%bool then ascii_of_nat (n + 32) else c.

(** [str.lower()], on the ASCII letters. *)
Fixpoint lower (s : string) : string :=
  match s with
  | EmptyString => EmptyString
  | String c rest => String (lower_ascii c) (lower rest)
  end.

(** [sub in s]. *)
Fixpoint contains (sub s : string) : bool :=
  if String.prefix sub s then true
  else match s with
       | EmptyString => false
       | String _ rest => contains sub rest
       end.

(** ** Geometry: [Rect] *)

Module Rect.
Record t : Type := mk { left : Q; top : Q; right : Q; bottom : Q }.

Definition width (r : t) : Q := py_max 0 (right r - left r).
Definition height (r : t) : Q := py_max 0 (bottom r - top r).
Definition center_x (r : t) : Q := (left r + width r / 2)%Q.
Definition center_y (r : t) : Q := (top r + height r / 2)%Q.
End Rect.

(** ** Layout nodes (the engine's input)

    A node of the layout-analysis JSON.  A field read with [node.get] is
    optional; ["subNodes"] absent or null is the empty list.  ["text"] and
    ["content"] are passed through unread, so they hold any JSON value. *)

Inductive layout_node : Type :=
  LayoutNode {
    ln_bounds : option Rect.t;
    ln_type : option string;
    ln_direction : option string;
    ln_subNodes : list layout_node;
    ln_text : option value;
    ln_content : option value;
    ln_num_line : option Z
  }.

Definition zero_rect : Rect.t := Rect.mk 0 0 0 0.

(** [_rect_from_bounds(node.get("bounds", [0, 0, 0, 0]))]. *)
Definition node_rect (node : layout_node) : Rect.t :=
  match ln_bounds node with
  | Some r => r
  | None => zero_rect
  end.

Definition _node_children (node : layout_node) : list layout_node :=
  ln_subNodes node.

(** [[_rect_from_bounds(c["bounds"]) for c in children if c.get("bounds")]]. *)
Fixpoint bounded_rects (children : list layout_node) : list Rect.t :=
  match children with
  | [] => []
  | c :: rest =>
      match ln_bounds c with
      | Some r => r :: bounded_rects rest
      | None => bounded_rects rest
      end
  end.

(** ** The layout inference engine *)

Definition size2 : Type := (Q * Q)%type.

(** The scale chosen by [estimate_font_size]: width-based when the virtual
    width is positive, else height-based, else 1. *)
Definition font_scale (physical_size virtual_size : size2) : Q :=
  let '(physical_width, physical_height) := physical_size in
  let '(virtual_width, virtual_height) := virtual_size in
  if Qlt_bool 0 virtual_width then round_double (physical_width / virtual_width)
  else if Qlt_bool 0 virtual_height then round_double (physical_height / virtual_height)
  else 1%Q.

(** [a / b] on floats: the quotient rounded to a double, raising on a zero
    divisor. *)
Definition py_div (a b : Q) : result Q :=
  if Qeq_bool b 0 then Err ZeroDivisionError else Ok (round_double (a / b)).

Definition estimate_font_size (bounds : Rect.t) (physical_size virtual_size : size2)
    (num_lines : Z) (line_height_ratio : Q) : result Z :=
  let scale := font_scale physical_size virtual_size in
  virtual_text_height <- py_div (Rect.height bounds) scale ;;
  per_line_height <- py_div virtual_text_height
                       (round_double (inject_Z (Z.max 1 num_lines))) ;;
  estimated_size <- py_div per_line_height line_height_ratio ;;
  Ok (Z.max 10 (py_round estimated_size)).

(** The default of the [line_height_ratio] parameter, the float [1.2]. *)
Definition default_line_height_ratio : Q := round_double (12 # 10).

(** Leading and trailing edge of a rectangle along the axis of [direction]. *)
Definition leading (direction : string) (r : Rect.t) : Q :=
  if String.eqb direction "row" then Rect.left r else Rect.top r.
Definition trailing (direction : string) (r : Rect.t) : Q :=
  if String.eqb direction "row" then Rect.right r else Rect.bottom r.

(** [zip(rects, rects[1:])]. *)
Fixpoint adjacent_pairs {A : Type} (l : list A) : list (A * A) :=
  match l with
  | prev :: ((curr :: _) as rest) => (prev, curr) :: adjacent_pairs rest
  | _ => []
  end.

(** The loop of [_infer_gap]: the positive distances between neighbours. *)
Definition positive_gaps (direction : string) (rects : list Rect.t) : list Q :=
  filter (fun gap => Qlt_bool 0 gap)
    (map (fun '(prev, curr) => (leading direction curr - trailing direction prev)%Q)
       (adjacent_pairs rects)).

Definition _infer_gap (children : list layout_node) (direction : string) : Z :=
  if (Nat.ltb (List.length children) 2) then 0
  else
    let rects := bounded_rects children in
    if (Nat.ltb (List.length rects) 2) then 0
    else
      let rects := sort_by (leading direction) rects in
      let gaps := positive_gaps direction rects in
      match gaps with
      | [] => 0
      | _ => py_round (median gaps)
      end.

Definition axis_start (direction : string) (c : Rect.t) : Q :=
  if String.eqb direction "row" then Rect.left c else Rect.top c.
Definition axis_end (direction : string) (c : Rect.t) : Q :=
  if String.eqb direction "row" then Rect.right c else Rect.bottom c.
Definition axis_size (direction : string) (c : Rect.t) : Q :=
  if String.eqb direction "row" then Rect.width c else Rect.height c.
Definition axis_center (direction : string) (c : Rect.t) : Q :=
  if String.eqb direction "row" then Rect.center_x c else Rect.center_y c.

(** [max(8, axis_size * 0.08)]: the product of the size and the float
    [0.08] is a float. *)
Definition tolerance (size : Q) : Q :=
  py_max 8 (round_double (size * round_double (8 # 100))).

Definition _align_main (container : Rect.t) (children : list Rect.t)
    (direction : string) : option string :=
  match children with
  | [] => None
  | first :: others =>
      let child_start :=
        min_list (leading direction first) (map (leading direction) others) in
      let child_end :=
        max_list (trailing direction first) (map (trailing direction) others) in
      let child_center := ((child_start + child_end) / 2)%Q in
      let tol := tolerance (axis_size direction container) in
      let near_start := within (child_start - axis_start direction container) tol in
      let near_end := within (axis_end direction container - child_end) tol in
      if (Nat.ltb 1 (List.length children) && (near_start && near_end))%bool
      then Some "between"
      else if within (child_center - axis_center direction container) tol
      then Some "center"
      else if near_start then Some "start"
      else if near_end then Some "end"
      else Some "start"
  end.

(** The cross-axis counterparts used by [_align_cross]. *)
Definition cross_start (direction : string) (c : Rect.t) : Q :=
  if String.eqb direction "row" then Rect.top c else Rect.left c.
Definition cross_end (direction : string) (c : Rect.t) : Q :=
  if String.eqb direction "row" then Rect.bottom c else Rect.right c.
Definition cross_size (direction : string) (c : Rect.t) : Q :=
  if String.eqb direction "row" then Rect.height c else Rect.width c.
Definition cross_center (direction : string) (c : Rect.t) : Q :=
  if String.eqb direction "row" then Rect.center_y c else Rect.center_x c.

Definition _align_cross (container : Rect.t) (children : list Rect.t)
    (direction : string) : option string :=
  match children with
  | [] => None
  | first :: others =>
      let centers := map (cross_center direction) children in
      let average_center := (sum_list centers / inject_Z (Z.of_nat (List.length centers)))%Q in
      let tol := tolerance (cross_size direction container) in
      if within (average_center - cross_center direction container) tol
      then Some "center"
      else
        let min_edge :=
          min_list (cross_start direction first) (map (cross_start direction) others) in
        let max_edge :=
          max_list (cross_end direction first) (map (cross_end direction) others) in
        if within (min_edge - cross_start direction container) tol then Some "start"
        else if within (cross_end direction container - max_edge) tol then Some "end"
        else Some "start"
  end.

Definition _map_direction (value : option string) : string :=
  match value with
  | None => "col"
  | Some v =>
      if String.eqb v "" then "col"
      else
        let lowered := lower v in
        if contains "row" lowered then "row"
        else if contains "col" lowered then "col"
        else if contains "stack" lowered then "col"
        else "col"
  end.

Definition _leaf_component (node : layout_node) : option string :=
  let node_type := lower (match ln_type node with Some t => t | None => "" end) in
  if (String.eqb node_type "text" || String.eqb node_type "paragraph")%bool
  then Some "Text"
  else if String.eqb node_type "icon" then Some "Icon"
  else if String.eqb node_type "image" then Some "Image"
  else None.

(** [int(node.get("num_line", 1) or 1)]. *)
Definition node_num_lines (node : layout_node) : Z :=
  match ln_num_line node with
  | Some z => if z =? 0 then 1 else z
  | None => 1
  end.

Definition text_or_empty (v : option value) : value :=
  match v with
  | Some x => x
  | None => VStr ""
  end.

Definition _convert_leaf (node : layout_node) (rect : Rect.t)
    (physical_size virtual_size : size2) : result value :=
  match _leaf_component node with
  | None => Err UnsupportedNodeType
  | Some component =>
      let dsl_node := [("type", VStr "leaf"); ("component", VStr component)] in
      if String.eqb component "Text" then
        let num_lines := node_num_lines node in
        font_size <- estimate_font_size rect physical_size virtual_size num_lines
                       default_line_height_ratio ;;
        let props := [("fontSize", VInt font_size)] in
        let props := if 1 <? num_lines
                     then dict_set props "maxLines" (VInt num_lines) else props in
        Ok (VDict (dsl_node ++ [("content", text_or_empty (ln_text node));
                                ("props", VDict props)]))
      else if String.eqb component "Icon" then
        Ok (VDict (dsl_node ++
              [("props", VDict [("name", text_or_empty (ln_content node));
                                ("size", VInt (Z.max 12 (py_round (Rect.height rect))))])]))
      else if String.eqb component "Image" then
        Ok (VDict (dsl_node ++
              [("props", VDict [("src", VStr "")]);
               ("width", VInt (py_round (Rect.width rect)));
               ("height", VInt (py_round (Rect.height rect)))]))
      else Ok (VDict dsl_node)
  end.

Definition _infer_flex (rect : Rect.t) (parent_rect : option Rect.t)
    (parent_direction : option string) : option Q :=
  match parent_rect, parent_direction with
  | Some parent, Some direction =>
      if String.eqb direction "" then None
      else
        let parent_size :=
          if String.eqb direction "row" then Rect.width parent else Rect.height parent in
        if Qle_bool parent_size 0 then None
        else
          let child_size :=
            if String.eqb direction "row" then Rect.width rect else Rect.height rect in
          let ratio := py_max 0 (round_double (child_size / parent_size)) in
          Some (py_round_float ratio 3)
  | _, _ => None
  end.

(** A field whose value is [None] is popped from the container. *)
Definition optional_field {A : Type} (k : string) (inj : A -> value)
    (v : option A) : dict :=
  match v with
  | Some x => [(k, inj x)]
  | None => []
  end.

(** [_convert_container], with the conversion of a child as a parameter
    (it is [_convert_node], defined by recursion below). *)
Definition _convert_container
    (convert_child : layout_node -> option Rect.t -> option string -> result value)
    (node : layout_node) (rect : Rect.t)
    (parent_rect : option Rect.t) (parent_direction : option string) : result value :=
  let direction := _map_direction (ln_direction node) in
  children <- mapM (fun child => convert_child child (Some rect) (Some direction))
                (_node_children node) ;;
  let child_rects := bounded_rects (_node_children node) in
  Ok (VDict
        ([("type", VStr "container");
          ("direction", VStr direction);
          ("gap", VInt (_infer_gap (_node_children node) direction))]
         ++ optional_field "alignMain" VStr (_align_main rect child_rects direction)
         ++ optional_field "alignCross" VStr (_align_cross rect child_rects direction)
         ++ optional_field "flex" float (_infer_flex rect parent_rect parent_direction)
         ++ [("children", VList children)])).

Fixpoint _convert_node (node : layout_node) (physical_size virtual_size : size2)
    (parent_rect : option Rect.t) (parent_direction : option string)
    {struct node} : result value :=
  let rect := node_rect node in
  let children := _node_children node in
  let as_container :=
    _convert_container
      (fun child pr pd => _convert_node child physical_size virtual_size pr pd)
      node rect parent_rect parent_direction in
  match _leaf_component node, children with
  | Some _, [] => _convert_leaf node rect physical_size virtual_size
  | _, _ => as_container
  end.

Definition layout_json_to_widget_dsl (layout_json : layout_node)
    (physical_size virtual_size : size2) : result value :=
  let root_rect := node_rect layout_json in
  root_node <- _convert_node layout_json physical_size virtual_size None None ;;
  Ok (VDict
        [("widget",
           VDict [("padding", VInt 0);
                  ("aspectRatio", VList [VInt (py_round (Rect.width root_rect));
                                         VInt (py_round (Rect.height root_rect))]);
                  ("root", root_node)])]).


(** ** Python operations used by the compiler *)

Section ForEach.
Context {A S : Type} (f : A -> S -> result S).

(** [for x in l: f(x)], threading the state. *)
Fixpoint for_each (l : list A) (st : S) : result S :=
  match l with
  | [] => Ok st
  | x :: rest =>
      st' <- f x st ;;
      for_each rest st'
  end.
End ForEach.

Definition is_none (v : value) : bool :=
  match v with
  | VNone => true
  | _ => false
  end.

(** Lists and dicts cannot be hashed: they are no dict key or set member. *)
Definition hashable (v : value) : bool :=
  match v with
  | VList _ | VDict _ => false
  | _ => true
  end.

(** A number as a rational ([bool] is a subtype of [int]). *)
Definition as_number (v : value) : option Q :=
  match v with
  | VInt z => Some (inject_Z z)
  | VFloat q => Some q
  | VBool b => Some (if b then 1 else 0)%Q
  | _ => None
  end.

Definition as_int (v : value) : option Z :=
  match v with
  | VInt z => Some z
  | VBool b => Some (if b then 1 else 0)
  | _ => None
  end.

(** A number as a float operand: an int is converted to the nearest
    double. *)
Definition as_float (v : value) : option Q :=
  match v with
  | VInt z => Some (round_double (inject_Z z))
  | VFloat q => Some q
  | VBool b => Some (if b then 1 else 0)%Q
  | _ => None
  end.

(** The float literal whose decimal value is [q]. *)
Definition double (q : Q) : value := float (round_double q).

Fixpoint repeat_list {A : Type} (l : list A) (n : nat) : list A :=
  match n with
  | O => []
  | S n' => l ++ repeat_list l n'
  end.

Fixpoint repeat_string (s : string) (n : nat) : string :=
  match n with
  | O => ""
  | S n' => s ++ repeat_string s n'
  end.

(** [a - b]: exact on ints, rounded to a double when an operand is a
    float. *)
Definition py_sub (a b : value) : result value :=
  match as_int a, as_int b with
  | Some x, Some y => Ok (VInt (x - y))
  | _, _ =>
      match as_float a, as_float b with
      | Some x, Some y => Ok (float (round_double (x - y)))
      | _, _ => Err TypeError
      end
  end.

(** [a * b]: a product of numbers (exact on ints, rounded to a double when
    an operand is a float), or a sequence repeated an integer number of
    times. *)
Definition py_mul (a b : value) : result value :=
  match as_int a, as_int b with
  | Some x, Some y => Ok (VInt (x * y))
  | _, _ =>
      match as_float a, as_float b with
      | Some x, Some y => Ok (float (round_double (x * y)))
      | _, _ =>
          match a, as_int b, as_int a, b with
          | VStr s, Some n, _, _ => Ok (VStr (repeat_string s (Z.to_nat n)))
          | VList l, Some n, _, _ => Ok (VList (repeat_list l (Z.to_nat n)))
          | _, _, Some n, VStr s => Ok (VStr (repeat_string s (Z.to_nat n)))
          | _, _, Some n, VList l => Ok (VList (repeat_list l (Z.to_nat n)))
          | _, _, _, _ => Err TypeError
          end
      end
  end.

(** [a / b] (true division): always a float; the quotient of two ints is
    rounded once, from the exact quotient. *)
Definition py_truediv (a b : value) : result value :=
  match as_int a, as_int b with
  | Some x, Some y =>
      if y =? 0 then Err ZeroDivisionError
      else Ok (float (round_double (inject_Z x / inject_Z y)))
  | _, _ =>
      match as_float a, as_float b with
      | Some x, Some y =>
          if Qeq_bool y 0 then Err ZeroDivisionError
          else Ok (float (round_double (x / y)))
      | _, _ => Err TypeError
      end
  end.

(** [a < b], between numbers. *)
Definition py_lt (a b : value) : result bool :=
  match as_number a, as_number b with
  | Some x, Some y => Ok (Qlt_bool x y)
  | _, _ => Err TypeError
  end.

(** [max(a, b)] and [min(a, b)] of two objects: the second is returned only
    when it is strictly greater (smaller). *)
Definition py_max2 (a b : value) : result value :=
  greater <- py_lt a b ;;
  Ok (if greater then b else a).

Definition py_min2 (a b : value) : result value :=
  smaller <- py_lt b a ;;
  Ok (if smaller then b else a).

(** [math.pi], the double nearest to pi. *)
Definition math_pi : Q := 884279719003555 # 281474976710656.

(** A byte that continues a character in UTF-8 ([10xxxxxx]). *)
Definition continuation (c : ascii) : bool :=
  let n := nat_of_ascii c in (Nat.leb 128 n && Nat.ltb n 192)%bool.

(** The bytes that continue the character begun before [s], and the
    characters after it. *)
Fixpoint chars_from (s : string) : string * list string :=
  match s with
  | EmptyString => (EmptyString, [])
  | String c rest =>
      let '(pending, done) := chars_from rest in
      if continuation c then (String c pending, done)
      else (EmptyString, String c pending :: done)
  end.

(** The characters of a string, each as a string: a string is kept as its
    UTF-8 bytes, and a character is a byte with the bytes that continue
    it. *)
Definition chars (s : string) : list string :=
  let '(pending, done) := chars_from s in
  match pending with
  | EmptyString => done
  | _ => pending :: done
  end.

(** What [for x in v] iterates over: the items of a list, the characters of
    a string, the keys of a dict. *)
Definition py_iter (v : value) : result (list value) :=
  match v with
  | VList l => Ok l
  | VStr s => Ok (map VStr (chars s))
  | VDict d => Ok (map (fun kv => VStr (fst kv)) d)
  | _ => Err TypeError
  end.

(** One element of the sequence given to [dict()]: a two-element sequence
    whose first element is hashable.  A key that is not a string is never
    read back by the compiler, and is left out. *)
Definition dict_item (item : value) : result (option (string * value)) :=
  match item with
  | VList [k; v] =>
      if hashable k
      then Ok (match k with VStr s => Some (s, v) | _ => None end)
      else Err TypeError
  | VStr s =>
      match chars s with
      | [c1; c2] => Ok (Some (c1, VStr c2))
      | _ => Err ValueError
      end
  | VDict [(k1, _); (k2, _)] => Ok (Some (k1, VStr k2))
  | VList _ | VDict _ => Err ValueError
  | _ => Err TypeError
  end.

Definition dict_add (item : value) (d : dict) : result dict :=
  entry <- dict_item item ;;
  Ok (match entry with
      | Some (k, v) => dict_set d k v
      | None => d
      end).

(** [dict(v)]. *)
Definition py_dict (v : value) : result dict :=
  match v with
  | VDict d => Ok d
  | VList l => for_each dict_add l []
  | VStr s => for_each dict_add (map VStr (chars s)) []
  | _ => Err TypeError
  end.

(** A lookup [table.get(key, default)] in a table keyed by strings. *)
Fixpoint assoc (table : list (string * string)) (k : string) : option string :=
  match table with
  | [] => None
  | (k', v) :: rest => if String.eqb k' k then Some v else assoc rest k
  end.

Definition table_get (table : list (string * string)) (key default : value) :
    result value :=
  if hashable key
  then Ok (match key with
           | VStr s => match assoc table s with
                       | Some x => VStr x
                       | None => default
                       end
           | _ => default
           end)
  else Err TypeError.

(** [v in {names}], for a set of strings. *)
Definition in_names (v : value) (names : list string) : result bool :=
  if hashable v then Ok (existsb (eq_str v) names) else Err TypeError.

(** ** Text *)

(** The double quote. *)
Definition dq : string := String "034"%char EmptyString.

(** [name="value"]. *)
Definition attr (name value : string) : string := name ++ "=" ++ dq ++ value ++ dq.

(** [s] with every single and double quote removed (the two [replace]
    calls of [format_style_object]). *)
Fixpoint strip_quotes (s : string) : string :=
  match s with
  | EmptyString => EmptyString
  | String c rest =>
      if (Ascii.eqb c "'" || Ascii.eqb c "034")%bool then strip_quotes rest
      else String c (strip_quotes rest)
  end.

(** [s.split(":", 1)], when [s] has a colon. *)
Fixpoint split_colon (s : string) : option (string * string) :=
  match s with
  | EmptyString => None
  | String c rest =>
      if Ascii.eqb c ":" then Some (EmptyString, rest)
      else match split_colon rest with
           | Some (name, value) => Some (String c name, value)
           | None => None
           end
  end.

(** [sep.join(l)]. *)
Fixpoint join (sep : string) (l : list string) : string :=
  match l with
  | [] => ""
  | [x] => x
  | x :: rest => x ++ sep ++ join sep rest
  end.

Definition format_style (style : string) : result string :=
  match split_colon style with
  | Some (property_name, value) => Ok (property_name ++ ": " ++ strip_quotes value)
  | None => Err ValueError
  end.

Definition format_style_object (style_entries : list string) : result string :=
  formatted <- mapM format_style style_entries ;;
  Ok (join "; " formatted).

(** The check mark of a ticked checkbox, byte for byte as in the source. *)
Definition checkmark_text : string :=
  String "195" (String "162" (String "197" (String "147"
    (String "226" (String "128" (String "156" EmptyString)))))).

(** The lookup table of [map_to_icon_class]. *)
Definition icon_map : list (string * string) :=
  [ ("sf:paperplane.fill", "fas fa-paper-plane");
    ("sf:sun.max.fill", "fas fa-sun");
    ("sf:heart.fill", "fas fa-heart");
    ("sf:house.fill", "fas fa-home");
    ("sf:star.fill", "fas fa-star");
    ("sf:person.fill", "fas fa-user");
    ("sf:gear", "fas fa-cog");
    ("sf:trash.fill", "fas fa-trash");
    ("sf:plus.circle.fill", "fas fa-plus-circle");
    ("sf:minus.circle.fill", "fas fa-minus-circle");
    ("sf:checkmark.circle.fill", "fas fa-check-circle");
    ("sf:xmark.circle.fill", "fas fa-times-circle");
    ("sf:arrow.clockwise", "fas fa-sync");
    ("sf:play.circle.fill", "fas fa-play-circle");
    ("sf:pause.circle.fill", "fas fa-pause-circle");
    ("sf:stop.circle.fill", "fas fa-stop-circle");
    ("lu:LuDownload", "fas fa-download");
    ("lu:LuUpload", "fas fa-upload");
    ("lu:LuSettings", "fas fa-cog");
    ("lu:LuUser", "fas fa-user");
    ("lu:LuMail", "fas fa-envelope");
    ("lu:LuPhone", "fas fa-phone");
    ("lu:LuCalendar", "fas fa-calendar");
    ("lu:LuClock", "fas fa-clock");
    ("lu:LuSearch", "fas fa-search");
    ("lu:LuBell", "fas fa-bell");
    ("lu:LuHeart", "fas fa-heart");
    ("lu:LuStar", "fas fa-star");
    ("lu:LuTrash", "fas fa-trash");
    ("lu:LuPlus", "fas fa-plus");
    ("lu:LuMinus", "fas fa-minus");
    ("lu:LuCheck", "fas fa-check");
    ("lu:LuX", "fas fa-times");
    ("lu:LuArrowRight", "fas fa-arrow-right");
    ("lu:LuArrowLeft", "fas fa-arrow-left");
    ("lu:LuArrowUp", "fas fa-arrow-up");
    ("lu:LuArrowDown", "fas fa-arrow-down");
    ("ai:AiDownload", "fas fa-download");
    ("ai:AiUpload", "fas fa-upload");
    ("ai:AiSetting", "fas fa-cog");
    ("ai:AiUser", "fas fa-user");
    ("ai:AiMail", "fas fa-envelope");
    ("fa:FaDownload", "fas fa-download");
    ("fa:FaUpload", "fas fa-upload");
    ("fa:FaCog", "fas fa-cog");
    ("fa:FaUser", "fas fa-user");
    ("fa:FaEnvelope", "fas fa-envelope");
    ("fa:FaPhone", "fas fa-phone");
    ("fa:FaCalendar", "fas fa-calendar");
    ("fa:FaClock", "fas fa-clock");
    ("fa:FaSearch", "fas fa-search");
    ("fa:FaBell", "fas fa-bell");
    ("fa:FaHeart", "fas fa-heart");
    ("fa:FaStar", "fas fa-star");
    ("fa:FaTrash", "fas fa-trash");
    ("fa:FaPlus", "fas fa-plus");
    ("fa:FaMinus", "fas fa-minus");
    ("fa:FaCheck", "fas fa-check");
    ("fa:FaTimes", "fas fa-times");
    ("fa:FaArrowRight", "fas fa-arrow-right");
    ("fa:FaArrowLeft", "fas fa-arrow-left");
    ("fa:FaArrowUp", "fas fa-arrow-up");
    ("fa:FaArrowDown", "fas fa-arrow-down") ].

Definition map_to_icon_class (name : value) : result value :=
  table_get icon_map name (VStr "fas fa-question").

(** ** Compiler state and output *)

(** A behaviour snippet appended by [write_script].  Each is a fixed
    JavaScript template; the model keeps which template it is and the values
    interpolated into it. *)
Inductive script : Type :=
| ButtonScript (button_id : string)
| ProgressRingScript (progress_ring_id : string)
    (stroke_dashoffset circumference : value)
| SparklineScript (sparkline_id : string) (w h data color : value)
| ChartScript (chart_id : string) (chart_option : value).

(** The collections one call of [compile_widget_dsl_to_html] appends to,
    its [component_counter], and how many times [unique_id] was called. *)
Record cstate : Type :=
  mkState {
    lines : list string;
    scripts : list script;
    styles : list string;
    counter_chart : nat;
    counter_sparkline : nat;
    ids_issued : nat
  }.

Definition initial_state : cstate := mkState [] [] [] 0 0 0.

Definition write (line : string) (st : cstate) : cstate :=
  mkState (lines st ++ [line]) (scripts st) (styles st)
    (counter_chart st) (counter_sparkline st) (ids_issued st).

Definition write_script (s : script) (st : cstate) : cstate :=
  mkState (lines st) (scripts st ++ [s]) (styles st)
    (counter_chart st) (counter_sparkline st) (ids_issued st).

Definition write_style (style : string) (st : cstate) : cstate :=
  mkState (lines st) (scripts st) (styles st ++ [style])
    (counter_chart st) (counter_sparkline st) (ids_issued st).

(** The parts interpolated into the fixed HTML template of the result: the
    style of the widget container, the style block, the markup lines and the
    behaviour snippets. *)
Record document : Type :=
  mkDocument {
    doc_widget_style : string;
    doc_styles : list string;
    doc_lines : list string;
    doc_scripts : list script
  }.

Definition nat_text (n : nat) : string := NilZero.string_of_uint (Nat.to_uint n).

(** How deep lists and dicts nest in a value: a bound on the recursion of
    [render_node]. *)
Fixpoint nesting (v : value) : nat :=
  match v with
  | VList l =>
      S ((fix over (l : list value) : nat :=
            match l with
            | [] => O
            | x :: rest => Nat.max (nesting x) (over rest)
            end) l)
  | VDict d =>
      S ((fix over (d : list (string * value)) : nat :=
            match d with
            | [] => O
            | (_, x) :: rest => Nat.max (nesting x) (over rest)
            end) d)
  | _ => O
  end.

(** ** The renderers *)

Section Compiler.
(** The text Python prints for a float, a list or a dict. *)
Variable py_repr : value -> string.
(** The [<milliseconds>-<random hex>] part of the [n]-th identifier that
    [unique_id] makes in one call of the compiler. *)
Variable id_entropy : nat -> string.

(** [f"{v}"]. *)
Definition py_str (v : value) : string :=
  match v with
  | VStr s => s
  | VNone => "None"
  | VBool true => "True"
  | VBool false => "False"
  | VInt z => NilZero.string_of_int (Z.to_int z)
  | VFloat _ | VList _ | VDict _ => py_repr v
  end.

(** [f"{format_css_value(v)}"]. *)
Definition format_css_value (v : value) : string :=
  match v with
  | VStr s => s
  | VBool _ | VInt _ | VFloat _ => py_str v ++ "px"
  | _ => py_str v
  end.

Definition unique_id (prefix : string) (st : cstate) : string * cstate :=
  (prefix ++ "-" ++ id_entropy (ids_issued st),
   mkState (lines st) (scripts st) (styles st)
     (counter_chart st) (counter_sparkline st) (S (ids_issued st))).

Definition indent_of (depth : nat) : string := repeat_string "  " depth.

(** The three entries every renderer appends for [flex], [width], [height]. *)
Definition box_styles (flex width height : value) : list string :=
  (if is_none flex then [] else ["flex: " ++ py_str flex]) ++
  (if is_none width then [] else ["width: " ++ format_css_value width]) ++
  (if is_none height then [] else ["height: " ++ format_css_value height]).

Definition with_box_styles (entries : list string) (flex width height : value) :
    list string :=
  entries ++ box_styles flex width height.

Definition get_text_styles (props : dict) (flex width height : value) : list string :=
  let font_size := get_default props "fontSize" (VInt 14) in
  let font_weight := get_default props "fontWeight" (VStr "normal") in
  let color := get_default props "color" (VStr "#333333") in
  let text_align := get_default props "textAlign" (VStr "left") in
  let line_height := get_default props "lineHeight" (double (14 # 10)) in
  [ "font-size: " ++ py_str font_size ++ "px";
    "font-weight: " ++ py_str font_weight;
    "color: " ++ py_str color;
    "text-align: " ++ py_str text_align;
    "line-height: " ++ py_str line_height ]
  ++ box_styles flex width height.

Definition get_button_styles (props : dict) (flex width height : value) : list string :=
  let background_color :=
    get_default props "backgroundColor" (VStr "rgba(59, 130, 246, 1)") in
  let color := get_default props "color" (VStr "rgba(255, 255, 255, 1)") in
  let border_radius := get_default props "borderRadius" (VInt 8) in
  let font_size := get_default props "fontSize" (VInt 14) in
  let font_weight := get_default props "fontWeight" (VInt 500) in
  let padding := get_default props "padding" (VInt 12) in
  let border := get_default props "border" (VStr "none") in
  [ "display: flex";
    "align-items: center";
    "justify-content: center";
    "background-color: " ++ py_str background_color;
    "color: " ++ py_str color;
    "border-radius: " ++ py_str border_radius ++ "px";
    "font-size: " ++ py_str font_size ++ "px";
    "font-weight: " ++ py_str font_weight;
    "padding: " ++ py_str padding ++ "px";
    "border: " ++ py_str border;
    "cursor: pointer";
    "user-select: none";
    "outline: none";
    "transition: all 0.2s ease" ]
  ++ box_styles flex width height.

Definition get_generic_styles (flex width height : value) : list string :=
  [ "display: flex"; "align-items: center"; "justify-content: center" ]
  ++ box_styles flex width height.

Definition render_text_component (props : dict) (content : value) (depth : nat)
    (flex width height : value) (st : cstate) : result cstate :=
  let indent := indent_of depth in
  let style_entries := get_text_styles props flex width height in
  let text_content := py_or (py_or content (get props "content")) (VStr "") in
  style <- format_style_object style_entries ;;
  Ok (write (indent ++ "<div " ++ attr "style" style ++ ">"
             ++ py_str text_content ++ "</div>") st).

Definition centered_span (indent : string) (text : string) : string :=
  indent ++ "  <span "
  ++ attr "style" "display: flex; align-items: center; justify-content: center;"
  ++ ">" ++ text ++ "</span>".

Definition render_button_component (props : dict) (depth : nat)
    (flex width height : value) (st : cstate) : result cstate :=
  let indent := indent_of depth in
  let icon := get props "icon" in
  let content := get props "content" in
  let icon_size := get props "iconSize" in
  let icon_color := get props "iconColor" in
  let style_entries := get_button_styles props flex width height in
  let '(button_id, st) := unique_id "button" st in
  style <- format_style_object style_entries ;;
  let st := write (indent ++ "<div " ++ attr "id" button_id ++ " "
                   ++ attr "style" style ++ " " ++ attr "role" "button" ++ " "
                   ++ attr "tabindex" "0" ++ ">") st in
  st <- (if truthy icon then
           icon_class <- map_to_icon_class icon ;;
           side <- (if truthy icon_size then Ok icon_size
                    else
                      scaled <- py_mul (get_default props "fontSize" (VInt 14))
                                  (double (12 # 10)) ;;
                      Ok (py_or scaled (double (168 # 10)))) ;;
           let icon_styles :=
             [ "display: flex";
               "align-items: center";
               "justify-content: center";
               "width: " ++ py_str side ++ "px";
               "height: " ++ py_str side ++ "px";
               "color: " ++ py_str (py_or (py_or icon_color (get props "color"))
                                      (VStr "white")) ] in
           icon_style <- format_style_object icon_styles ;;
           Ok (write (indent ++ "  <i " ++ attr "class" (py_str icon_class) ++ " "
                      ++ attr "style" icon_style ++ "></i>") st)
         else if truthy content then
           Ok (write (centered_span indent (py_str content)) st)
         else
           Ok (write (centered_span indent "Button") st)) ;;
  let st := write (indent ++ "</div>") st in
  Ok (write_script (ButtonScript button_id) st).

Definition render_icon_component (props : dict) (depth : nat)
    (flex width height : value) (st : cstate) : result cstate :=
  let indent := indent_of depth in
  let name := get props "name" in
  let size := get_default props "size" (VInt 20) in
  let color := get_default props "color" (VStr "rgba(255, 255, 255, 0.85)") in
  let style_entries :=
    with_box_styles
      [ "display: inline-flex";
        "align-items: center";
        "justify-content: center";
        "width: " ++ py_str size ++ "px";
        "height: " ++ py_str size ++ "px";
        "color: " ++ py_str color ]
      flex width height in
  icon_class <- map_to_icon_class name ;;
  style <- format_style_object style_entries ;;
  Ok (write (indent ++ "<i " ++ attr "class" (py_str icon_class) ++ " "
             ++ attr "style" style ++ "></i>") st).

Definition render_image_component (props : dict) (depth : nat)
    (flex width height : value) (st : cstate) : result cstate :=
  let indent := indent_of depth in
  let src := get props "src" in
  let alt := get_default props "alt" (VStr "") in
  let style_entries :=
    with_box_styles
      [ "display: block"; "max-width: 100%"; "max-height: 100%" ]
      flex width height in
  style <- format_style_object style_entries ;;
  Ok (write (indent ++ "<img " ++ attr "src" (py_str src) ++ " "
             ++ attr "alt" (py_str alt) ++ " " ++ attr "style" style ++ " />") st).

Definition render_checkbox_component (props : dict) (depth : nat)
    (flex width height : value) (st : cstate) : result cstate :=
  let indent := indent_of depth in
  let checked := get_default props "checked" (VBool false) in
  let style_entries :=
    with_box_styles
      [ "width: 20px";
        "height: 20px";
        "border: 2px solid #ccc";
        "border-radius: 4px";
        "display: flex";
        "align-items: center";
        "justify-content: center";
        "background-color: " ++ (if truthy checked then "#007AFF" else "white") ]
      flex width height in
  let checkmark := if truthy checked then checkmark_text else "" in
  style <- format_style_object style_entries ;;
  Ok (write (indent ++ "<div " ++ attr "style" style ++ ">" ++ checkmark ++ "</div>") st).

Definition render_divider_component (props : dict) (depth : nat)
    (flex width height : value) (st : cstate) : result cstate :=
  let indent := indent_of depth in
  let orientation := get_default props "orientation" (VStr "horizontal") in
  let color := get_default props "color" (VStr "#e0e0e0") in
  let thickness := get_default props "thickness" (VInt 1) in
  let horizontal := eq_str orientation "horizontal" in
  let style_entries :=
    app
      [ "background-color: " ++ py_str color;
        (if horizontal then "height" else "width") ++ ": " ++ py_str thickness ++ "px";
        (if horizontal then "width" else "height") ++ ": 100%" ]
      (app (if is_none flex then [] else ["flex: " ++ py_str flex])
         (app (if (negb (is_none width) && eq_str orientation "vertical")%bool
               then ["width: " ++ format_css_value width] else [])
              (if (negb (is_none height) && horizontal)%bool
               then ["height: " ++ format_css_value height] else []))) in
  style <- format_style_object style_entries ;;
  Ok (write (indent ++ "<div " ++ attr "style" style ++ "></div>") st).

Definition render_indicator_component (props : dict) (depth : nat)
    (flex width height : value) (st : cstate) : result cstate :=
  let indent := indent_of depth in
  let color := get_default props "color" (VStr "#34C759") in
  let size := get_default props "size" (VInt 8) in
  let style_entries :=
    with_box_styles
      [ "width: " ++ py_str size ++ "px";
        "height: " ++ py_str size ++ "px";
        "border-radius: 50%";
        "background-color: " ++ py_str color ]
      flex width height in
  style <- format_style_object style_entries ;;
  Ok (write (indent ++ "<div " ++ attr "style" style ++ "></div>") st).

(** The inner box of a progress bar, for the value of [progress * 100]. *)
Definition progress_bar_inner (indent : string) (percent color : value) : string :=
  indent ++ "  <div style=" ++ dq ++ "width: " ++ py_str percent
  ++ "%; height: 100%; background-color: " ++ py_str color
  ++ "; transition: width 0.3s ease;" ++ dq ++ "></div>".

Definition render_progress_bar_component (props : dict) (depth : nat)
    (flex width height : value) (st : cstate) : result cstate :=
  let indent := indent_of depth in
  let progress := get_default props "progress" (float (5 # 10)) in
  let color := get_default props "color" (VStr "#007AFF") in
  let background_color := get_default props "backgroundColor" (VStr "#e0e0e0") in
  let '(container_id, st) := unique_id "progress" st in
  let container_styles :=
    with_box_styles
      [ "width: 100%";
        "height: 8px";
        "background-color: " ++ py_str background_color;
        "border-radius: 4px";
        "overflow: hidden" ]
      flex width height in
  style <- format_style_object container_styles ;;
  let st := write (indent ++ "<div " ++ attr "id" container_id ++ " "
                   ++ attr "style" style ++ ">") st in
  percent <- py_mul progress (VInt 100) ;;
  let st := write (progress_bar_inner indent percent color) st in
  Ok (write (indent ++ "</div>") st).

(** The numbers of a progress ring: radius, circumference and stroke-dash
    offset, from [percentage], [size] and [strokeWidth]. *)
Definition progress_ring_geometry (percentage size stroke_width : value) :
    result (value * value * value) :=
  raised <- py_max2 percentage (VInt 0) ;;
  normalized_percentage <- py_min2 raised (VInt 100) ;;
  diameter <- py_sub size stroke_width ;;
  radius <- py_truediv diameter (VInt 2) ;;
  two_pi <- py_mul (VInt 2) (float math_pi) ;;
  circumference <- py_mul two_pi radius ;;
  fraction <- py_truediv normalized_percentage (VInt 100) ;;
  covered <- py_mul fraction circumference ;;
  stroke_dashoffset <- py_sub circumference covered ;;
  Ok (radius, circumference, stroke_dashoffset).

Definition write_all (new_lines : list string) (st : cstate) : cstate :=
  fold_left (fun st line => write line st) new_lines st.

Definition render_progress_ring_component (props : dict) (depth : nat)
    (flex width height : value) (st : cstate) : result cstate :=
  let indent := indent_of depth in
  let percentage := get_default props "percentage" (VInt 0) in
  let color := get_default props "color" (VStr "#34C759") in
  let background_color := get_default props "backgroundColor" (VStr "#d1d1d6") in
  let size := get_default props "size" (VInt 80) in
  let stroke_width := get_default props "strokeWidth" (VInt 6) in
  let icon_name := get props "iconName" in
  let icon_size := get_default props "iconSize" (VInt 32) in
  let icon_color := get_default props "iconColor" (VStr "#000000") in
  let content := get props "content" in
  let text_color := get_default props "textColor" (VStr "#000000") in
  let font_size := get_default props "fontSize" (VInt 14) in
  let font_weight := get_default props "fontWeight" (VInt 500) in
  let '(progress_ring_id, st) := unique_id "progressring" st in
  geometry <- progress_ring_geometry percentage size stroke_width ;;
  let '(radius, circumference, stroke_dashoffset) := geometry in
  let container_styles :=
    with_box_styles
      [ "position: relative";
        "width: " ++ py_str size ++ "px";
        "height: " ++ py_str size ++ "px";
        "display: flex";
        "align-items: center";
        "justify-content: center";
        "flex: 0 0 auto";
        "flex-shrink: 0" ]
      flex width height in
  style <- format_style_object container_styles ;;
  half_size <- py_truediv size (VInt 2) ;;
  let st :=
    write_all
      [ indent ++ "<div " ++ attr "id" progress_ring_id ++ " "
          ++ attr "style" style ++ ">";
        indent ++ "  <svg " ++ attr "width" (py_str size) ++ " "
          ++ attr "height" (py_str size) ++ " "
          ++ attr "style" "transform: rotate(-90deg);" ++ ">";
        indent ++ "    <circle";
        indent ++ "      " ++ attr "cx" (py_str half_size);
        indent ++ "      " ++ attr "cy" (py_str half_size);
        indent ++ "      " ++ attr "r" (py_str radius);
        indent ++ "      " ++ attr "fill" "none";
        indent ++ "      " ++ attr "stroke" (py_str background_color);
        indent ++ "      " ++ attr "stroke-width" (py_str stroke_width);
        indent ++ "    />";
        indent ++ "    <circle";
        indent ++ "      " ++ attr "id" (progress_ring_id ++ "-progress");
        indent ++ "      " ++ attr "cx" (py_str half_size);
        indent ++ "      " ++ attr "cy" (py_str half_size);
        indent ++ "      " ++ attr "r" (py_str radius);
        indent ++ "      " ++ attr "fill" "none";
        indent ++ "      " ++ attr "stroke" (py_str color);
        indent ++ "      " ++ attr "stroke-width" (py_str stroke_width);
        indent ++ "      " ++ attr "stroke-dasharray" (py_str circumference);
        indent ++ "      " ++ attr "stroke-dashoffset" (py_str stroke_dashoffset);
        indent ++ "      " ++ attr "stroke-linecap" "round";
        indent ++ "      " ++ attr "style" "transition: stroke-dashoffset 0.3s ease;";
        indent ++ "    />";
        indent ++ "  </svg>" ] st in
  st <- (if (truthy icon_name || truthy content)%bool then
           let st :=
             write (indent ++ "  <div "
                    ++ attr "style" ("position: absolute; top: 50%; left: 50%; "
                                     ++ "transform: translate(-50%, -50%);")
                    ++ ">") st in
           st <- (if truthy icon_name then
                    icon_class <- map_to_icon_class icon_name ;;
                    let icon_styles :=
                      [ "width: " ++ py_str icon_size ++ "px";
                        "height: " ++ py_str icon_size ++ "px";
                        "color: " ++ py_str icon_color;
                        "display: flex";
                        "align-items: center";
                        "justify-content: center" ] in
                    icon_style <- format_style_object icon_styles ;;
                    Ok (write (indent ++ "    <i " ++ attr "class" (py_str icon_class)
                               ++ " " ++ attr "style" icon_style ++ "></i>") st)
                  else
                    let text_styles :=
                      [ "color: " ++ py_str text_color;
                        "font-size: " ++ py_str font_size ++ "px";
                        "font-weight: " ++ py_str font_weight;
                        "white-space: nowrap";
                        "display: flex";
                        "align-items: center";
                        "justify-content: center" ] in
                    text_style <- format_style_object text_styles ;;
                    Ok (write (indent ++ "    <span " ++ attr "style" text_style ++ ">"
                               ++ py_str content ++ "</span>") st)) ;;
           Ok (write (indent ++ "  </div>") st)
         else Ok st) ;;
  let st := write (indent ++ "</div>") st in
  Ok (write_script (ProgressRingScript progress_ring_id stroke_dashoffset circumference) st).

Definition render_sparkline_component (props : dict) (depth : nat)
    (flex width height : value) (st : cstate) : result cstate :=
  let indent := indent_of depth in
  let sparkline_id := "sparkline-" ++ nat_text (counter_sparkline st) in
  let st := mkState (lines st) (scripts st) (styles st)
              (counter_chart st) (S (counter_sparkline st)) (ids_issued st) in
  let data := get_default props "data" (VList []) in
  let color := get_default props "color" (VStr "#34C759") in
  let w := get_default props "width" (VInt 80) in
  let h := get_default props "height" (VInt 40) in
  let style_entries :=
    with_box_styles
      [ "display: block";
        "width: " ++ py_str w ++ "px";
        "height: " ++ py_str h ++ "px" ]
      flex width height in
  style <- format_style_object style_entries ;;
  let st := write (indent ++ "<canvas " ++ attr "id" sparkline_id ++ " "
                   ++ attr "style" style ++ "></canvas>") st in
  Ok (write_script (SparklineScript sparkline_id w h data color) st).

Definition base_option : dict :=
  [ ("backgroundColor", VStr "transparent");
    ("tooltip", VDict [("show", VBool false)]);
    ("animation", VBool false) ].

Definition generate_chart_option (chart_type : value) (props : dict) : value :=
  let category_axes :=
    [ ("xAxis", VDict [("type", VStr "category");
                       ("data", get_default props "labels" (VList []))]);
      ("yAxis", VDict [("type", VStr "value")]) ] in
  let item_style :=
    ("itemStyle", VDict [("color", get_default props "color" (VStr "#6DD400"))]) in
  if eq_str chart_type "LineChart" then
    VDict (base_option ++ category_axes ++
           [("series",
             VList [VDict [("type", VStr "line");
                           ("data", get_default props "data" (VList []));
                           ("smooth",
                            VBool (match get_default props "smooth" (VBool true) with
                                   | VBool false => false
                                   | _ => true
                                   end));
                           item_style]])])
  else if eq_str chart_type "BarChart" then
    VDict (base_option ++ category_axes ++
           [("series",
             VList [VDict [("type", VStr "bar");
                           ("data", get_default props "data" (VList []));
                           item_style]])])
  else if eq_str chart_type "PieChart" then
    VDict (base_option ++
           [("series",
             VList [VDict [("type", VStr "pie");
                           ("data", get_default props "data" (VList []));
                           ("radius",
                            if truthy (get props "innerRadius")
                            then VList [VStr "50%"; VStr "70%"]
                            else VStr "70%");
                           item_style]])])
  else VDict base_option.

Definition render_chart_component (chart_type : value) (props : dict) (depth : nat)
    (flex width height : value) (st : cstate) : result cstate :=
  let indent := indent_of depth in
  let chart_id := "chart-" ++ nat_text (counter_chart st) in
  let st := mkState (lines st) (scripts st) (styles st)
              (S (counter_chart st)) (counter_sparkline st) (ids_issued st) in
  let style_entries :=
    with_box_styles
      [ "width: 100%"; "height: 100%"; "min-height: 200px" ]
      flex width height in
  style <- format_style_object style_entries ;;
  let st := write (indent ++ "<div " ++ attr "id" chart_id ++ " "
                   ++ attr "style" style ++ "></div>") st in
  let chart_option := generate_chart_option chart_type props in
  Ok (write_script (ChartScript chart_id chart_option) st).

Definition render_generic_component (component_name : value) (props : dict)
    (content : value) (depth : nat) (flex width height : value) (st : cstate) :
    result cstate :=
  let indent := indent_of depth in
  let style_entries := get_generic_styles flex width height in
  let component_content := py_or content component_name in
  style <- format_style_object style_entries ;;
  Ok (write (indent ++ "<div " ++ attr "style" style ++ ">"
             ++ py_str component_content ++ "</div>") st).

(** ** Traversal *)

Definition align_main_map : list (string * string) :=
  [ ("start", "flex-start"); ("end", "flex-end"); ("center", "center");
    ("between", "space-between") ].

Definition align_cross_map : list (string * string) :=
  [ ("start", "flex-start"); ("end", "flex-end"); ("center", "center") ].

Definition chart_names : list string :=
  [ "LineChart"; "BarChart"; "StackedBarChart"; "RadarChart"; "PieChart" ].

(** The [leaf] branch of [render_node]. *)
Definition render_leaf (node : dict) (depth : nat) (st : cstate) : result cstate :=
  let component_name := get node "component" in
  let props := get_default node "props" (VDict []) in
  let flex := get node "flex" in
  let width := get node "width" in
  let height := get node "height" in
  let content := get node "content" in
  if negb (truthy component_name) then Err InvalidLeaf
  else
    merged_props <- py_dict props ;;
    merged_props <-
      (if truthy content then
         uses_content <- in_names component_name ["Button"; "ProgressRing"] ;;
         Ok (if uses_content : bool then dict_set merged_props "content" content
             else merged_props)
       else Ok merged_props) ;;
    if eq_str component_name "Text" then
      render_text_component merged_props content depth flex width height st
    else if eq_str component_name "Button" then
      render_button_component merged_props depth flex width height st
    else if eq_str component_name "Icon" then
      render_icon_component merged_props depth flex width height st
    else if eq_str component_name "Image" then
      render_image_component merged_props depth flex width height st
    else if eq_str component_name "Checkbox" then
      render_checkbox_component merged_props depth flex width height st
    else if eq_str component_name "Divider" then
      render_divider_component merged_props depth flex width height st
    else if eq_str component_name "Indicator" then
      render_indicator_component merged_props depth flex width height st
    else if eq_str component_name "ProgressBar" then
      render_progress_bar_component merged_props depth flex width height st
    else if eq_str component_name "ProgressRing" then
      render_progress_ring_component merged_props depth flex width height st
    else if eq_str component_name "Sparkline" then
      render_sparkline_component merged_props depth flex width height st
    else
      is_chart <- in_names component_name chart_names ;;
      if is_chart : bool then
        render_chart_component component_name merged_props depth flex width height st
      else
        render_generic_component component_name merged_props content depth
          flex width height st.

(** The style entries of a container, up to the two alignment entries. *)
Definition container_styles (node : dict) : list string :=
  let direction := get_default node "direction" (VStr "row") in
  let gap := get_default node "gap" (VInt 8) in
  let padding := get node "padding" in
  let flex := get node "flex" in
  let width := get node "width" in
  let height := get node "height" in
  let background_color := get node "backgroundColor" in
  let border_radius := get node "borderRadius" in
  [ "display: flex";
    "flex-direction: " ++ (if eq_str direction "col" then "column" else "row") ]
  ++ (if truthy gap then ["gap: " ++ py_str gap ++ "px"] else [])
  ++ (if truthy padding then ["padding: " ++ py_str padding ++ "px"] else [])
  ++ (if is_none flex then [] else ["flex: " ++ py_str flex])
  ++ (if is_none width then [] else ["width: " ++ format_css_value width])
  ++ (if is_none height then [] else ["height: " ++ format_css_value height])
  ++ (if truthy background_color
      then ["background-color: " ++ py_str background_color] else [])
  ++ (if is_none border_radius then []
      else ["border-radius: " ++ py_str border_radius ++ "px"]).

(** One alignment entry: the value is mapped through [table], or kept. *)
Definition align_style (property : string) (table : list (string * string))
    (align : value) : result (list string) :=
  if truthy align then
    mapped <- table_get table align align ;;
    Ok [property ++ ": " ++ py_str mapped]
  else Ok [].

Fixpoint render_node (fuel : nat) (node : value) (depth : nat) (st : cstate)
    {struct fuel} : result cstate :=
  match fuel with
  | O => Err OutOfFuel
  | S fuel' =>
      match node with
      | VDict node =>
          let indent := indent_of depth in
          if eq_str (get node "type") "container" then
            let children := get_default node "children" (VList []) in
            main_style <- align_style "justify-content" align_main_map
                            (get node "alignMain") ;;
            cross_style <- align_style "align-items" align_cross_map
                             (get node "alignCross") ;;
            style <- format_style_object
                       (app (container_styles node) (app main_style cross_style)) ;;
            let st := write (indent ++ "<div " ++ attr "style" style ++ ">") st in
            items <- py_iter children ;;
            st <- for_each (fun child => render_node fuel' child (S depth)) items st ;;
            Ok (write (indent ++ "</div>") st)
          else if eq_str (get node "type") "leaf" then
            render_leaf node depth st
          else Ok st
      | _ => Err AttributeError
      end
  end.

Definition widget_styles (widget : dict) : list string :=
  let background_color := get widget "backgroundColor" in
  let border_radius := get widget "borderRadius" in
  let padding := get widget "padding" in
  let width := get widget "width" in
  let height := get widget "height" in
  [ "background-color: " ++ py_str (py_or background_color (VStr "#f2f2f7"));
    "border-radius: "
      ++ py_str (if is_none border_radius then VInt 20 else border_radius) ++ "px";
    "padding: " ++ py_str (if is_none padding then VInt 16 else padding) ++ "px";
    "overflow: hidden";
    "display: inline-flex";
    "flex-direction: column";
    "box-sizing: border-box" ]
  ++ (if is_none width then [] else ["width: " ++ format_css_value width])
  ++ (if is_none height then [] else ["height: " ++ format_css_value height]).

(** [widget_dsl.get("widget", {}).get("root")]. *)
Definition widget_of (widget_dsl : dict) : result dict :=
  match get_default widget_dsl "widget" (VDict []) with
  | VDict widget => Ok widget
  | _ => Err AttributeError
  end.

Definition compile_widget_dsl_to_html (widget_dsl : dict) : result document :=
  widget <- widget_of widget_dsl ;;
  let root := get widget "root" in
  if negb (truthy root) then Err InvalidSpec
  else
    st <- render_node (S (nesting root)) root 0 initial_state ;;
    style <- format_style_object (widget_styles widget) ;;
    Ok (mkDocument style (styles st) (lines st) (scripts st)).
End Compiler.

(** ** Notions of the specification

    Definitions that follow the specification's wording; the theorems below
    relate them to the functions embedded from the source. *)

Local Open Scope Q_scope.

(** The main-axis distances between the children's rectangles that are
    neighbours once sorted by leading edge, as the specification words it. *)
Definition sorted_children (direction : string) (children : list layout_node) :
    list Rect.t :=
  sort_by (leading direction) (bounded_rects children).

Definition neighbour_distances (direction : string) (children : list layout_node) :
    list Q :=
  map (fun '(prev, curr) => leading direction curr - trailing direction prev)
    (adjacent_pairs (sorted_children direction children)).

Definition positive_distances (direction : string) (children : list layout_node) :
    list Q :=
  filter (fun g => Qlt_bool 0 g) (neighbour_distances direction children).




(** A whole number of pixels below [2^50] in magnitude.  On such numbers
    the sums, differences and halves that the engine takes are exact in
    double arithmetic, as they are in the model. *)
Definition whole (q : Q) : bool :=
  (Qeq_bool q (inject_Z (Qfloor q)) && (Z.abs (Qfloor q) <=? 2 ^ 50)%Z)%bool.

Definition pixel_rect (r : Rect.t) : bool :=
  (whole (Rect.left r) && whole (Rect.top r)
   && whole (Rect.right r) && whole (Rect.bottom r))%bool.

(** [round(max(0, child / parent), 3)] in double arithmetic: the quotient
    is a double, and so is the rounded ratio. *)
Definition flex_ratio (child_size parent_size : Q) : Q :=
  round_double (py_round_digits (Qmax 0 (round_double (child_size / parent_size))) 3).



(** A node's type, lower-cased, is none of the recognised leaf types. *)
Definition unrecognised_leaf_type (node : layout_node) : Prop :=
  let t := lower (match ln_type node with Some t => t | None => "" end) in
  t <> "text" /\ t <> "paragraph" /\ t <> "icon" /\ t <> "image".

(** ** Sample inputs *)

Definition sample_physical : size2 := (672 # 1, 1317 # 1).
Definition sample_virtual : size2 := (360 # 1, 720 # 1).

Definition bounds (l t r b : Z) : option Rect.t :=
  Some (Rect.mk (inject_Z l) (inject_Z t) (inject_Z r) (inject_Z b)).

(** [{"type": "button", "bounds": [0, 0, 10, 10]}]. *)
Definition sample_button : layout_node :=
  LayoutNode (bounds 0 0 10 10) (Some "button") None [] None None None.

(** [{"type": "wrapper", "bounds": [0, 0, 50, 40]}]. *)
Definition sample_wrapper : layout_node :=
  LayoutNode (bounds 0 0 50 40) (Some "wrapper") None [] None None None.

(** A text node of the given bounds. *)
Definition sample_text (b : option Rect.t) : layout_node :=
  LayoutNode b (Some "text") None [] (Some (VStr "Hi")) None None.

Definition wide_parent : Rect.t := Rect.mk 0 0 100 40.



(** ** Errors of the compiler *)

(** The exceptions Python itself raises on a value of the wrong kind; the
    others are the hard errors the specification names (and [OutOfFuel]). *)
Definition runtime_error (e : error) : bool :=
  match e with
  | TypeError | AttributeError | ZeroDivisionError | ValueError => true
  | _ => false
  end.

(** A computation that returns, or fails with a run-time error only. *)
Definition soft {A : Type} (r : result A) : Prop :=
  match r with
  | Ok _ => True
  | Err e => runtime_error e = true
  end.

(** The outcome of rendering a leaf: it returns, fails with a run-time
    error, or fails with [InvalidLeaf] on a leaf without component name. *)
Definition leaf_outcome (node : dict) (r : result cstate) : Prop :=
  match r with
  | Ok _ => truthy (get node "component") = true
  | Err e =>
      if truthy (get node "component") then runtime_error e = true
      else e = InvalidLeaf
  end.

(** The outcome of rendering a node: the only errors besides run-time errors
    are [InvalidLeaf] and the model's [OutOfFuel]. *)
Definition node_outcome (r : result cstate) : Prop :=
  match r with
  | Ok _ => True
  | Err e => runtime_error e = true \/ e = InvalidLeaf \/ e = OutOfFuel
  end.

(** ** Traversal of the compiler *)

(** [visits fuel root depth st fuel' node depth' st']: the traversal that
    [render_node fuel root depth st] starts comes to call
    [render_node fuel' node depth' st'], every node before [node] (in
    depth-first order) having been rendered without error. *)
Inductive visits (py_repr : value -> string) (id_entropy : nat -> string) :
    nat -> value -> nat -> cstate -> nat -> value -> nat -> cstate -> Prop :=
| visits_here (fuel : nat) (node : value) (depth : nat) (st : cstate) :
    visits py_repr id_entropy fuel node depth st fuel node depth st
| visits_child (fuel : nat) (node : dict) (depth : nat) (st : cstate)
    (main_style cross_style : list string) (style : string)
    (before : list value) (child : value) (after : list value) (st1 : cstate)
    (fuel' : nat) (node' : value) (depth' : nat) (st' : cstate) :
    eq_str (get node "type") "container" = true ->
    align_style py_repr "justify-content" align_main_map (get node "alignMain")
      = Ok main_style ->
    align_style py_repr "align-items" align_cross_map (get node "alignCross")
      = Ok cross_style ->
    format_style_object (container_styles py_repr node ++ main_style ++ cross_style)%list
      = Ok style ->
    py_iter (get_default node "children" (VList [])) = Ok (before ++ child :: after)%list ->
    for_each (fun c => render_node py_repr id_entropy fuel c (S depth)) before
      (write (indent_of depth ++ "<div " ++ attr "style" style ++ ">") st) = Ok st1 ->
    visits py_repr id_entropy fuel child (S depth) st1 fuel' node' depth' st' ->
    visits py_repr id_entropy (S fuel) (VDict node) depth st fuel' node' depth' st'.

(** A style entry that [format_style_object] can split at a colon. *)
Definition has_colon (s : string) : Prop := split_colon s <> None.

(** ** Sample widgets *)

(** [{"type": "leaf", "component": "Text", "content": "Hi"}]. *)
Definition sample_text_leaf : value :=
  VDict [("type", VStr "leaf"); ("component", VStr "Text"); ("content", VStr "Hi")].

(** [{"type": "leaf"}]: a leaf without component. *)
Definition sample_anonymous_leaf : dict := [("type", VStr "leaf")].

(** A widget whose root is a container of the two leaves above. *)
Definition sample_bad_widget : dict :=
  [("widget",
    VDict [("root",
            VDict [("type", VStr "container");
                   ("children", VList [sample_text_leaf; VDict sample_anonymous_leaf])])])].

(** ** Numbers inside JSON values *)

(** The value [v] is a number equal to [q]. *)
Definition number_is (v : value) (q : Q) : Prop :=
  exists x : Q, as_number v = Some x /\ x == q.

(** [percentage] clamped to the range from 0 to 100. *)
Definition clamp_percentage (p : Q) : Q := Qmin (Qmax p 0) 100.

(** An int (a bool counts as one), as opposed to a float. *)
Definition is_int (v : value) : bool :=
  match v with
  | VInt _ | VBool _ => true
  | _ => false
  end.

(** The number [q] held by [v] as an operand of float arithmetic: an int is
    converted to the nearest double. *)
Definition operand (v : value) (q : Q) : Q :=
  if is_int v then round_double q else q.

(** [(size - strokeWidth) / 2] as Python computes it, [s] and [w] being
    the numbers held by [size] and [stroke_width]: the difference of two
    ints is exact, any other difference is a double, and so is the
    quotient. *)
Definition ring_radius (size stroke_width : value) (s w : Q) : Q :=
  if (is_int size && is_int stroke_width)%bool
  then round_double ((s - w) / 2)
  else round_double (round_double (operand size s - operand stroke_width w) / 2).

(** [2 * pi * radius] and [circumference - percentage / 100 * circumference]
    in double arithmetic, [math.pi] being the double nearest to pi. *)
Definition ring_circumference (radius : Q) : Q := round_double (2 * math_pi * radius).
Definition ring_offset (circumference clamped : Q) : Q :=
  round_double
    (circumference - round_double (round_double (clamped / 100) * circumference)).

(** [progress * 100] as Python computes it: the product of ints for an int
    (or a bool), the double nearest to the product for a float. *)
Definition times_100 (progress : value) : option value :=
  match progress with
  | VInt z => Some (VInt (z * 100))
  | VBool b => Some (VInt (if b then 100 else 0))
  | VFloat q => Some (float (round_double (q * 100)))
  | _ => None
  end.

(** [{"progress": 0.07}]. *)
Definition sample_seven_percent : dict := [("progress", double (7 # 100))].

(** ** Well-formed DSL trees *)

(** A DSL tree in which every leaf carries a non-empty component name and
    every container an array of such trees. *)
Inductive dsl_tree : value -> Prop :=
| dsl_leaf (node : dict) (component : string) :
    get node "type" = VStr "leaf" ->
    get node "component" = VStr component ->
    component <> "" ->
    dsl_tree (VDict node)
| dsl_container (node : dict) (children : list value) :
    get node "type" = VStr "container" ->
    get_default node "children" (VList []) = VList children ->
    Forall dsl_tree children ->
    dsl_tree (VDict node).

(** [{"type": "wrapper", "direction": "row", "bounds": [0, 0, 100, 40],
      "subNodes": [text, icon]}]. *)
Definition sample_layout : layout_node :=
  LayoutNode (bounds 0 0 100 40) (Some "wrapper") (Some "Row")
    [ sample_text (bounds 0 0 40 40);
      LayoutNode (bounds 50 0 100 40) (Some "icon") None [] None
        (Some (VStr "sf:gear")) None ]
    None None None.

(** ** Sample environment of the compiler *)

(** A stand-in for Python's printing of floats and containers, and for the
    clock and random source of [unique_id]. *)
Definition sample_repr (v : value) : string := "<repr>".
Definition sample_entropy (n : nat) : string := "1700000000000-" ++ nat_text n.

(** [{"type": "spacer"}]: a node that is neither container nor leaf. *)
Definition sample_spacer : dict := [("type", VStr "spacer")].

(** [{"progress": 1.5}]. *)
Definition sample_overfull_bar : dict := [("progress", float (15 # 10))].

(** ** Further notions used by the properties of the engine *)


(** A layout tree in whole pixels: every node's bounds, where present, are
    whole numbers of pixels below [2^50], and so is its line count. *)
Fixpoint pixel_tree (node : layout_node) : bool :=
  (match ln_bounds node with Some r => pixel_rect r | None => true end
   && match ln_num_line node with
      | Some n => (Z.abs n <=? 2 ^ 50)%Z
      | None => true
      end
   && forallb pixel_tree (ln_subNodes node))%bool.

(** A device size in whole pixels. *)
Definition pixel_size (size : size2) : bool := (whole (fst size) && whole (snd size))%bool.


(** The values [alignMain] and [alignCross] can take. *)
Definition main_alignment (s : string) : Prop :=
  s = "between" \/ s = "center" \/ s = "start" \/ s = "end".
Definition cross_alignment (s : string) : Prop :=
  s = "center" \/ s = "start" \/ s = "end".

(** ** What rendering does to the compiler's state *)

(** [trace st st']: [st'] comes from [st] by the elementary steps the
    renderers make: a markup line is appended; a button or ring snippet is
    appended; [unique_id] is called; a chart (a sparkline) takes the next
    identifier of its counter, appends its element and its snippet. *)
Inductive trace (st : cstate) : cstate -> Prop :=
| trace_nil : trace st st
| trace_write (st' : cstate) (line : string) :
    trace st st' -> trace st (write line st')
| trace_button (st' : cstate) (button_id : string) :
    trace st st' -> trace st (write_script (ButtonScript button_id) st')
| trace_ring (st' : cstate) (ring_id : string) (offset circumference : value) :
    trace st st' ->
    trace st (write_script (ProgressRingScript ring_id offset circumference) st')
| trace_id (st' : cstate) :
    trace st st' ->
    trace st (mkState (lines st') (scripts st') (styles st')
                (counter_chart st') (counter_sparkline st') (S (ids_issued st')))
| trace_chart (st' : cstate) (line : string) (chart_option : value) :
    trace st st' ->
    trace st
      (write_script (ChartScript ("chart-" ++ nat_text (counter_chart st')) chart_option)
         (write line
            (mkState (lines st') (scripts st') (styles st')
               (S (counter_chart st')) (counter_sparkline st') (ids_issued st'))))
| trace_sparkline (st' : cstate) (line : string) (w h data color : value) :
    trace st st' ->
    trace st
      (write_script
         (SparklineScript ("sparkline-" ++ nat_text (counter_sparkline st')) w h data color)
         (write line
            (mkState (lines st') (scripts st') (styles st')
               (counter_chart st') (S (counter_sparkline st')) (ids_issued st')))).

(** A computation on the state that, when it returns, has made such steps. *)
Definition traced (st : cstate) (r : result cstate) : Prop :=
  match r with
  | Ok st' => trace st st'
  | Err _ => True
  end.

(** The identifiers of the chart (sparkline) snippets, in order. *)
Definition chart_ids (ss : list script) : list string :=
  flat_map (fun s => match s with ChartScript id _ => [id] | _ => [] end) ss.
Definition sparkline_ids (ss : list script) : list string :=
  flat_map (fun s => match s with SparklineScript id _ _ _ _ => [id] | _ => [] end) ss.

(** [prefix-0, prefix-1, ..., prefix-(n-1)]. *)
Definition numbered (prefix : string) (n : nat) : list string :=
  map (fun i => prefix ++ nat_text i) (seq 0 n).

(** The identifiers given out so far are the first ones of each counter. *)
Definition counters_match (st : cstate) : Prop :=
  chart_ids (scripts st) = numbered "chart-" (counter_chart st) /\
  sparkline_ids (scripts st) = numbered "sparkline-" (counter_sparkline st).

(** [st'] keeps everything [st] holds and adds to it. *)
Definition extends (st st' : cstate) : Prop :=
  (exists new_lines, lines st' = lines st ++ new_lines)%list /\
  (exists new_scripts, scripts st' = scripts st ++ new_scripts)%list /\
  styles st' = styles st /\
  (counter_chart st <= counter_chart st')%nat /\
  (counter_sparkline st <= counter_sparkline st')%nat /\
  (ids_issued st <= ids_issued st')%nat.

(** A widget with a chart, a sparkline and a second chart. *)
Definition sample_charts_widget : dict :=
  [("widget",
    VDict [("root",
            VDict [("type", VStr "container");
                   ("children",
                    VList [VDict [("type", VStr "leaf"); ("component", VStr "LineChart")];
                           VDict [("type", VStr "leaf"); ("component", VStr "Sparkline")];
                           VDict [("type", VStr "leaf"); ("component", VStr "PieChart")]])])])].

(** ** Layout trees the compiler can render *)

(** The ["content"] of every childless icon node (its icon name) is
    hashable: a string, a number, a boolean, null or absent. *)
Fixpoint icon_names_hashable (node : layout_node) : bool :=
  (match _leaf_component node with
   | Some component =>
       if String.eqb component "Icon"
       then hashable (text_or_empty (ln_content node))
       else true
   | None => true
   end
   && forallb icon_names_hashable (ln_subNodes node))%bool.

(** The component names with a renderer of their own. *)
Definition catalogue : list string :=
  [ "Text"; "Button"; "Icon"; "Image"; "Checkbox"; "Divider"; "Indicator";
    "ProgressBar"; "ProgressRing"; "Sparkline";
    "LineChart"; "BarChart"; "StackedBarChart"; "RadarChart"; "PieChart" ].

(** [{"type": "leaf", "component": "Gauge", "content": "42"}]. *)
Definition sample_gauge : dict :=
  [("type", VStr "leaf"); ("component", VStr "Gauge"); ("content", VStr "42")].

(** A node that is rendered without error, at every depth and from every
    state. *)
Definition renders (py_repr : value -> string) (id_entropy : nat -> string)
    (v : value) : Prop :=
  forall depth st, exists st',
    render_node py_repr id_entropy (S (nesting v)) v depth st = Ok st'.

(** A value that is neither a string nor a container: null, a boolean or a
    number. *)
Definition scalar (v : value) : bool :=
  match v with
  | VNone | VBool _ | VInt _ | VFloat _ => true
  | _ => false
  end.

(** No character of [s] is a single or a double quote. *)
Fixpoint quote_free (s : string) : Prop :=
  match s with
  | EmptyString => True
  | String c rest => c <> "'"%char /\ c <> "034"%char /\ quote_free rest
  end.

(** No character of [s] is a colon. *)
Fixpoint colon_free (s : string) : Prop :=
  match s with
  | EmptyString => True
  | String c rest => c <> ":"%char /\ colon_free rest
  end.

(** [{"type": "container"}]: a container without children. *)
Definition sample_empty_container : dict := [("type", VStr "container")].

(** A button without icon, and the props of a ring at 150 percent. *)
Definition sample_button_props : dict := [("content", VStr "OK")].
Definition sample_ring_props : dict := [("percentage", VInt 150)].
(** * Properties *)

(** ** Arithmetic of the embedding *)



Lemma Qlt_bool_iff (a b : Q) : Qlt_bool a b = true <-> a < b.
Proof.
  unfold Qlt_bool. rewrite negb_true_iff.
  split; intro H.
  - apply Qnot_le_lt. intro Hle. apply Qle_bool_iff in Hle. congruence.
  - destruct (Qle_bool b a) eqn:E; [|reflexivity].
    apply Qle_bool_iff in E. exfalso. apply (Qlt_not_le _ _ H E).
Qed.

Lemma Qlt_bool_false_iff (a b : Q) : Qlt_bool a b = false <-> b <= a.
Proof.
  unfold Qlt_bool. rewrite negb_false_iff. apply Qle_bool_iff.
Qed.

Lemma Qle_bool_false_iff (a b : Q) : Qle_bool a b = false <-> b < a.
Proof.
  rewrite <- Qlt_bool_iff. unfold Qlt_bool.
  destruct (Qle_bool a b); simpl; split; congruence.
Qed.

Lemma Qeq_bool_false_iff (a b : Q) : Qeq_bool a b = false <-> ~ a == b.
Proof.
  split; intro H.
  - apply Qeq_bool_neq. exact H.
  - destruct (Qeq_bool a b) eqn:E; [|reflexivity].
    apply Qeq_bool_iff in E. contradiction.
Qed.

Lemma py_max_spec (a b : Q) :
  (a < b /\ py_max a b = b) \/ (b <= a /\ py_max a b = a).
Proof.
  unfold py_max. destruct (Qlt_bool a b) eqn:E.
  - left. apply Qlt_bool_iff in E. auto.
  - right. apply Qlt_bool_false_iff in E. auto.
Qed.


Lemma py_max_lower (a b : Q) : a <= py_max a b /\ b <= py_max a b.
Proof. destruct (py_max_spec a b) as [[H ->]|[H ->]]; split; lra. Qed.


Lemma height_nonneg (r : Rect.t) : 0 <= Rect.height r.
Proof. apply py_max_lower. Qed.

Lemma width_nonneg (r : Rect.t) : 0 <= Rect.width r.
Proof. apply py_max_lower. Qed.

(** [round] picks the floor or the next integer. *)
Lemma py_round_cases (q : Q) :
  let f := Qfloor q in
  (py_round q = f /\ q - inject_Z f <= 1 # 2) \/
  (py_round q = (f + 1)%Z /\ 1 # 2 <= q - inject_Z f).
Proof.
  unfold py_round. simpl.
  destruct (Qcompare_spec (q - inject_Z (Qfloor q)) (1 # 2)) as [H|H|H].
  - destruct (Z.even (Qfloor q)); [left|right]; split; auto; lra.
  - left. split; auto. lra.
  - right. split; auto. lra.
Qed.

Lemma py_round_comp (p q : Q) : p == q -> py_round p = py_round q.
Proof.
  intro H. unfold py_round.
  rewrite (Qfloor_comp _ _ H).
  assert (E : p - inject_Z (Qfloor q) == q - inject_Z (Qfloor q)) by (rewrite H; reflexivity).
  rewrite (Qcompare_comp _ _ E _ _ (Qeq_refl (1 # 2))). reflexivity.
Qed.

Lemma py_round_inject_Z (z : Z) : py_round (inject_Z z) = z.
Proof.
  unfold py_round. rewrite Qfloor_Z.
  destruct (Qcompare_spec (inject_Z z - inject_Z z) (1 # 2)) as [H|H|H]; try lra.
  reflexivity.
Qed.

(** [round] is monotone. *)
Lemma py_round_monotone (p q : Q) : p <= q -> (py_round p <= py_round q)%Z.
Proof.
  intro Hpq.
  pose proof (Qfloor_resp_le _ _ Hpq) as Hf.
  destruct (Z.eq_dec (Qfloor p) (Qfloor q)) as [E|NE].
  - unfold py_round. rewrite E.
    destruct (Qcompare_spec (p - inject_Z (Qfloor q)) (1 # 2)) as [Hp|Hp|Hp];
      destruct (Qcompare_spec (q - inject_Z (Qfloor q)) (1 # 2)) as [Hq|Hq|Hq];
      try lra; destruct (Z.even (Qfloor q)); lia.
  - assert (Hlt : (Qfloor p + 1 <= Qfloor q)%Z) by lia.
    destruct (py_round_cases p) as [[-> _]|[-> _]];
      destruct (py_round_cases q) as [[-> _]|[-> _]]; lia.
Qed.

Lemma py_round_nonpos (q : Q) : q <= 0 -> (py_round q <= 0)%Z.
Proof.
  intro H. apply py_round_monotone in H.
  change 0 with (inject_Z 0) in H. rewrite py_round_inject_Z in H. exact H.
Qed.

(** ** Double arithmetic *)

Lemma Qfloor_unique (z : Z) (y : Q) :
  inject_Z z <= y -> y < inject_Z (z + 1) -> Qfloor y = z.
Proof.
  intros Hl Hu.
  pose proof (Qfloor_resp_le _ _ Hl) as H1. rewrite Qfloor_Z in H1.
  pose proof (Qfloor_le y) as H2.
  assert (H3 : inject_Z (Qfloor y) < inject_Z (z + 1)) by lra.
  rewrite <- Zlt_Qlt in H3. lia.
Qed.

Lemma py_round_opp (x : Q) : py_round (- x) = (- py_round x)%Z.
Proof.
  pose proof (Qfloor_le x) as Hl. pose proof (Qlt_floor x) as Hu.
  rewrite inject_Z_plus in Hu. change (inject_Z 1) with 1 in Hu.
  destruct (Qeq_dec x (inject_Z (Qfloor x))) as [E|NE].
  - rewrite (py_round_comp x _ E).
    assert (E' : - x == inject_Z (- Qfloor x)) by (rewrite inject_Z_opp, <- E; reflexivity).
    rewrite (py_round_comp _ _ E'). rewrite !py_round_inject_Z. reflexivity.
  - assert (Hlt : inject_Z (Qfloor x) < x).
    { destruct (Qlt_le_dec (inject_Z (Qfloor x)) x) as [H1|H1]; [exact H1|].
      exfalso. apply NE. lra. }
    assert (Hf : Qfloor (- x) = (- Qfloor x - 1)%Z).
    { apply Qfloor_unique.
      - replace (- Qfloor x - 1)%Z with (- (Qfloor x + 1))%Z by lia.
        rewrite inject_Z_opp, inject_Z_plus. change (inject_Z 1) with 1. lra.
      - replace (- Qfloor x - 1 + 1)%Z with (- Qfloor x)%Z by lia.
        rewrite inject_Z_opp. lra. }
    unfold py_round. rewrite Hf.
    replace (- Qfloor x - 1)%Z with (- (Qfloor x + 1))%Z by lia.
    rewrite inject_Z_opp, inject_Z_plus. change (inject_Z 1) with 1.
    destruct (Qcompare_spec (x - inject_Z (Qfloor x)) (1 # 2)) as [H|H|H];
      destruct (Qcompare_spec (- x - - (inject_Z (Qfloor x) + 1)) (1 # 2)) as [H'|H'|H'];
      try lra; try lia.
    rewrite Z.even_opp, Z.even_add. simpl.
    destruct (Z.even (Qfloor x)); simpl; lia.
Qed.

(** *** Powers of two *)

Lemma pow2_pos (e : Z) : 0 < 2 ^ e.
Proof. apply Qpower_0_lt. reflexivity. Qed.

Lemma pow2_plus (a b : Z) : 2 ^ (a + b) == 2 ^ a * 2 ^ b.
Proof. apply Qpower_plus. discriminate. Qed.

Lemma pow2_le (a b : Z) : (a <= b)%Z -> 2 ^ a <= 2 ^ b.
Proof. intro H. apply Qpower_le_compat_l; [exact H|discriminate]. Qed.

Lemma pow2_lt (a b : Z) : (a < b)%Z -> 2 ^ a < 2 ^ b.
Proof. intro H. apply Qpower_lt_compat_l; [exact H|reflexivity]. Qed.

Lemma pow2_Z (a : Z) : (0 <= a)%Z -> 2 ^ a == inject_Z (2 ^ a).
Proof. intro H. rewrite (Zpower_Qpower 2 a H). reflexivity. Qed.

(** A multiple of [2^e] divided by [2^e]. *)
Lemma pow2_quotient (k e : Z) : (e <= k)%Z -> 2 ^ k / 2 ^ e == inject_Z (2 ^ (k - e)).
Proof.
  intro H. rewrite <- pow2_Z by lia.
  replace k with ((k - e) + e)%Z at 1 by lia. rewrite pow2_plus.
  field. pose proof (pow2_pos e). lra.
Qed.

(** *** The binary logarithm *)

Lemma Qlog2_spec (q : Q) : 0 < q -> 2 ^ Qlog2 q <= q /\ q < 2 ^ (Qlog2 q + 1).
Proof.
  intro Hq. destruct q as [n d]. unfold Qlog2. cbn [Qnum Qden].
  assert (Hn : (0 < n)%Z).
  { unfold Qlt in Hq. simpl in Hq. lia. }
  set (a := Z.log2 n). set (b := Z.log2 (Z.pos d)).
  destruct (Z.log2_spec n Hn) as [Ha1 Ha2]. fold a in Ha1, Ha2.
  destruct (Z.log2_spec (Z.pos d) (Pos2Z.is_pos d)) as [Hb1 Hb2]. fold b in Hb1, Hb2.
  assert (Ha0 : (0 <= a)%Z) by apply Z.log2_nonneg.
  assert (Hb0 : (0 <= b)%Z) by apply Z.log2_nonneg.
  assert (Eq : n # d == inject_Z n / inject_Z (Z.pos d)) by apply Qmake_Qdiv.
  assert (Hd : 0 < inject_Z (Z.pos d)).
  { change 0 with (inject_Z 0). rewrite <- Zlt_Qlt. lia. }
  assert (Hup : n # d < 2 ^ (a - b + 1)).
  { rewrite Eq. apply Qlt_shift_div_r; [exact Hd|].
    replace (a - b + 1)%Z with ((a + 1) + - b)%Z by lia.
    rewrite pow2_plus, Qpower_opp.
    assert (H1 : inject_Z n < 2 ^ (a + 1)).
    { rewrite pow2_Z by lia. rewrite <- Zlt_Qlt. replace (a + 1)%Z with (Z.succ a) by lia.
      exact Ha2. }
    assert (H2 : 2 ^ b <= inject_Z (Z.pos d)).
    { rewrite pow2_Z by lia. rewrite <- Zle_Qle. exact Hb1. }
    pose proof (pow2_pos b) as Hpb. pose proof (pow2_pos (a + 1)) as Hpa.
    assert (E : 2 ^ (a + 1) * / 2 ^ b * inject_Z (Z.pos d)
                == 2 ^ (a + 1) * (inject_Z (Z.pos d) / 2 ^ b)) by (field; lra).
    rewrite E.
    assert (H3 : 1 <= inject_Z (Z.pos d) / 2 ^ b).
    { apply Qle_shift_div_l; [exact Hpb|]. lra. }
    nra. }
  assert (Hlow : 2 ^ (a - b - 1) < n # d).
  { rewrite Eq. apply Qlt_shift_div_l; [exact Hd|].
    replace (a - b - 1)%Z with (a + - (b + 1))%Z by lia.
    rewrite pow2_plus, Qpower_opp.
    assert (H1 : 2 ^ a <= inject_Z n).
    { rewrite pow2_Z by lia. rewrite <- Zle_Qle. exact Ha1. }
    assert (H2 : inject_Z (Z.pos d) < 2 ^ (b + 1)).
    { rewrite pow2_Z by lia. rewrite <- Zlt_Qlt. replace (b + 1)%Z with (Z.succ b) by lia.
      exact Hb2. }
    pose proof (pow2_pos (b + 1)) as Hpb. pose proof (pow2_pos a) as Hpa.
    assert (E : 2 ^ a * / 2 ^ (b + 1) * inject_Z (Z.pos d)
                == 2 ^ a * (inject_Z (Z.pos d) / 2 ^ (b + 1))) by (field; lra).
    rewrite E.
    assert (H3 : inject_Z (Z.pos d) / 2 ^ (b + 1) < 1).
    { apply Qlt_shift_div_r; [exact Hpb|]. lra. }
    nra. }
  destruct (Qle_bool (2 ^ (a - b)) (n # d)) eqn:E.
  - apply Qle_bool_iff in E. split; [exact E|exact Hup].
  - split; [apply Qlt_le_weak; exact Hlow|].
    replace (a - b - 1 + 1)%Z with (a - b)%Z by lia.
    apply Qnot_le_lt. intro H. apply Qle_bool_iff in H. congruence.
Qed.

Lemma Qlog2_unique (q : Q) (l : Z) :
  2 ^ l <= q -> q < 2 ^ (l + 1) -> Qlog2 q = l.
Proof.
  intros Hl Hu.
  assert (Hq : 0 < q) by (pose proof (pow2_pos l); lra).
  destruct (Qlog2_spec q Hq) as [Hl' Hu'].
  destruct (Z.lt_trichotomy (Qlog2 q) l) as [H|[H|H]]; [|exact H|]; exfalso.
  - assert (2 ^ (Qlog2 q + 1) <= 2 ^ l) by (apply pow2_le; lia). lra.
  - assert (2 ^ (l + 1) <= 2 ^ Qlog2 q) by (apply pow2_le; lia). lra.
Qed.

Lemma Qlog2_comp (p q : Q) : 0 < p -> p == q -> Qlog2 p = Qlog2 q.
Proof.
  intros Hp E. destruct (Qlog2_spec p Hp) as [Hl Hu].
  symmetry. apply Qlog2_unique; rewrite <- E; assumption.
Qed.

Lemma Qlog2_monotone (p q : Q) : 0 < p -> p <= q -> (Qlog2 p <= Qlog2 q)%Z.
Proof.
  intros Hp Hpq.
  destruct (Qlog2_spec p Hp) as [Hl _].
  destruct (Qlog2_spec q ltac:(lra)) as [_ Hu].
  destruct (Z_le_gt_dec (Qlog2 p) (Qlog2 q)) as [H|H]; [exact H|exfalso].
  assert (2 ^ (Qlog2 q + 1) <= 2 ^ Qlog2 p) by (apply pow2_le; lia). lra.
Qed.

(** *** Rounding to a double *)

Lemma round_at_monotone (e : Z) (p q : Q) : p <= q -> round_at e p <= round_at e q.
Proof.
  intro H. unfold round_at. pose proof (pow2_pos e) as He.
  apply Qmult_le_compat_r; [|lra].
  rewrite <- Zle_Qle. apply py_round_monotone.
  apply Qmult_le_compat_r; [exact H|].
  apply Qlt_le_weak, Qinv_lt_0_compat. exact He.
Qed.

Lemma round_at_multiple (e : Z) (m : Z) : round_at e (inject_Z m * 2 ^ e) == inject_Z m * 2 ^ e.
Proof.
  unfold round_at. pose proof (pow2_pos e) as He.
  assert (E : inject_Z m * 2 ^ e / 2 ^ e == inject_Z m) by (field; lra).
  rewrite (py_round_comp _ _ E), py_round_inject_Z. reflexivity.
Qed.

Lemma round_at_pow2 (e k : Z) : (e <= k)%Z -> round_at e (2 ^ k) == 2 ^ k.
Proof.
  intro H.
  assert (E : 2 ^ k == inject_Z (2 ^ (k - e)) * 2 ^ e).
  { rewrite <- pow2_Z by lia. rewrite <- pow2_plus. replace (k - e + e)%Z with k by lia.
    reflexivity. }
  unfold round_at. pose proof (pow2_pos e) as He.
  assert (E' : 2 ^ k / 2 ^ e == inject_Z (2 ^ (k - e))) by (rewrite E; field; lra).
  rewrite (py_round_comp _ _ E'), py_round_inject_Z. rewrite E. reflexivity.
Qed.

Lemma round_at_opp (e : Z) (q : Q) : round_at e (- q) == - round_at e q.
Proof.
  unfold round_at. pose proof (pow2_pos e) as He.
  assert (E : - q / 2 ^ e == - (q / 2 ^ e)) by (field; lra).
  rewrite (py_round_comp _ _ E), py_round_opp, inject_Z_opp. ring.
Qed.

Lemma round_at_comp (e : Z) (p q : Q) : p == q -> round_at e p == round_at e q.
Proof.
  intro H. unfold round_at.
  assert (E : p / 2 ^ e == q / 2 ^ e) by (rewrite H; reflexivity).
  rewrite (py_round_comp _ _ E). reflexivity.
Qed.

Lemma round_double_unfold (q : Q) :
  ~ q == 0 -> round_double q = round_at (ulp_exponent q) q.
Proof.
  intro H. unfold round_double.
  destruct (Qeq_bool q 0) eqn:E; [|reflexivity].
  apply Qeq_bool_iff in E. contradiction.
Qed.

Lemma round_double_zero (q : Q) : q == 0 -> round_double q = 0.
Proof.
  intro H. unfold round_double. apply Qeq_bool_iff in H. rewrite H. reflexivity.
Qed.

Lemma Qabs_positive (q : Q) : ~ q == 0 -> 0 < Qabs q.
Proof.
  intro H. destruct (Qlt_le_dec q 0) as [Hn|Hp].
  - rewrite Qabs_neg by lra. lra.
  - rewrite Qabs_pos by lra.
    destruct (Qlt_le_dec 0 q) as [H1|H1]; [exact H1|]. exfalso. apply H. lra.
Qed.

Lemma ulp_exponent_comp (p q : Q) : ~ p == 0 -> p == q -> ulp_exponent p = ulp_exponent q.
Proof.
  intros Hp E. unfold ulp_exponent. f_equal. f_equal.
  apply Qlog2_comp; [apply Qabs_positive; exact Hp|rewrite E; reflexivity].
Qed.

Lemma ulp_exponent_opp (q : Q) : ulp_exponent (- q) = ulp_exponent q.
Proof.
  unfold ulp_exponent. destruct q as [n d]. unfold Qopp, Qabs. cbn [Qnum Qden].
  rewrite Z.abs_opp. reflexivity.
Qed.

Lemma round_double_comp (p q : Q) : p == q -> round_double p == round_double q.
Proof.
  intro E. destruct (Qeq_dec p 0) as [Hz|Hnz].
  - rewrite (round_double_zero p Hz), (round_double_zero q); [reflexivity|].
    rewrite <- E. exact Hz.
  - assert (Hq : ~ q == 0) by (rewrite <- E; exact Hnz).
    rewrite (round_double_unfold p Hnz), (round_double_unfold q Hq).
    rewrite (ulp_exponent_comp p q Hnz E). apply round_at_comp. exact E.
Qed.

Lemma round_double_opp (q : Q) : round_double (- q) == - round_double q.
Proof.
  destruct (Qeq_dec q 0) as [Hz|Hnz].
  - rewrite (round_double_zero q Hz), (round_double_zero (- q)); [reflexivity|].
    rewrite Hz. reflexivity.
  - assert (Hq : ~ - q == 0) by (intro H; apply Hnz; lra).
    rewrite (round_double_unfold q Hnz), (round_double_unfold _ Hq).
    rewrite ulp_exponent_opp. apply round_at_opp.
Qed.

(** The exponent of a positive number. *)
Lemma ulp_exponent_pos (q : Q) :
  0 < q -> ulp_exponent q = Z.max (Qlog2 q - 52) (-1074).
Proof.
  intro H. unfold ulp_exponent. f_equal. f_equal.
  apply Qlog2_comp; [apply Qabs_positive; lra|apply Qabs_pos; lra].
Qed.

Lemma round_double_pos_monotone (p q : Q) :
  0 < p -> p <= q -> round_double p <= round_double q.
Proof.
  intros Hp Hpq.
  assert (Hq : 0 < q) by lra.
  rewrite (round_double_unfold p) by lra. rewrite (round_double_unfold q) by lra.
  rewrite (ulp_exponent_pos p Hp), (ulp_exponent_pos q Hq).
  pose proof (Qlog2_monotone p q Hp Hpq) as Hl.
  destruct (Qlog2_spec p Hp) as [_ Hup]. destruct (Qlog2_spec q Hq) as [Hlq _].
  set (lp := Qlog2 p) in *. set (lq := Qlog2 q) in *.
  set (ep := Z.max (lp - 52) (-1074)). set (eq := Z.max (lq - 52) (-1074)).
  destruct (Z.eq_dec ep eq) as [E|NE].
  - rewrite E. apply round_at_monotone. exact Hpq.
  - assert (Hlt : (ep < eq)%Z) by lia.
    assert (Heq : eq = (lq - 52)%Z) by lia.
    assert (Hb1 : p <= 2 ^ lq).
    { apply Qle_trans with (2 ^ (lp + 1)); [lra|]. apply pow2_le. lia. }
    apply Qle_trans with (2 ^ lq).
    + rewrite <- (round_at_pow2 ep lq) by lia. apply round_at_monotone. exact Hb1.
    + rewrite <- (round_at_pow2 eq lq) at 1 by lia. apply round_at_monotone. exact Hlq.
Qed.

Lemma round_double_nonneg (q : Q) : 0 <= q -> 0 <= round_double q.
Proof.
  intro H. destruct (Qeq_dec q 0) as [Hz|Hnz].
  - rewrite (round_double_zero q Hz). lra.
  - rewrite (round_double_unfold q Hnz). unfold round_at.
    pose proof (pow2_pos (ulp_exponent q)) as He.
    apply Qmult_le_0_compat; [|lra].
    change 0 with (inject_Z 0). rewrite <- Zle_Qle.
    rewrite <- (py_round_inject_Z 0). apply py_round_monotone.
    change (inject_Z 0) with 0. apply Qle_shift_div_l; [exact He|]. lra.
Qed.

(** Rounding to a double is monotone. *)
Lemma round_double_monotone (p q : Q) : p <= q -> round_double p <= round_double q.
Proof.
  intro H.
  destruct (Qlt_le_dec 0 p) as [Hp|Hp].
  - apply round_double_pos_monotone; assumption.
  - destruct (Qlt_le_dec q 0) as [Hq|Hq].
    + assert (Hm : round_double (- q) <= round_double (- p)).
      { apply round_double_pos_monotone; lra. }
      rewrite !round_double_opp in Hm. lra.
    + apply Qle_trans with 0.
      * assert (Hm : 0 <= round_double (- p)) by (apply round_double_nonneg; lra).
        rewrite round_double_opp in Hm. lra.
      * apply round_double_nonneg. exact Hq.
Qed.

(** A multiple of [2^e] that has at most 53 significant bits is a double. *)
Lemma round_double_exact (q : Q) (m e : Z) :
  q == inject_Z m * 2 ^ e -> (ulp_exponent q <= e)%Z -> round_double q == q.
Proof.
  intros E He. destruct (Qeq_dec q 0) as [Hz|Hnz].
  - rewrite (round_double_zero q Hz). symmetry. exact Hz.
  - rewrite (round_double_unfold q Hnz).
    set (u := ulp_exponent q) in *.
    assert (E' : q == inject_Z (m * 2 ^ (e - u)) * 2 ^ u).
    { rewrite E, inject_Z_mult, <- pow2_Z by lia.
      rewrite <- Qmult_assoc, <- pow2_plus. replace (e - u + u)%Z with e by lia.
      reflexivity. }
    rewrite (round_at_comp u _ _ E'), round_at_multiple. symmetry. exact E'.
Qed.

(** An integer below [2^53] in magnitude is a double. *)
Lemma round_double_int (z : Z) : (Z.abs z < 2 ^ 53)%Z -> round_double (inject_Z z) == inject_Z z.
Proof.
  intro H. apply (round_double_exact _ z 0).
  - change (2 ^ 0) with 1. ring.
  - destruct (Z.eq_dec z 0) as [->|NZ]; [vm_compute; discriminate|].
    assert (Hp : 0 < Qabs (inject_Z z)).
    { apply Qabs_positive. change 0 with (inject_Z 0). rewrite inject_Z_injective. exact NZ. }
    destruct (Qlog2_spec _ Hp) as [Hl _].
    assert (Hu : Qabs (inject_Z z) < 2 ^ 53).
    { rewrite (pow2_Z 53) by lia.
      assert (Ea : Qabs (inject_Z z) == inject_Z (Z.abs z)).
      { unfold Qabs, inject_Z. reflexivity. }
      rewrite Ea, <- Zlt_Qlt. exact H. }
    assert (Hl2 : (Qlog2 (Qabs (inject_Z z)) < 53)%Z).
    { apply Qpower_lt_compat_l_inv with (q := 2); [lra|reflexivity]. }
    unfold ulp_exponent. lia.
Qed.

Lemma py_round_error (y : Q) : Qabs (inject_Z (py_round y) - y) <= 1 # 2.
Proof.
  pose proof (Qfloor_le y) as Hl. pose proof (Qlt_floor y) as Hu.
  rewrite inject_Z_plus in Hu. change (inject_Z 1) with 1 in Hu.
  apply Qabs_Qle_condition.
  destruct (py_round_cases y) as [[-> H]|[-> H]].
  - split; lra.
  - rewrite inject_Z_plus. change (inject_Z 1) with 1. split; lra.
Qed.

(** Rounding to a double moves a number by at most half a unit in the last
    place: a relative error of [2^-53], or [2^-1075] near zero. *)
Lemma round_double_error (q : Q) :
  Qabs (round_double q - q) <= Qabs q * 2 ^ (-53) + 2 ^ (-1075).
Proof.
  pose proof (pow2_pos (-1075)) as Htiny. pose proof (pow2_pos (-53)) as Hrel.
  pose proof (Qabs_nonneg q) as Hq0.
  destruct (Qeq_dec q 0) as [Hz|Hnz].
  - rewrite (round_double_zero q Hz).
    assert (E : 0 - q == 0) by (rewrite Hz; reflexivity).
    rewrite E. change (Qabs 0) with 0. nra.
  - rewrite (round_double_unfold q Hnz). unfold round_at.
    set (e := ulp_exponent q). pose proof (pow2_pos e) as He.
    set (y := q / 2 ^ e).
    assert (Ey : inject_Z (py_round y) * 2 ^ e - q == (inject_Z (py_round y) - y) * 2 ^ e).
    { unfold y. field. lra. }
    rewrite Ey, Qabs_Qmult, (Qabs_pos (2 ^ e)) by lra.
    pose proof (py_round_error y) as Hy.
    apply Qle_trans with ((1 # 2) * 2 ^ e).
    { apply Qmult_le_compat_r; [exact Hy|lra]. }
    assert (Ehalf : (1 # 2) * 2 ^ e == 2 ^ (e - 1)).
    { replace (e - 1)%Z with (e + -1)%Z by lia. rewrite pow2_plus.
      change (2 ^ (-1)) with (1 # 2). ring. }
    rewrite Ehalf. clear Ehalf Ey Hy.
    unfold e, ulp_exponent.
    destruct (Z.max_spec (Qlog2 (Qabs q) - 52) (-1074)) as [[Hlt ->]|[Hge ->]].
    + change (-1074 - 1)%Z with (-1075)%Z. nra.
    + destruct (Qlog2_spec (Qabs q) (Qabs_positive q Hnz)) as [Hlow _].
      replace (Qlog2 (Qabs q) - 52 - 1)%Z with (Qlog2 (Qabs q) + -53)%Z by lia.
      rewrite pow2_plus.
      apply Qle_trans with (Qabs q * 2 ^ (-53)); [|lra].
      apply Qmult_le_compat_r; [exact Hlow|lra].
Qed.

(** A double is its own rounding. *)
Lemma round_double_idempotent (q : Q) : round_double (round_double q) == round_double q.
Proof.
  destruct (Qeq_dec q 0) as [Hz|Hnz].
  - rewrite (round_double_zero q Hz). apply Qeq_refl.
  - assert (Hsym : forall x, 0 < x -> round_double (round_double x) == round_double x).
    { intros x Hx.
      destruct (Qlog2_spec x Hx) as [Hlow Hup].
      set (l := Qlog2 x) in *. set (e := Z.max (l - 52) (-1074)).
      pose proof (pow2_pos e) as He.
      set (m := py_round (x / 2 ^ e)).
      assert (Ev : round_double x == inject_Z m * 2 ^ e).
      { rewrite (round_double_unfold x) by lra.
        rewrite (ulp_exponent_pos x Hx). reflexivity. }
      rewrite (round_double_comp _ _ Ev), Ev.
      assert (Hm0 : (0 <= m)%Z).
      { unfold m. rewrite <- (py_round_inject_Z 0). apply py_round_monotone.
        change (inject_Z 0) with 0. apply Qle_shift_div_l; [exact He|]. lra. }
      assert (Hm1 : (m <= 2 ^ 53)%Z).
      { unfold m. rewrite <- (py_round_inject_Z (2 ^ 53)). apply py_round_monotone.
        apply Qle_shift_div_r; [exact He|].
        rewrite <- pow2_Z by lia. rewrite <- pow2_plus.
        apply Qle_trans with (2 ^ (l + 1)); [lra|]. apply pow2_le. lia. }
      destruct (Z.eq_dec m 0) as [E0|N0].
      { rewrite E0. rewrite (round_double_zero (inject_Z 0 * 2 ^ e)) by ring. ring. }
      destruct (Z.eq_dec m (2 ^ 53)) as [Etop|Ntop].
      - rewrite Etop. apply (round_double_exact _ 1 (e + 53)).
        + rewrite pow2_plus, <- pow2_Z by lia. ring.
        + assert (Etop' : inject_Z (2 ^ 53) * 2 ^ e == 2 ^ (e + 53)).
          { rewrite pow2_plus, <- pow2_Z by lia. ring. }
          assert (Hp : 0 < inject_Z (2 ^ 53) * 2 ^ e).
          { rewrite Etop'. apply pow2_pos. }
          rewrite (ulp_exponent_pos _ Hp).
          rewrite (Qlog2_unique _ (e + 53)).
          * lia.
          * rewrite Etop'. apply Qle_refl.
          * rewrite Etop'. apply pow2_lt. lia.
      - apply (round_double_exact _ m e); [reflexivity|].
        assert (Hp : 0 < inject_Z m * 2 ^ e).
        { apply Qmult_lt_0_compat; [|exact He].
          change 0 with (inject_Z 0). rewrite <- Zlt_Qlt. lia. }
        rewrite (ulp_exponent_pos _ Hp).
        assert (Hlog : (Qlog2 (inject_Z m * 2 ^ e) < e + 53)%Z).
        { destruct (Qlog2_spec _ Hp) as [Hl' _].
          apply Qpower_lt_compat_l_inv with (q := 2); [|reflexivity].
          apply Qle_lt_trans with (inject_Z m * 2 ^ e); [exact Hl'|].
          rewrite (Z.add_comm e 53), pow2_plus.
          apply Qmult_lt_compat_r; [exact He|].
          rewrite pow2_Z by lia. rewrite <- Zlt_Qlt. lia. }
        unfold e in *. lia. }
    destruct (Qlt_le_dec 0 q) as [Hp|Hn].
    + apply Hsym. exact Hp.
    + assert (Hneg : 0 < - q).
      { destruct (Qlt_le_dec q 0) as [H|H]; [lra|]. exfalso. apply Hnz. lra. }
      pose proof (Hsym (- q) Hneg) as H.
      rewrite (round_double_comp _ _ (round_double_opp q)) in H.
      rewrite !round_double_opp in H. lra.
Qed.

Lemma round_double_one : round_double 1 == 1.
Proof. vm_compute. reflexivity. Qed.

Lemma round_double_nonpos (q : Q) : q <= 0 -> round_double q <= 0.
Proof.
  intro H. apply round_double_monotone in H.
  rewrite (round_double_zero 0) in H by reflexivity. exact H.
Qed.

Lemma py_div_ok (a b : Q) : ~ b == 0 -> py_div a b = Ok (round_double (a / b)).
Proof.
  intro H. unfold py_div. apply Qeq_bool_false_iff in H. rewrite H. reflexivity.
Qed.

Lemma py_div_zero (a b : Q) : b == 0 -> py_div a b = Err ZeroDivisionError.
Proof.
  intro H. unfold py_div. apply Qeq_bool_iff in H. rewrite H. reflexivity.
Qed.

Lemma Qdiv_le_compat_pos (a b c : Q) : 0 < c -> a <= b -> a / c <= b / c.
Proof.
  intros Hc Hab. apply Qle_shift_div_l; [exact Hc|].
  assert (E : a / c * c == a) by (field; lra). rewrite E. exact Hab.
Qed.

Lemma Qdiv_nonneg_neg (a c : Q) : c < 0 -> 0 <= a -> a / c <= 0.
Proof.
  intros Hc Ha.
  assert (E : a / c == - (a / (- c))) by (field; lra). rewrite E.
  assert (0 <= a / (- c)).
  { apply Qle_shift_div_l; lra. }
  lra.
Qed.

(** ** C6: font size estimation *)

(** C6.  With a positive derived scale, [estimate_font_size] fails only on a
    zero line-height ratio (a division by zero, whatever the bounds); with any
    other ratio it returns for every bounds, the result is at least 10, and a
    taller bounds never gives a smaller size (device sizes, line count and
    ratio held fixed). *)
Theorem estimate_font_size_monotone_min10 :
  forall (b1 b2 : Rect.t) (physical_size virtual_size : size2)
         (num_lines : Z) (line_height_ratio : Q),
    0 < font_scale physical_size virtual_size ->
    Rect.height b1 <= Rect.height b2 ->
    (line_height_ratio == 0 ->
       estimate_font_size b1 physical_size virtual_size num_lines line_height_ratio
         = Err ZeroDivisionError /\
       estimate_font_size b2 physical_size virtual_size num_lines line_height_ratio
         = Err ZeroDivisionError) /\
    (~ line_height_ratio == 0 ->
       exists s1 s2 : Z,
         estimate_font_size b1 physical_size virtual_size num_lines line_height_ratio
           = Ok s1 /\
         estimate_font_size b2 physical_size virtual_size num_lines line_height_ratio
           = Ok s2 /\
         (10 <= s1)%Z /\ (s1 <= s2)%Z).
Proof.
  intros b1 b2 ps vs n ratio Hscale Hh.
  set (scale := font_scale ps vs) in *.
  assert (Hs : ~ scale == 0) by lra.
  set (count := round_double (inject_Z (Z.max 1 n))).
  assert (Hlines : 0 < count).
  { apply Qlt_le_trans with 1; [reflexivity|].
    rewrite <- round_double_one. apply round_double_monotone.
    change 1 with (inject_Z 1). rewrite <- Zle_Qle. lia. }
  assert (Hl : ~ count == 0) by lra.
  unfold estimate_font_size. fold scale. fold count.
  rewrite !(py_div_ok _ _ Hs). simpl bind.
  rewrite !(py_div_ok _ _ Hl). simpl bind.
  split.
  - intro Hz. rewrite !(py_div_zero _ _ Hz). auto.
  - intro Hnz. rewrite !(py_div_ok _ _ Hnz). simpl bind.
    eexists. eexists. split; [reflexivity|]. split; [reflexivity|].
    split; [lia|].
    pose proof (height_nonneg b1) as H1. pose proof (height_nonneg b2) as H2.
    set (x1 := round_double (round_double (Rect.height b1 / scale) / count)).
    set (x2 := round_double (round_double (Rect.height b2 / scale) / count)).
    assert (Hx1 : 0 <= x1).
    { unfold x1. apply round_double_nonneg. apply Qle_shift_div_l; [exact Hlines|].
      rewrite Qmult_0_l. apply round_double_nonneg.
      apply Qle_shift_div_l; [exact Hscale|]. lra. }
    assert (Hx2 : 0 <= x2).
    { unfold x2. apply round_double_nonneg. apply Qle_shift_div_l; [exact Hlines|].
      rewrite Qmult_0_l. apply round_double_nonneg.
      apply Qle_shift_div_l; [exact Hscale|]. lra. }
    assert (Hx : x1 <= x2).
    { unfold x1, x2. apply round_double_monotone.
      apply Qdiv_le_compat_pos; [exact Hlines|].
      apply round_double_monotone.
      apply Qdiv_le_compat_pos; [exact Hscale|exact Hh]. }
    destruct (Qlt_le_dec 0 ratio) as [Hpos|Hneg].
    + apply Z.max_le_compat_l. apply py_round_monotone.
      apply round_double_monotone.
      apply Qdiv_le_compat_pos; assumption.
    + assert (Hr : ratio < 0).
      { destruct (Qlt_le_dec ratio 0) as [H|H]; [exact H|]. exfalso. apply Hnz. lra. }
      pose proof (py_round_nonpos _
                    (round_double_nonpos _ (Qdiv_nonneg_neg _ _ Hr Hx1))).
      pose proof (py_round_nonpos _
                    (round_double_nonpos _ (Qdiv_nonneg_neg _ _ Hr Hx2))).
      lia.
Qed.

(** ** Sorting by key *)

Section SortFacts.
Context {A : Type} (key : A -> Q).

Lemma insert_by_perm (x : A) (l : list A) : Permutation (insert_by key x l) (x :: l).
Proof.
  induction l as [|y rest IH]; simpl.
  - apply Permutation_refl.
  - destruct (Qle_bool (key x) (key y)).
    + apply Permutation_refl.
    + eapply Permutation_trans; [apply perm_skip, IH|apply perm_swap].
Qed.

Lemma sort_by_perm (l : list A) : Permutation (sort_by key l) l.
Proof.
  induction l as [|x rest IH]; simpl.
  - apply perm_nil.
  - eapply Permutation_trans; [apply insert_by_perm|apply perm_skip, IH].
Qed.




Lemma sort_by_length (l : list A) : List.length (sort_by key l) = List.length l.
Proof. apply Permutation_length, sort_by_perm. Qed.
End SortFacts.


Lemma adjacent_pairs_short {A : Type} (l : list A) :
  (List.length l < 2)%nat -> adjacent_pairs l = [].
Proof.
  destruct l as [|a [|b rest]]; simpl; intro H; try reflexivity. lia.
Qed.

Lemma bounded_rects_length (children : list layout_node) :
  (List.length (bounded_rects children) <= List.length children)%nat.
Proof.
  induction children as [|c rest IH]; simpl; [lia|].
  destruct (ln_bounds c); simpl; lia.
Qed.

(** ** C4: gap inference *)

Lemma positive_distances_short (direction : string) (children : list layout_node) :
  (List.length (bounded_rects children) < 2)%nat ->
  positive_distances direction children = [].
Proof.
  intro H. unfold positive_distances, neighbour_distances, sorted_children.
  rewrite adjacent_pairs_short; [reflexivity|].
  rewrite sort_by_length. exact H.
Qed.

Lemma infer_gap_unfold (children : list layout_node) (direction : string) :
  _infer_gap children direction =
    match positive_distances direction children with
    | [] => 0%Z
    | _ :: _ => py_round (median (positive_distances direction children))
    end.
Proof.
  unfold _infer_gap.
  destruct (Nat.ltb_spec (List.length children) 2) as [H|H].
  - rewrite positive_distances_short; [reflexivity|].
    pose proof (bounded_rects_length children). lia.
  - destruct (Nat.ltb_spec (List.length (bounded_rects children)) 2) as [H'|H'].
    + rewrite positive_distances_short; [reflexivity|exact H'].
    + reflexivity.
Qed.



(** ** C5: main-axis alignment *)

Lemma within_iff (x tol : Q) : within x tol = true <-> Qabs x <= tol.
Proof. apply Qle_bool_iff. Qed.










(** ** The recursive conversion *)

Lemma convert_node_unfold (node : layout_node) (physical_size virtual_size : size2)
    (parent_rect : option Rect.t) (parent_direction : option string) :
  _convert_node node physical_size virtual_size parent_rect parent_direction =
    match _leaf_component node, _node_children node with
    | Some _, [] => _convert_leaf node (node_rect node) physical_size virtual_size
    | _, _ =>
        _convert_container
          (fun child pr pd => _convert_node child physical_size virtual_size pr pd)
          node (node_rect node) parent_rect parent_direction
    end.
Proof. destruct node; reflexivity. Qed.

Lemma leaf_component_cases (node : layout_node) :
  match _leaf_component node with
  | Some c => c = "Text" \/ c = "Icon" \/ c = "Image"
  | None => unrecognised_leaf_type node
  end.
Proof.
  unfold _leaf_component, unrecognised_leaf_type.
  set (t := lower match ln_type node with Some t => t | None => "" end).
  destruct (String.eqb_spec t "text") as [E1|E1]; simpl; [auto|].
  destruct (String.eqb_spec t "paragraph") as [E2|E2]; simpl; [auto|].
  destruct (String.eqb_spec t "icon") as [E3|E3]; [auto|].
  destruct (String.eqb_spec t "image") as [E4|E4]; [auto|].
  auto.
Qed.

Lemma leaf_component_unrecognised (node : layout_node) :
  unrecognised_leaf_type node -> _leaf_component node = None.
Proof.
  unfold _leaf_component, unrecognised_leaf_type.
  set (t := lower match ln_type node with Some t => t | None => "" end).
  intros (H1 & H2 & H3 & H4).
  apply String.eqb_neq in H1, H2, H3, H4.
  rewrite H1, H2, H3, H4. reflexivity.
Qed.

(** A converted leaf is tagged ["leaf"] and names its component. *)
Lemma convert_leaf_shape (node : layout_node) (rect : Rect.t)
    (physical_size virtual_size : size2) (v : value) :
  _convert_leaf node rect physical_size virtual_size = Ok v ->
  exists (component : string) (fields : dict),
    _leaf_component node = Some component /\
    v = VDict (("type", VStr "leaf") :: ("component", VStr component) :: fields).
Proof.
  unfold _convert_leaf.
  destruct (_leaf_component node) as [component|]; [|discriminate].
  destruct (String.eqb component "Text").
  - destruct (estimate_font_size _ _ _ _ _); simpl; [|discriminate].
    intro H. injection H as <-. eauto.
  - destruct (String.eqb component "Icon").
    + intro H. injection H as <-. eauto.
    + destruct (String.eqb component "Image"); intro H; injection H as <-; eauto.
Qed.

(** The fields of a converted container, in order. *)
Lemma convert_container_shape
    (convert_child : layout_node -> option Rect.t -> option string -> result value)
    (node : layout_node) (rect : Rect.t)
    (parent_rect : option Rect.t) (parent_direction : option string) (v : value) :
  _convert_container convert_child node rect parent_rect parent_direction = Ok v ->
  exists children : list value,
    mapM (fun child => convert_child child (Some rect)
                         (Some (_map_direction (ln_direction node))))
      (_node_children node) = Ok children /\
    v = VDict
          ([("type", VStr "container");
            ("direction", VStr (_map_direction (ln_direction node)));
            ("gap", VInt (_infer_gap (_node_children node)
                            (_map_direction (ln_direction node))))]
           ++ optional_field "alignMain" VStr
                (_align_main rect (bounded_rects (_node_children node))
                   (_map_direction (ln_direction node)))
           ++ optional_field "alignCross" VStr
                (_align_cross rect (bounded_rects (_node_children node))
                   (_map_direction (ln_direction node)))
           ++ optional_field "flex" float
                (_infer_flex rect parent_rect parent_direction)
           ++ [("children", VList children)]).
Proof.
  unfold _convert_container.
  destruct (mapM _ (_node_children node)) as [children|e]; simpl; [|discriminate].
  intro H. injection H as <-. exists children. split; reflexivity.
Qed.


Lemma py_round_digits_comp (p q : Q) (n : nat) :
  p == q -> py_round_digits p n = py_round_digits q n.
Proof.
  intro H. unfold py_round_digits.
  rewrite (py_round_comp (p * inject_Z (10 ^ Z.of_nat n)) (q * inject_Z (10 ^ Z.of_nat n)));
    [reflexivity|].
  rewrite H. reflexivity.
Qed.

Lemma py_round_digits_nonneg (q : Q) (n : nat) : 0 <= q -> 0 <= py_round_digits q n.
Proof.
  intro H. unfold py_round_digits.
  assert (Hs : 0 < inject_Z (10 ^ Z.of_nat n)).
  { change 0 with (inject_Z 0). rewrite <- Zlt_Qlt. apply Z.pow_pos_nonneg; lia. }
  assert (Hr : (0 <= py_round (q * inject_Z (10 ^ Z.of_nat n)))%Z).
  { rewrite <- (py_round_inject_Z 0). apply py_round_monotone.
    change (inject_Z 0) with 0. apply Qmult_le_0_compat; lra. }
  apply Qle_shift_div_l; [exact Hs|].
  rewrite Qmult_0_l. change 0 with (inject_Z 0). rewrite <- Zle_Qle. exact Hr.
Qed.

(** ** C1: childless nodes of unrecognised type *)

(** C1 (as amended).  A node without children whose lower-cased type is none
    of text, paragraph, icon, image is converted, without error, to a
    container with gap 0 and an empty child list; [UnsupportedNodeType] is
    what the leaf converter raises on such a node, and [_convert_node] never
    hands it one. *)
Theorem convert_unrecognised_childless_is_container :
  forall (node : layout_node) (physical_size virtual_size : size2)
         (parent_rect : option Rect.t) (parent_direction : option string),
    _node_children node = [] ->
    unrecognised_leaf_type node ->
    _convert_node node physical_size virtual_size parent_rect parent_direction
      = Ok (VDict
              ([("type", VStr "container");
                ("direction", VStr (_map_direction (ln_direction node)));
                ("gap", VInt 0)]
               ++ optional_field "flex" float
                    (_infer_flex (node_rect node) parent_rect parent_direction)
               ++ [("children", VList [])])) /\
    _convert_leaf node (node_rect node) physical_size virtual_size
      = Err UnsupportedNodeType.
Proof.
  intros node ps vs pr pd Hch Hty.
  apply leaf_component_unrecognised in Hty.
  split.
  - rewrite convert_node_unfold, Hty.
    unfold _convert_container. rewrite Hch. reflexivity.
  - unfold _convert_leaf. rewrite Hty. reflexivity.
Qed.

(** ** C7: flex of a converted container *)

Lemma flex_ratio_comp (c c' p p' : Q) :
  c == c' -> p == p' -> flex_ratio c p == flex_ratio c' p'.
Proof.
  intros Ec Ep. unfold flex_ratio.
  assert (E : Qmax 0 (round_double (c / p)) == Qmax 0 (round_double (c' / p'))).
  { assert (E' : round_double (c / p) == round_double (c' / p')).
    { apply round_double_comp. rewrite Ec, Ep. reflexivity. }
    rewrite E'. reflexivity. }
  rewrite (py_round_digits_comp _ _ 3 E). reflexivity.
Qed.





Lemma float_comp (p q : Q) : p == q -> float p = float q.
Proof. intro E. unfold float. rewrite (Qred_complete _ _ E). reflexivity. Qed.


(** ** The theorems at concrete inputs *)

(** C1, as stated, fails: a childless node of type "button" is converted to
    an empty container, and no error is raised. *)
Lemma convert_button_is_empty_container :
  _node_children sample_button = [] /\
  unrecognised_leaf_type sample_button /\
  _convert_node sample_button sample_physical sample_virtual None None
    = Ok (VDict [("type", VStr "container"); ("direction", VStr "col");
                 ("gap", VInt 0); ("children", VList [])]) /\
  _convert_node sample_button sample_physical sample_virtual None None
    <> Err UnsupportedNodeType.
Proof.
  split; [reflexivity|]. split; [repeat split; discriminate|].
  split; [reflexivity|discriminate].
Qed.

Lemma convert_unrecognised_childless_witness :
  _convert_node sample_wrapper sample_physical sample_virtual
      (Some wide_parent) (Some "row")
    = Ok (VDict [("type", VStr "container"); ("direction", VStr "col");
                 ("gap", VInt 0); ("flex", VFloat (1 # 2));
                 ("children", VList [])]) /\
  _convert_leaf sample_wrapper (node_rect sample_wrapper) sample_physical sample_virtual
    = Err UnsupportedNodeType.
Proof.
  apply (convert_unrecognised_childless_is_container sample_wrapper
           sample_physical sample_virtual (Some wide_parent) (Some "row")).
  - reflexivity.
  - repeat split; discriminate.
Defined.

Lemma estimate_font_size_witness :
  exists s1 s2 : Z,
    estimate_font_size (Rect.mk 0 0 100 20) sample_physical sample_virtual 1
      default_line_height_ratio = Ok s1 /\
    estimate_font_size (Rect.mk 0 0 100 40) sample_physical sample_virtual 1
      default_line_height_ratio = Ok s2 /\
    (10 <= s1)%Z /\ (s1 <= s2)%Z.
Proof.
  apply (estimate_font_size_monotone_min10 (Rect.mk 0 0 100 20) (Rect.mk 0 0 100 40)
           sample_physical sample_virtual 1 default_line_height_ratio).
  - reflexivity.
  - discriminate.
  - discriminate.
Defined.






(** ** The compiler: which errors can arise where *)

Lemma soft_bind {A B : Type} (r : result A) (k : A -> result B) :
  soft r -> (forall a, r = Ok a -> soft (k a)) -> soft (bind r k).
Proof.
  destruct r as [a|e]; simpl; intros Hr Hk; [apply Hk; reflexivity|exact Hr].
Qed.

Lemma soft_for_each {A S : Type} (f : A -> S -> result S) (l : list A) :
  (forall x st, In x l -> soft (f x st)) -> forall st, soft (for_each f l st).
Proof.
  induction l as [|x rest IH]; intros Hf st; simpl.
  - exact I.
  - apply soft_bind.
    + apply Hf. left. reflexivity.
    + intros st' _. apply IH. intros y st'' Hy. apply Hf. right. exact Hy.
Qed.

Lemma soft_mapM {A B : Type} (f : A -> result B) (l : list A) :
  (forall x, In x l -> soft (f x)) -> soft (mapM f l).
Proof.
  induction l as [|x rest IH]; intro Hf; simpl.
  - exact I.
  - apply soft_bind; [apply Hf; left; reflexivity|].
    intros y _. apply soft_bind; [|intros; exact I].
    apply IH. intros z Hz. apply Hf. right. exact Hz.
Qed.

Lemma soft_py_sub (a b : value) : soft (py_sub a b).
Proof.
  unfold py_sub.
  destruct (as_int a), (as_int b), (as_float a), (as_float b); exact I || reflexivity.
Qed.

Lemma soft_py_mul (a b : value) : soft (py_mul a b).
Proof.
  unfold py_mul.
  destruct (as_int a) eqn:Ea, (as_int b) eqn:Eb, (as_float a), (as_float b);
    try exact I; destruct a; try exact I; try reflexivity;
    destruct b; try exact I; try reflexivity; simpl in *; try discriminate.
Qed.

Lemma soft_py_truediv (a b : value) : soft (py_truediv a b).
Proof.
  unfold py_truediv.
  destruct (as_int a) as [x|], (as_int b) as [y|];
    try (destruct (y =? 0)%Z; [reflexivity|exact I]);
    destruct (as_float a), (as_float b); try reflexivity;
    match goal with
    | |- context [Qeq_bool ?q 0] => destruct (Qeq_bool q 0); [reflexivity|exact I]
    end.
Qed.

Lemma soft_py_lt (a b : value) : soft (py_lt a b).
Proof.
  unfold py_lt. destruct (as_number a), (as_number b); exact I || reflexivity.
Qed.

Lemma soft_py_max2 (a b : value) : soft (py_max2 a b).
Proof. unfold py_max2. apply soft_bind; [apply soft_py_lt|intros; exact I]. Qed.

Lemma soft_py_min2 (a b : value) : soft (py_min2 a b).
Proof. unfold py_min2. apply soft_bind; [apply soft_py_lt|intros; exact I]. Qed.

Lemma soft_py_iter (v : value) : soft (py_iter v).
Proof. destruct v; exact I || reflexivity. Qed.

Lemma soft_table_get (table : list (string * string)) (key default : value) :
  soft (table_get table key default).
Proof. unfold table_get. destruct (hashable key); exact I || reflexivity. Qed.

Lemma soft_in_names (v : value) (names : list string) : soft (in_names v names).
Proof. unfold in_names. destruct (hashable v); exact I || reflexivity. Qed.

Lemma soft_dict_item (item : value) : soft (dict_item item).
Proof.
  destruct item as [| | | |s|l|d]; try reflexivity.
  - simpl. destruct (chars s) as [|c1 [|c2 [|c3 rest]]]; exact I || reflexivity.
  - destruct l as [|k [|v [|x l]]]; try reflexivity.
    simpl. destruct (hashable k); exact I || reflexivity.
  - destruct d as [|[k1 v1] [|[k2 v2] [|x d]]]; exact I || reflexivity.
Qed.

Lemma soft_dict_add (item : value) (d : dict) : soft (dict_add item d).
Proof.
  unfold dict_add. apply soft_bind; [apply soft_dict_item|intros; exact I].
Qed.

Lemma soft_py_dict (v : value) : soft (py_dict v).
Proof.
  destruct v; try reflexivity; simpl; try exact I;
    apply soft_for_each; intros; apply soft_dict_add.
Qed.

Lemma soft_format_style (style : string) : soft (format_style style).
Proof.
  unfold format_style. destruct (split_colon style) as [[name value]|];
    exact I || reflexivity.
Qed.

Lemma soft_format_style_object (style_entries : list string) :
  soft (format_style_object style_entries).
Proof.
  unfold format_style_object. apply soft_bind; [|intros; exact I].
  apply soft_mapM. intros. apply soft_format_style.
Qed.

Lemma soft_map_to_icon_class (name : value) : soft (map_to_icon_class name).
Proof. apply soft_table_get. Qed.

(** Decompose a computation into its steps, each known to be soft. *)
Ltac soft_step :=
  match goal with
  | |- soft (Ok _) => exact I
  | |- soft (bind _ _) => apply soft_bind; [|intros ? ?]
  | |- soft (if ?b then _ else _) => destruct b
  | |- soft (let '(_, _) := ?p in _) => destruct p
  | |- soft (py_sub _ _) => apply soft_py_sub
  | |- soft (py_mul _ _) => apply soft_py_mul
  | |- soft (py_truediv _ _) => apply soft_py_truediv
  | |- soft (py_max2 _ _) => apply soft_py_max2
  | |- soft (py_min2 _ _) => apply soft_py_min2
  | |- soft (py_iter _) => apply soft_py_iter
  | |- soft (py_dict _) => apply soft_py_dict
  | |- soft (table_get _ _ _) => apply soft_table_get
  | |- soft (in_names _ _) => apply soft_in_names
  | |- soft (map_to_icon_class _) => apply soft_map_to_icon_class
  | |- soft (format_style_object _) => apply soft_format_style_object
  end.

Ltac soft_steps := cbv zeta; repeat soft_step.

(** Case analysis on the first step of a chain of binds. *)
Ltac case_bind :=
  match goal with
  | |- context [bind ?r _] => destruct r eqn:?; cbn [bind]
  end.

Lemma soft_align_style (py_repr : value -> string) (property : string)
    (table : list (string * string)) (align : value) :
  soft (align_style py_repr property table align).
Proof. unfold align_style. soft_steps. Qed.

(** The first step of a chain of binds is one that fails with a run-time
    error only. *)
Ltac case_bind_soft :=
  match goal with
  | |- context [bind ?r _] =>
      let Hs := fresh "Hsoft" in
      assert (Hs : soft r)
        by first [ apply soft_align_style | apply soft_format_style_object
                 | apply soft_py_iter ];
      destruct r eqn:?; cbn [bind]
  end.

(** Close a goal [Err e <> Err hard] when [e] is a run-time error. *)
Ltac soft_error :=
  let H := fresh in
  intro H; injection H as ->;
  match goal with Hs : soft (Err _) |- _ => discriminate Hs end.

Section CompilerFacts.
Variable py_repr : value -> string.
Variable id_entropy : nat -> string.

Lemma soft_render_text props content depth flex width height st :
  soft (render_text_component py_repr props content depth flex width height st).
Proof. unfold render_text_component. soft_steps. Qed.

Lemma soft_render_button props depth flex width height st :
  soft (render_button_component py_repr id_entropy props depth flex width height st).
Proof. unfold render_button_component. soft_steps. Qed.

Lemma soft_render_icon props depth flex width height st :
  soft (render_icon_component py_repr props depth flex width height st).
Proof. unfold render_icon_component. soft_steps. Qed.

Lemma soft_render_image props depth flex width height st :
  soft (render_image_component py_repr props depth flex width height st).
Proof. unfold render_image_component. soft_steps. Qed.

Lemma soft_render_checkbox props depth flex width height st :
  soft (render_checkbox_component py_repr props depth flex width height st).
Proof. unfold render_checkbox_component. soft_steps. Qed.

Lemma soft_render_divider props depth flex width height st :
  soft (render_divider_component py_repr props depth flex width height st).
Proof. unfold render_divider_component. soft_steps. Qed.

Lemma soft_render_indicator props depth flex width height st :
  soft (render_indicator_component py_repr props depth flex width height st).
Proof. unfold render_indicator_component. soft_steps. Qed.

Lemma soft_render_progress_bar props depth flex width height st :
  soft (render_progress_bar_component py_repr id_entropy props depth flex width height st).
Proof. unfold render_progress_bar_component. soft_steps. Qed.

Lemma soft_progress_ring_geometry percentage size stroke_width :
  soft (progress_ring_geometry percentage size stroke_width).
Proof. unfold progress_ring_geometry. soft_steps. Qed.

Lemma soft_render_progress_ring props depth flex width height st :
  soft (render_progress_ring_component py_repr id_entropy props depth flex width height st).
Proof.
  unfold render_progress_ring_component. cbv zeta.
  destruct (unique_id id_entropy "progressring" st) as [progress_ring_id st'].
  apply soft_bind; [apply soft_progress_ring_geometry|].
  intros [[radius circumference] stroke_dashoffset] _.
  soft_steps.
Qed.

Lemma soft_render_sparkline props depth flex width height st :
  soft (render_sparkline_component py_repr props depth flex width height st).
Proof. unfold render_sparkline_component. soft_steps. Qed.

Lemma soft_render_chart chart_type props depth flex width height st :
  soft (render_chart_component py_repr chart_type props depth flex width height st).
Proof. unfold render_chart_component. soft_steps. Qed.

Lemma soft_render_generic component_name props content depth flex width height st :
  soft (render_generic_component py_repr component_name props content depth
          flex width height st).
Proof. unfold render_generic_component. soft_steps. Qed.

Lemma render_leaf_outcome node depth st :
  leaf_outcome node (render_leaf py_repr id_entropy node depth st).
Proof.
  unfold render_leaf, leaf_outcome. cbv zeta.
  destruct (truthy (get node "component")) eqn:Hc; simpl negb; cbv iota;
    [|reflexivity].
  match goal with
  | |- match ?r with Ok _ => _ | Err e => _ end =>
      assert (Hs : soft r); [|destruct r; [reflexivity|exact Hs]]
  end.
  apply soft_bind; [apply soft_py_dict|]. intros merged _.
  apply soft_bind; [soft_steps|]. intros merged' _.
  repeat match goal with
         | |- soft (if ?b then _ else _) => destruct b
         | |- soft (render_text_component _ _ _ _ _ _ _ _) => apply soft_render_text
         | |- soft (render_button_component _ _ _ _ _ _ _ _) => apply soft_render_button
         | |- soft (render_icon_component _ _ _ _ _ _ _) => apply soft_render_icon
         | |- soft (render_image_component _ _ _ _ _ _ _) => apply soft_render_image
         | |- soft (render_checkbox_component _ _ _ _ _ _ _) => apply soft_render_checkbox
         | |- soft (render_divider_component _ _ _ _ _ _ _) => apply soft_render_divider
         | |- soft (render_indicator_component _ _ _ _ _ _ _) => apply soft_render_indicator
         | |- soft (render_progress_bar_component _ _ _ _ _ _ _ _) =>
             apply soft_render_progress_bar
         | |- soft (render_progress_ring_component _ _ _ _ _ _ _ _) =>
             apply soft_render_progress_ring
         | |- soft (render_sparkline_component _ _ _ _ _ _ _) => apply soft_render_sparkline
         end.
  apply soft_bind; [apply soft_in_names|]. intros is_chart _.
  destruct is_chart; [apply soft_render_chart|apply soft_render_generic].
Qed.

Lemma node_outcome_of_soft (r : result cstate) : soft r -> node_outcome r.
Proof. destruct r; simpl; auto. Qed.

Lemma node_outcome_bind {A : Type} (r : result A) (k : A -> result cstate) :
  soft r -> (forall a, node_outcome (k a)) -> node_outcome (bind r k).
Proof. destruct r as [a|e]; simpl; intros Hr Hk; [apply Hk|left; exact Hr]. Qed.

Lemma node_outcome_for_each (f : value -> cstate -> result cstate) (l : list value) :
  (forall x st, node_outcome (f x st)) ->
  forall st, node_outcome (for_each f l st).
Proof.
  intros Hf. induction l as [|x rest IH]; intro st; simpl.
  - exact I.
  - specialize (Hf x st). destruct (f x st) as [st'|e]; simpl; [apply IH|exact Hf].
Qed.

(** Rendering never fails with [InvalidSpec] or [UnsupportedNodeType]. *)
Lemma render_node_outcome fuel :
  forall node depth st, node_outcome (render_node py_repr id_entropy fuel node depth st).
Proof.
  induction fuel as [|fuel IH]; intros node depth st; simpl.
  - right. right. reflexivity.
  - destruct node as [| | | | | |node]; try (left; reflexivity).
    destruct (eq_str (get node "type") "container").
    + unfold align_style.
      apply node_outcome_bind; [soft_steps|]. intros main_style.
      apply node_outcome_bind; [soft_steps|]. intros cross_style.
      apply node_outcome_bind; [soft_steps|]. intros style.
      apply node_outcome_bind; [soft_steps|]. intros items.
      match goal with
      | |- node_outcome (bind ?r _) =>
          assert (Hr : node_outcome r) by (apply node_outcome_for_each; intros; apply IH);
          destruct r; [exact I|exact Hr]
      end.
    + destruct (eq_str (get node "type") "leaf"); [|exact I].
      pose proof (render_leaf_outcome node depth st) as H.
      unfold leaf_outcome in H.
      destruct (render_leaf py_repr id_entropy node depth st); [exact I|].
      simpl. destruct (truthy (get node "component")); auto.
Qed.

(** *** Fuel: the nesting depth of the root is enough *)

Lemma nesting_in (l : list value) (x : value) :
  In x l -> (nesting x < nesting (VList l))%nat.
Proof.
  simpl. induction l as [|y rest IH]; [intros []|intros [<-|H]].
  - lia.
  - specialize (IH H). lia.
Qed.

Lemma nesting_lookup (d : dict) (k : string) (v : value) :
  lookup d k = Some v -> (nesting v < nesting (VDict d))%nat.
Proof.
  simpl. induction d as [|[k' v'] rest IH]; simpl; [discriminate|].
  destruct (String.eqb k' k).
  - intro H. injection H as ->. lia.
  - intro H. specialize (IH H). lia.
Qed.

Lemma nesting_items (d : dict) (items : list value) (c : value) :
  py_iter (get_default d "children" (VList [])) = Ok items ->
  In c items -> (nesting c < nesting (VDict d))%nat.
Proof.
  unfold get_default. destruct (lookup d "children") as [v|] eqn:E.
  - apply nesting_lookup in E.
    destruct v as [| | | |s|l|d']; simpl py_iter; try discriminate;
      intro H; injection H as <-; intro Hin.
    + apply in_map_iff in Hin. destruct Hin as (x & <- & _).
      change (nesting (VStr x)) with 0%nat. simpl. lia.
    + apply nesting_in in Hin. lia.
    + apply in_map_iff in Hin. destruct Hin as (x & <- & _).
      change (nesting (VStr (fst x))) with 0%nat. simpl. lia.
  - simpl. intro H. injection H as <-. intros [].
Qed.

Lemma for_each_ext {A S : Type} (f g : A -> S -> result S) (l : list A) :
  (forall x st, In x l -> f x st = g x st) ->
  forall st, for_each f l st = for_each g l st.
Proof.
  induction l as [|x rest IH]; intros H st; simpl; [reflexivity|].
  rewrite (H x st (or_introl eq_refl)).
  destruct (g x st) as [st'|e]; simpl; [|reflexivity].
  apply IH. intros y st'' Hy. apply H. right. exact Hy.
Qed.

Lemma for_each_error {A S : Type} (f : A -> S -> result S) (l : list A) (st : S)
    (e : error) :
  for_each f l st = Err e -> exists x st', In x l /\ f x st' = Err e.
Proof.
  revert st. induction l as [|x rest IH]; intro st; simpl; [discriminate|].
  destruct (f x st) as [st'|e'] eqn:E; simpl.
  - intro H. destruct (IH _ H) as (y & st'' & Hin & Hy).
    exists y, st''. split; [right; exact Hin|exact Hy].
  - intro H. injection H as ->. exists x, st. split; [left; reflexivity|exact E].
Qed.

(** With more fuel than the node nests, the amount of fuel is irrelevant. *)
Lemma render_node_fuel (f1 : nat) :
  forall (f2 : nat) (node : value) (depth : nat) (st : cstate),
    (nesting node < f1)%nat -> (nesting node < f2)%nat ->
    render_node py_repr id_entropy f1 node depth st
      = render_node py_repr id_entropy f2 node depth st.
Proof.
  induction f1 as [|f1 IH]; intros f2 node depth st H1 H2; [lia|].
  destruct f2 as [|f2]; [lia|]. simpl.
  destruct node as [| | | | | |node]; try reflexivity.
  destruct (eq_str (get node "type") "container"); [|reflexivity].
  repeat (case_bind; [|reflexivity]).
  match goal with
  | E : py_iter _ = Ok ?items |- _ =>
      rewrite (for_each_ext
                 (fun child => render_node py_repr id_entropy f1 child (S depth))
                 (fun child => render_node py_repr id_entropy f2 child (S depth)) items);
        [reflexivity|];
      intros c st' Hin; pose proof (nesting_items _ _ _ E Hin); apply IH; lia
  end.
Qed.

(** With more fuel than the node nests, the model never runs out of it. *)
Lemma render_node_enough_fuel (fuel : nat) :
  forall (node : value) (depth : nat) (st : cstate),
    (nesting node < fuel)%nat ->
    render_node py_repr id_entropy fuel node depth st <> Err OutOfFuel.
Proof.
  induction fuel as [|fuel IH]; intros node depth st Hn; [lia|]. simpl.
  destruct node as [| | | | | |node]; try discriminate.
  destruct (eq_str (get node "type") "container").
  - repeat (case_bind_soft; [|soft_error]).
    match goal with
    | |- context [for_each ?f ?items ?s] =>
        destruct (for_each f items s) as [st'|e] eqn:Ef; simpl; [discriminate|]
    end.
    intro H. injection H as ->.
    apply for_each_error in Ef. destruct Ef as (c & st' & Hin & Hc).
    match goal with
    | E : py_iter _ = Ok _ |- _ => pose proof (nesting_items _ _ _ E Hin)
    end.
    apply (IH c (S depth) st'); [lia|exact Hc].
  - destruct (eq_str (get node "type") "leaf"); [|discriminate].
    pose proof (render_leaf_outcome node depth st) as H.
    unfold leaf_outcome in H.
    destruct (render_leaf py_repr id_entropy node depth st) as [st'|e];
      [discriminate|].
    intro E. injection E as ->.
    destruct (truthy (get node "component")); discriminate.
Qed.

(** *** Style entries always format *)

Lemma has_colon_app_l (a b : string) : has_colon a -> has_colon (a ++ b).
Proof.
  unfold has_colon. induction a as [|c a IH]; simpl; [congruence|].
  destruct (Ascii.eqb c ":"); [discriminate|].
  destruct (split_colon a) as [[name value]|]; [|congruence].
  intros _. destruct (split_colon (a ++ b)) as [[name' value']|] eqn:E;
    [discriminate|]. exfalso. apply IH; [discriminate|reflexivity].
Qed.

Lemma has_colon_app_r (a b : string) : has_colon b -> has_colon (a ++ b).
Proof.
  unfold has_colon. intro H. induction a as [|c a IH]; simpl; [exact H|].
  destruct (Ascii.eqb c ":"); [discriminate|].
  destruct (split_colon (a ++ b)) as [[name value]|]; [discriminate|exact IH].
Qed.

(** An entry that starts with a literal property name and a colon. *)
Ltac colon := unfold has_colon; simpl; discriminate.

Lemma format_style_object_ok (style_entries : list string) :
  Forall has_colon style_entries ->
  exists style, format_style_object style_entries = Ok style.
Proof.
  intro H. unfold format_style_object.
  assert (Hm : exists formatted, mapM format_style style_entries = Ok formatted).
  { induction H as [|s rest Hs _ IH]; simpl; [eauto|].
    unfold format_style at 1. unfold has_colon in Hs.
    destruct (split_colon s) as [[name value]|]; [|congruence].
    destruct IH as [formatted ->]. simpl. eauto. }
  destruct Hm as [formatted ->]. simpl. eauto.
Qed.

Lemma colons_box_styles flex width height :
  Forall has_colon (box_styles py_repr flex width height).
Proof.
  unfold box_styles.
  destruct (is_none flex), (is_none width), (is_none height); simpl;
    repeat constructor; colon.
Qed.

Lemma colons_with_box_styles entries flex width height :
  Forall has_colon entries ->
  Forall has_colon (with_box_styles py_repr entries flex width height).
Proof.
  intro H. unfold with_box_styles. apply Forall_app. split;
    [exact H|apply colons_box_styles].
Qed.

Lemma colons_widget_styles widget : Forall has_colon (widget_styles py_repr widget).
Proof.
  unfold widget_styles. apply Forall_app. split.
  - repeat constructor; colon.
  - destruct (is_none (get widget "width")), (is_none (get widget "height")); simpl;
      repeat constructor; colon.
Qed.

(** *** Errors propagate along the traversal *)

Lemma for_each_app {A S : Type} (f : A -> S -> result S) (l1 l2 : list A) (st : S) :
  for_each f (l1 ++ l2) st = bind (for_each f l1 st) (for_each f l2).
Proof.
  revert st. induction l1 as [|x rest IH]; intro st; simpl; [reflexivity|].
  destruct (f x st) as [st'|e]; simpl; [apply IH|reflexivity].
Qed.

Lemma render_node_container fuel (node : dict) depth st :
  eq_str (get node "type") "container" = true ->
  render_node py_repr id_entropy (S fuel) (VDict node) depth st =
    (main_style <- align_style py_repr "justify-content" align_main_map
                     (get node "alignMain") ;;
     cross_style <- align_style py_repr "align-items" align_cross_map
                      (get node "alignCross") ;;
     style <- format_style_object
                (container_styles py_repr node ++ main_style ++ cross_style)%list ;;
     items <- py_iter (get_default node "children" (VList [])) ;;
     st' <- for_each (fun child => render_node py_repr id_entropy fuel child (S depth))
              items (write (indent_of depth ++ "<div " ++ attr "style" style ++ ">") st) ;;
     Ok (write (indent_of depth ++ "</div>") st')).
Proof. intro H. simpl. rewrite H. reflexivity. Qed.

Lemma render_node_leaf fuel (node : dict) depth st :
  get node "type" = VStr "leaf" ->
  render_node py_repr id_entropy (S fuel) (VDict node) depth st
    = render_leaf py_repr id_entropy node depth st.
Proof. intro H. simpl. rewrite H. reflexivity. Qed.

Lemma visits_error fuel root depth st fuel' node depth' st' (e : error) :
  visits py_repr id_entropy fuel root depth st fuel' node depth' st' ->
  render_node py_repr id_entropy fuel' node depth' st' = Err e ->
  render_node py_repr id_entropy fuel root depth st = Err e.
Proof.
  induction 1 as [|fuel node depth st main cross style before child after st1
                   fuel' node' depth' st' Ht Hm Hc Hs Hi Hb Hv IH];
    intro He; [exact He|].
  specialize (IH He). rewrite (render_node_container _ _ _ _ Ht).
  rewrite Hm. cbn [bind]. rewrite Hc. cbn [bind]. rewrite Hs. cbn [bind].
  rewrite Hi. cbn [bind].
  rewrite for_each_app, Hb. cbn [bind]. simpl for_each. rewrite IH. reflexivity.
Qed.

Lemma eq_str_false (v : value) (s : string) : v <> VStr s -> eq_str v s = false.
Proof.
  destruct v; try reflexivity. simpl. intro H.
  apply String.eqb_neq. congruence.
Qed.

Lemma eq_str_true (v : value) (s : string) : eq_str v s = true <-> v = VStr s.
Proof.
  destruct v; simpl; try (split; [discriminate|discriminate]).
  rewrite String.eqb_eq. split; congruence.
Qed.

(** *** C10: nodes that are neither container nor leaf *)

(** C10.  A node (a JSON object) whose ["type"] is neither ["container"]
    nor ["leaf"] (a missing type reads as [None]) is rendered without error
    and leaves the markup lines, the style block and the behaviour snippets
    as they were; among the children of a container it contributes nothing;
    as the root of a widget it gives a document with no markup line and no
    snippet. *)
Theorem render_node_skips_other_types :
  forall node : dict,
    get node "type" <> VStr "container" ->
    get node "type" <> VStr "leaf" ->
    (forall fuel depth st,
        render_node py_repr id_entropy (S fuel) (VDict node) depth st = Ok st) /\
    (forall fuel depth before after st,
        for_each (fun c => render_node py_repr id_entropy (S fuel) c depth)
          (before ++ VDict node :: after)%list st
        = for_each (fun c => render_node py_repr id_entropy (S fuel) c depth)
            (before ++ after)%list st) /\
    (forall widget_dsl widget,
        widget_of widget_dsl = Ok widget ->
        get widget "root" = VDict node ->
        node <> [] ->
        exists style,
          compile_widget_dsl_to_html py_repr id_entropy widget_dsl
            = Ok (mkDocument style [] [] [])).
Proof.
  intros node Hc Hl.
  apply eq_str_false in Hc. apply eq_str_false in Hl.
  assert (Hskip : forall fuel depth st,
             render_node py_repr id_entropy (S fuel) (VDict node) depth st = Ok st).
  { intros. simpl. rewrite Hc, Hl. reflexivity. }
  split; [exact Hskip|]. split.
  - intros fuel depth before after st.
    rewrite !for_each_app. destruct (for_each _ before st) as [st'|e];
      cbn [bind for_each]; [|reflexivity].
    rewrite Hskip. reflexivity.
  - intros widget_dsl widget Hw Hroot Hne.
    unfold compile_widget_dsl_to_html. rewrite Hw. cbn [bind]. rewrite Hroot.
    destruct node as [|entry node]; [congruence|]. cbn [truthy negb].
    rewrite Hskip. cbn [bind].
    destruct (format_style_object_ok _ (colons_widget_styles widget)) as [style ->].
    cbn [bind]. exists style. reflexivity.
Qed.

(** *** C3: the two hard errors of the compiler *)

Lemma compile_invalid_spec_iff (widget_dsl : dict) :
  compile_widget_dsl_to_html py_repr id_entropy widget_dsl = Err InvalidSpec <->
  exists widget,
    widget_of widget_dsl = Ok widget /\ truthy (get widget "root") = false.
Proof.
  unfold compile_widget_dsl_to_html. split.
  - destruct (widget_of widget_dsl) as [widget|e] eqn:Hw; cbn [bind].
    + destruct (truthy (get widget "root")) eqn:Hr; cbn [negb].
      * intro H. exfalso.
        pose proof (render_node_outcome
                      (S (nesting (get widget "root"))) (get widget "root")
                      0 initial_state) as Ho.
        destruct (render_node py_repr id_entropy (S (nesting (get widget "root")))
                    (get widget "root") 0 initial_state) as [st|e];
          cbn [bind] in H.
        -- pose proof (soft_format_style_object (widget_styles py_repr widget)) as Hs.
           destruct (format_style_object (widget_styles py_repr widget));
             cbn [bind] in H; [discriminate|].
           injection H as ->. discriminate Hs.
        -- injection H as ->. simpl in Ho.
           destruct Ho as [Ho|[Ho|Ho]]; discriminate Ho.
      * intros _. exists widget. split; [reflexivity|exact Hr].
    + intro H. injection H as ->. exfalso. unfold widget_of in Hw.
      destruct (get_default widget_dsl "widget" (VDict [])); discriminate.
  - intros (widget & -> & Hr). cbn [bind]. rewrite Hr. reflexivity.
Qed.

(** C3.  [compile_widget_dsl_to_html] fails with [InvalidSpec] exactly when
    [widget.root] is missing: absent or, as Python's [not] tests it, empty
    or null (in particular when ["widget"] or ["root"] is not there).  It
    fails with [InvalidLeaf] when the traversal comes to a leaf whose
    component name is missing in the same sense.  A call that fails returns
    no document. *)
Theorem compile_invalid_spec_and_leaf :
  forall widget_dsl : dict,
    (compile_widget_dsl_to_html py_repr id_entropy widget_dsl = Err InvalidSpec <->
     exists widget,
       widget_of widget_dsl = Ok widget /\ truthy (get widget "root") = false) /\
    (lookup widget_dsl "widget" = None ->
     compile_widget_dsl_to_html py_repr id_entropy widget_dsl = Err InvalidSpec) /\
    (forall widget,
        lookup widget_dsl "widget" = Some (VDict widget) ->
        lookup widget "root" = None ->
        compile_widget_dsl_to_html py_repr id_entropy widget_dsl = Err InvalidSpec) /\
    (forall widget fuel leaf depth st,
        widget_of widget_dsl = Ok widget ->
        truthy (get widget "root") = true ->
        visits py_repr id_entropy (S (nesting (get widget "root"))) (get widget "root")
          0 initial_state (S fuel) (VDict leaf) depth st ->
        get leaf "type" = VStr "leaf" ->
        truthy (get leaf "component") = false ->
        compile_widget_dsl_to_html py_repr id_entropy widget_dsl = Err InvalidLeaf) /\
    (forall e,
        compile_widget_dsl_to_html py_repr id_entropy widget_dsl = Err e ->
        forall doc,
          compile_widget_dsl_to_html py_repr id_entropy widget_dsl <> Ok doc).
Proof.
  intro widget_dsl.
  pose proof (compile_invalid_spec_iff widget_dsl) as Hiff.
  split; [exact Hiff|]. split; [|split; [|split]].
  - intro Hnone. apply Hiff. exists []. unfold widget_of, get_default.
    rewrite Hnone. split; reflexivity.
  - intros widget Hw Hroot. apply Hiff. exists widget. unfold widget_of, get_default.
    rewrite Hw. split; [reflexivity|]. unfold get, get_default. rewrite Hroot.
    reflexivity.
  - intros widget fuel leaf depth st Hw Hr Hv Ht Hc.
    unfold compile_widget_dsl_to_html. rewrite Hw. cbn [bind]. rewrite Hr. cbn [negb].
    rewrite (visits_error _ _ _ _ _ _ _ _ InvalidLeaf Hv); [reflexivity|].
    rewrite (render_node_leaf _ _ _ _ Ht). unfold render_leaf. rewrite Hc. reflexivity.
  - intros e He doc. rewrite He. discriminate.
Qed.

(** *** Arithmetic on JSON numbers *)

Lemma number_is_comp (v : value) (p q : Q) : p == q -> number_is v p -> number_is v q.
Proof. intros E (x & Hx & Hp). exists x. split; [exact Hx|]. rewrite Hp. exact E. Qed.

Lemma number_is_float (q : Q) : number_is (float q) q.
Proof. exists (Qred q). split; [reflexivity|apply Qred_correct]. Qed.

Lemma number_is_int (z : Z) : number_is (VInt z) (inject_Z z).
Proof. exists (inject_Z z). split; reflexivity. Qed.

Lemma as_int_number (v : value) (z : Z) :
  as_int v = Some z -> as_number v = Some (inject_Z z).
Proof.
  destruct v; simpl; try discriminate; intro H; injection H as <-; [|reflexivity].
  destruct b; reflexivity.
Qed.

Lemma as_int_none_number (v : value) : as_number v = None -> as_int v = None.
Proof. destruct v; simpl; try discriminate; reflexivity. Qed.

Lemma round_double_small (z : Z) :
  (Z.abs z < 2 ^ 53)%Z -> round_double (inject_Z z) == inject_Z z.
Proof. apply round_double_int. Qed.

Lemma operand_comp (v : value) (p q : Q) : p == q -> operand v p == operand v q.
Proof.
  intro E. unfold operand. destruct (is_int v); [apply round_double_comp|]; exact E.
Qed.

(** An int read as an int, and any number read as a float operand. *)
Lemma is_int_as_int (v : value) (q : Q) :
  number_is v q -> is_int v = true -> exists z, as_int v = Some z /\ inject_Z z == q.
Proof.
  intros (x & Hx & E) Hi. destruct v; try discriminate Hi; simpl in *.
  - injection Hx as <-. exists (if b then 1 else 0)%Z. split; [reflexivity|].
    rewrite <- E. destruct b; reflexivity.
  - injection Hx as <-. exists z. split; [reflexivity|exact E].
Qed.

Lemma is_int_false_as_int (v : value) : is_int v = false -> as_int v = None.
Proof. destruct v; simpl; try discriminate; reflexivity. Qed.

Lemma as_float_operand (v : value) (q : Q) :
  number_is v q -> exists x, as_float v = Some x /\ x == operand v q.
Proof.
  intros (x & Hx & E). unfold operand. destruct v; try discriminate Hx; simpl in *;
    injection Hx as <-.
  - eexists. split; [reflexivity|]. rewrite <- (round_double_comp _ _ E).
    destruct b; [symmetry; apply round_double_one|reflexivity].
  - eexists. split; [reflexivity|]. apply round_double_comp. exact E.
  - eexists. split; [reflexivity|exact E].
Qed.

Lemma is_int_float (q : Q) : is_int (float q) = false.
Proof. reflexivity. Qed.

(** The two branches of an arithmetic operation: both operands ints, or
    one of them a float. *)
Lemma int_operands (a b : value) (x y : Q) :
  number_is a x -> number_is b y ->
  ((is_int a && is_int b)%bool = true /\
   exists za zb, as_int a = Some za /\ as_int b = Some zb /\
                 inject_Z za == x /\ inject_Z zb == y) \/
  ((is_int a && is_int b)%bool = false /\
   (as_int a = None \/ as_int b = None) /\
   exists xa xb, as_float a = Some xa /\ as_float b = Some xb /\
                 xa == operand a x /\ xb == operand b y).
Proof.
  intros Ha Hb.
  destruct (is_int a) eqn:Ia, (is_int b) eqn:Ib.
  - left. split; [reflexivity|].
    destruct (is_int_as_int a x Ha Ia) as (za & Hza & Eza).
    destruct (is_int_as_int b y Hb Ib) as (zb & Hzb & Ezb).
    exists za, zb. auto.
  - right. split; [reflexivity|]. split; [right; apply is_int_false_as_int; exact Ib|].
    destruct (as_float_operand a x Ha) as (xa & Hxa & Exa).
    destruct (as_float_operand b y Hb) as (xb & Hxb & Exb).
    exists xa, xb. auto.
  - right. split; [reflexivity|]. split; [left; apply is_int_false_as_int; exact Ia|].
    destruct (as_float_operand a x Ha) as (xa & Hxa & Exa).
    destruct (as_float_operand b y Hb) as (xb & Hxb & Exb).
    exists xa, xb. auto.
  - right. split; [reflexivity|]. split; [left; apply is_int_false_as_int; exact Ia|].
    destruct (as_float_operand a x Ha) as (xa & Hxa & Exa).
    destruct (as_float_operand b y Hb) as (xb & Hxb & Exb).
    exists xa, xb. auto.
Qed.

Lemma py_sub_number (a b : value) (x y : Q) :
  number_is a x -> number_is b y ->
  exists v, py_sub a b = Ok v /\
    is_int v = (is_int a && is_int b)%bool /\
    number_is v (if (is_int a && is_int b)%bool then x - y
                 else round_double (operand a x - operand b y)).
Proof.
  intros Ha Hb. unfold py_sub.
  destruct (int_operands a b x y Ha Hb)
    as [(-> & za & zb & -> & -> & Ea & Eb)
       |(-> & Hnone & xa & xb & Hxa & Hxb & Ea & Eb)].
  - eexists. split; [reflexivity|]. split; [reflexivity|].
    exists (inject_Z (za - zb)). split; [reflexivity|].
    rewrite <- Ea, <- Eb. unfold Z.sub. rewrite inject_Z_plus, inject_Z_opp. reflexivity.
  - assert (E : match as_int a, as_int b with
                | Some x0, Some y0 => Ok (VInt (x0 - y0))
                | _, _ => match as_float a, as_float b with
                          | Some x0, Some y0 => Ok (float (round_double (x0 - y0)))
                          | _, _ => Err TypeError
                          end
                end = Ok (float (round_double (xa - xb)))).
    { rewrite Hxa, Hxb. destruct Hnone as [-> | ->]; [reflexivity|].
      destruct (as_int a); reflexivity. }
    rewrite E. eexists. split; [reflexivity|]. split; [reflexivity|].
    eapply number_is_comp; [|apply number_is_float].
    apply round_double_comp. rewrite Ea, Eb. reflexivity.
Qed.

Lemma py_mul_number (a b : value) (x y : Q) :
  number_is a x -> number_is b y ->
  exists v, py_mul a b = Ok v /\
    is_int v = (is_int a && is_int b)%bool /\
    number_is v (if (is_int a && is_int b)%bool then x * y
                 else round_double (operand a x * operand b y)).
Proof.
  intros Ha Hb. unfold py_mul.
  destruct (int_operands a b x y Ha Hb)
    as [(-> & za & zb & -> & -> & Ea & Eb)
       |(-> & Hnone & xa & xb & Hxa & Hxb & Ea & Eb)].
  - eexists. split; [reflexivity|]. split; [reflexivity|].
    exists (inject_Z (za * zb)). split; [reflexivity|].
    rewrite <- Ea, <- Eb, inject_Z_mult. reflexivity.
  - rewrite Hxa, Hxb.
    assert (E : match as_int a, as_int b with
                | Some x0, Some y0 => Ok (VInt (x0 * y0))
                | _, _ => Ok (float (round_double (xa * xb)))
                end = Ok (float (round_double (xa * xb)))).
    { destruct Hnone as [-> | ->]; [reflexivity|]. destruct (as_int a); reflexivity. }
    rewrite E. eexists. split; [reflexivity|]. split; [reflexivity|].
    eapply number_is_comp; [|apply number_is_float].
    apply round_double_comp. rewrite Ea, Eb. reflexivity.
Qed.

(** The conversion of a non-zero int to a float is not zero. *)
Lemma round_double_int_nonzero (z : Z) : z <> 0%Z -> ~ round_double (inject_Z z) == 0.
Proof.
  intros Hz E.
  destruct (Z_lt_le_dec z 0) as [Hn|Hp].
  - assert (H : round_double (inject_Z z) <= round_double (-1)).
    { apply round_double_monotone. change (-1) with (inject_Z (-1)).
      rewrite <- Zle_Qle. lia. }
    assert (E1 : round_double (-1) == -1) by (vm_compute; reflexivity).
    lra.
  - assert (H : round_double 1 <= round_double (inject_Z z)).
    { apply round_double_monotone. change 1 with (inject_Z 1).
      rewrite <- Zle_Qle. lia. }
    rewrite round_double_one in H. lra.
Qed.

Lemma operand_nonzero (v : value) (q : Q) :
  number_is v q -> ~ q == 0 -> ~ operand v q == 0.
Proof.
  intros Hv Hq. unfold operand. destruct (is_int v) eqn:Iv; [|exact Hq].
  destruct (is_int_as_int v q Hv Iv) as (z & _ & Ez).
  rewrite <- (round_double_comp _ _ Ez). apply round_double_int_nonzero.
  intro E0. apply Hq. rewrite <- Ez, E0. reflexivity.
Qed.

Lemma py_truediv_number (a b : value) (x y : Q) :
  number_is a x -> number_is b y -> ~ y == 0 ->
  exists v, py_truediv a b = Ok v /\
    is_int v = false /\
    number_is v (if (is_int a && is_int b)%bool then round_double (x / y)
                 else round_double (operand a x / operand b y)).
Proof.
  intros Ha Hb Hnz. unfold py_truediv.
  destruct (int_operands a b x y Ha Hb)
    as [(-> & za & zb & -> & -> & Ea & Eb)
       |(-> & Hnone & xa & xb & Hxa & Hxb & Ea & Eb)].
  - assert (Hzb : (zb =? 0)%Z = false).
    { apply Z.eqb_neq. intro E0. apply Hnz. rewrite <- Eb, E0. reflexivity. }
    rewrite Hzb. eexists. split; [reflexivity|]. split; [reflexivity|].
    eapply number_is_comp; [|apply number_is_float].
    apply round_double_comp. rewrite Ea, Eb. reflexivity.
  - assert (Hxb0 : Qeq_bool xb 0 = false).
    { apply Qeq_bool_false_iff. rewrite Eb. apply operand_nonzero; assumption. }
    assert (E : match as_int a, as_int b with
                | Some x0, Some y0 =>
                    if (y0 =? 0)%Z then Err ZeroDivisionError
                    else Ok (float (round_double (inject_Z x0 / inject_Z y0)))
                | _, _ =>
                    match as_float a, as_float b with
                    | Some x0, Some y0 =>
                        if Qeq_bool y0 0 then Err ZeroDivisionError
                        else Ok (float (round_double (x0 / y0)))
                    | _, _ => Err TypeError
                    end
                end = Ok (float (round_double (xa / xb)))).
    { rewrite Hxa, Hxb, Hxb0. destruct Hnone as [-> | ->]; [reflexivity|].
      destruct (as_int a); reflexivity. }
    rewrite E. eexists. split; [reflexivity|]. split; [reflexivity|].
    eapply number_is_comp; [|apply number_is_float].
    apply round_double_comp. rewrite Ea, Eb. reflexivity.
Qed.

Lemma py_lt_number (a b : value) (x y : Q) :
  as_number a = Some x -> as_number b = Some y -> py_lt a b = Ok (Qlt_bool x y).
Proof. intros Ha Hb. unfold py_lt. rewrite Ha, Hb. reflexivity. Qed.

(** [min(max(percentage, 0), 100)] of a number is the clamped number, and
    is the integer 100 itself above 100. *)
Lemma normalized_percentage_number (percentage : value) (p : Q) :
  number_is percentage p ->
  exists raised normalized,
    py_max2 percentage (VInt 0) = Ok raised /\
    py_min2 raised (VInt 100) = Ok normalized /\
    number_is normalized (clamp_percentage p) /\
    (100 < p -> normalized = VInt 100).
Proof.
  intros (x & Hx & Hp). unfold py_max2, py_min2, clamp_percentage.
  rewrite (py_lt_number percentage (VInt 0) x 0 Hx eq_refl). cbn [bind].
  destruct (Qlt_bool x 0) eqn:E0.
  - apply Qlt_bool_iff in E0.
    exists (VInt 0), (VInt 0). split; [reflexivity|].
    rewrite (py_lt_number (VInt 100) (VInt 0) 100 0 eq_refl eq_refl). cbn [bind].
    change (Qlt_bool 100 0) with false. cbv iota.
    split; [reflexivity|]. split.
    + exists 0. split; [reflexivity|].
      rewrite Q.max_r by lra. rewrite Q.min_l by lra. reflexivity.
    + intro H. lra.
  - apply Qlt_bool_false_iff in E0.
    exists percentage.
    rewrite (py_lt_number (VInt 100) percentage 100 x eq_refl Hx). cbn [bind].
    destruct (Qlt_bool 100 x) eqn:E1.
    + apply Qlt_bool_iff in E1. exists (VInt 100).
      split; [reflexivity|]. split; [reflexivity|]. split; [|reflexivity].
      exists 100. split; [reflexivity|].
      rewrite Q.max_l by lra. rewrite Q.min_r by lra. reflexivity.
    + apply Qlt_bool_false_iff in E1. exists percentage.
      split; [reflexivity|]. split; [reflexivity|]. split.
      * exists x. split; [exact Hx|].
        rewrite Q.max_l by lra. rewrite Q.min_l by lra. exact Hp.
      * intro H. lra.
Qed.

Lemma lookup_dict_set_same (d : dict) (k : string) (v : value) :
  lookup (dict_set d k v) k = Some v.
Proof.
  induction d as [|[k' v'] rest IH]; simpl.
  - rewrite String.eqb_refl. reflexivity.
  - destruct (String.eqb k' k) eqn:E; simpl.
    + rewrite String.eqb_refl. reflexivity.
    + rewrite E. exact IH.
Qed.

Lemma lookup_dict_set_other (d : dict) (k k' : string) (v : value) :
  k <> k' -> lookup (dict_set d k v) k' = lookup d k'.
Proof.
  intro Hne. induction d as [|[k0 v0] rest IH]; simpl.
  - apply String.eqb_neq in Hne. rewrite Hne. reflexivity.
  - destruct (String.eqb_spec k0 k) as [->|Hk]; simpl.
    + apply String.eqb_neq in Hne. rewrite Hne. reflexivity.
    + destruct (String.eqb k0 k'); [reflexivity|exact IH].
Qed.

Lemma get_default_set_same (d : dict) (k : string) (v default : value) :
  get_default (dict_set d k v) k default = v.
Proof. unfold get_default. rewrite lookup_dict_set_same. reflexivity. Qed.

Lemma get_default_set_other (d : dict) (k k' : string) (v default : value) :
  k <> k' -> get_default (dict_set d k v) k' default = get_default d k' default.
Proof. intro H. unfold get_default. rewrite lookup_dict_set_other by exact H. reflexivity. Qed.


(** *** C8: the progress ring *)

Lemma two_pi_value : py_mul (VInt 2) (float math_pi) = Ok (float (2 * math_pi)).
Proof. vm_compute. reflexivity. Qed.

Lemma operand_float (v : value) (q : Q) : is_int v = false -> operand v q = q.
Proof. intro H. unfold operand. rewrite H. reflexivity. Qed.

Lemma operand_small_int (z : Z) :
  (Z.abs z < 2 ^ 53)%Z -> operand (VInt z) (inject_Z z) == inject_Z z.
Proof. intro H. unfold operand. simpl. apply round_double_int. exact H. Qed.

Lemma ring_radius_comp (size stroke_width : value) (s s' w w' : Q) :
  s == s' -> w == w' ->
  ring_radius size stroke_width s w == ring_radius size stroke_width s' w'.
Proof.
  intros Es Ew. unfold ring_radius. destruct (is_int size && is_int stroke_width)%bool.
  - apply round_double_comp. rewrite Es, Ew. reflexivity.
  - apply round_double_comp.
    assert (E : round_double (operand size s - operand stroke_width w)
                == round_double (operand size s' - operand stroke_width w')).
    { apply round_double_comp.
      rewrite (operand_comp size s s' Es), (operand_comp stroke_width w w' Ew).
      reflexivity. }
    rewrite E. reflexivity.
Qed.

Lemma ring_circumference_comp (r r' : Q) :
  r == r' -> ring_circumference r == ring_circumference r'.
Proof. intro E. unfold ring_circumference. apply round_double_comp. rewrite E. reflexivity. Qed.

Lemma ring_offset_comp (c c' n n' : Q) :
  c == c' -> n == n' -> ring_offset c n == ring_offset c' n'.
Proof.
  intros Ec En. unfold ring_offset. apply round_double_comp.
  assert (Ef : round_double (n / 100) == round_double (n' / 100)).
  { apply round_double_comp. rewrite En. reflexivity. }
  assert (Ecov : round_double (round_double (n / 100) * c)
                 == round_double (round_double (n' / 100) * c')).
  { apply round_double_comp. rewrite Ef, Ec. reflexivity. }
  rewrite Ecov, Ec. reflexivity.
Qed.

(** The fraction [clamped / 100] lies between 0 and 1. *)
Lemma ring_fraction_bounds (n : Q) :
  0 <= n <= 100 -> 0 <= round_double (n / 100) <= 1.
Proof.
  intros [H0 H1]. split.
  - apply round_double_nonneg. apply Qle_shift_div_l; lra.
  - rewrite <- round_double_one. apply round_double_monotone.
    apply Qle_shift_div_r; lra.
Qed.

(** At the ends of the range the offset is exact: nothing of a full ring is
    left, and all of an empty one. *)
Lemma ring_offset_full (c n : Q) :
  round_double c == c -> n == 100 -> ring_offset c n == 0.
Proof.
  intros Hc Hn. unfold ring_offset.
  assert (Ef : round_double (n / 100) == 1).
  { rewrite <- round_double_one. apply round_double_comp. rewrite Hn. reflexivity. }
  assert (Ecov : round_double (round_double (n / 100) * c) == c).
  { rewrite <- Hc at 2. apply round_double_comp. rewrite Ef. ring. }
  rewrite (round_double_zero (c - round_double (round_double (n / 100) * c))).
  - reflexivity.
  - rewrite Ecov. ring.
Qed.

Lemma ring_offset_empty (c n : Q) :
  round_double c == c -> n == 0 -> ring_offset c n == c.
Proof.
  intros Hc Hn. unfold ring_offset.
  assert (Ef : round_double (n / 100) = 0).
  { apply round_double_zero. rewrite Hn. reflexivity. }
  rewrite Ef.
  assert (Ecov : round_double (0 * c) = 0) by (apply round_double_zero; ring).
  rewrite Ecov. rewrite <- Hc at 2. apply round_double_comp. ring.
Qed.

(** In between, the offset is what is left of the circumference, up to the
    rounding of three float operations. *)
Lemma ring_offset_bounds (c n : Q) :
  round_double c == c -> 0 <= c -> 0 <= n <= 100 ->
  0 <= ring_offset c n <= c /\
  Qabs (ring_offset c n - c * (1 - n / 100)) <= c * 2 ^ (-51) + 2 ^ (-1073).
Proof.
  intros Hc Hc0 Hn. unfold ring_offset.
  destruct (ring_fraction_bounds n Hn) as [Hf0 Hf1].
  set (f := round_double (n / 100)) in *.
  set (cov := round_double (f * c)).
  assert (Hcov0 : 0 <= cov).
  { unfold cov. apply round_double_nonneg. nra. }
  assert (Hcov1 : cov <= c).
  { unfold cov. rewrite <- Hc at 2. apply round_double_monotone. nra. }
  assert (Hoff0 : 0 <= round_double (c - cov)).
  { apply round_double_nonneg. lra. }
  assert (Hoff1 : round_double (c - cov) <= c).
  { rewrite <- Hc at 2. apply round_double_monotone. lra. }
  split; [split; assumption|].
  pose proof (round_double_error (n / 100)) as Ef. fold f in Ef.
  pose proof (round_double_error (f * c)) as Ecov. fold cov in Ecov.
  pose proof (round_double_error (c - cov)) as Eoff.
  assert (Ha0 : 0 <= n / 100) by (apply Qle_shift_div_l; lra).
  assert (Ha1 : n / 100 <= 1) by (apply Qle_shift_div_r; lra).
  rewrite (Qabs_pos (n / 100)) in Ef by exact Ha0.
  rewrite (Qabs_pos (f * c)) in Ecov by nra.
  rewrite (Qabs_pos (c - cov)) in Eoff by lra.
  apply Qabs_Qle_condition in Ef. apply Qabs_Qle_condition in Ecov.
  apply Qabs_Qle_condition in Eoff.
  set (u := 2 ^ (-53)) in *. set (eta := 2 ^ (-1075)) in *.
  assert (Hu : u == 1 # 9007199254740992) by reflexivity.
  assert (Hu4 : 2 ^ (-51) == 4 * u) by reflexivity.
  assert (Heta4 : 2 ^ (-1073) == 4 * eta) by reflexivity.
  assert (Heta0 : 0 < eta) by apply pow2_pos.
  assert (Heta1 : eta <= u).
  { unfold eta, u. apply pow2_le. lia. }
  rewrite Hu4, Heta4.
  set (a := n / 100) in *. set (off := round_double (c - cov)) in *.
  apply Qabs_Qle_condition.
  assert (Hfc : f * c <= c) by nra.
  assert (Hfcu : f * c * u <= c * u) by nra.
  assert (Hau : a * u <= u) by nra.
  assert (Hdu : (c - cov) * u <= c * u) by nra.
  assert (Hfa1 : (f - a) * c <= (u + eta) * c) by nra.
  assert (Hfa2 : - ((u + eta) * c) <= (f - a) * c) by nra.
  assert (Hce : eta * c <= u * c) by nra.
  split; nra.
Qed.

Lemma progress_ring_geometry_number (percentage size stroke_width : value) (p s w : Q) :
  number_is percentage p -> number_is size s -> number_is stroke_width w ->
  exists radius circumference offset : value,
    progress_ring_geometry percentage size stroke_width
      = Ok (radius, circumference, offset) /\
    number_is radius (ring_radius size stroke_width s w) /\
    number_is circumference (ring_circumference (ring_radius size stroke_width s w)) /\
    number_is offset
      (ring_offset (ring_circumference (ring_radius size stroke_width s w))
         (clamp_percentage p)).
Proof.
  intros Hp Hs Hw. unfold progress_ring_geometry.
  destruct (normalized_percentage_number percentage p Hp)
    as (raised & normalized & -> & Hn & Hclamp & _).
  cbn [bind]. rewrite Hn. cbn [bind].
  destruct (py_sub_number size stroke_width s w Hs Hw) as (diameter & -> & Hdi & Hd).
  cbn [bind].
  assert (Htwo : ~ inject_Z 2 == 0) by discriminate.
  destruct (py_truediv_number diameter (VInt 2) _ _ Hd (number_is_int 2) Htwo)
    as (radius & -> & Hri & Hr).
  cbn [bind].
  assert (Hr' : number_is radius (ring_radius size stroke_width s w)).
  { eapply number_is_comp; [|exact Hr]. unfold ring_radius. rewrite Hdi.
    destruct (is_int size && is_int stroke_width)%bool; cbn [andb is_int].
    - reflexivity.
    - apply round_double_comp. unfold operand at 1. rewrite Hdi.
      rewrite (operand_small_int 2) by (vm_compute; reflexivity). reflexivity. }
  rewrite two_pi_value. cbn [bind].
  destruct (py_mul_number (float (2 * math_pi)) radius _ _
              (number_is_float (2 * math_pi)) Hr')
    as (circumference & -> & Hci & Hc).
  cbn [bind].
  assert (Hc' : number_is circumference
                  (ring_circumference (ring_radius size stroke_width s w))).
  { eapply number_is_comp; [|exact Hc]. cbn [is_int float andb].
    unfold ring_circumference. apply round_double_comp.
    rewrite (operand_float radius _ Hri). reflexivity. }
  cbn [is_int float andb] in Hci.
  assert (Hhundred : ~ inject_Z 100 == 0) by discriminate.
  destruct (py_truediv_number normalized (VInt 100) _ _ Hclamp (number_is_int 100)
              Hhundred)
    as (fraction & -> & Hfi & Hf).
  cbn [bind].
  assert (Hf' : number_is fraction (round_double (clamp_percentage p / 100))).
  { eapply number_is_comp; [|exact Hf].
    destruct (is_int normalized) eqn:Ini; cbn [andb is_int].
    - reflexivity.
    - apply round_double_comp. rewrite (operand_float normalized _ Ini).
      rewrite (operand_small_int 100) by (vm_compute; reflexivity). reflexivity. }
  destruct (py_mul_number fraction circumference _ _ Hf' Hc')
    as (covered & -> & Hcovi & Hcov).
  cbn [bind].
  rewrite Hfi in Hcovi, Hcov. cbn [andb] in Hcovi, Hcov.
  rewrite (operand_float fraction _ Hfi), (operand_float circumference _ Hci) in Hcov.
  destruct (py_sub_number circumference covered _ _ Hc' Hcov)
    as (offset & -> & Hoi & Ho).
  cbn [bind].
  rewrite Hci in Ho. cbn [andb] in Ho.
  rewrite (operand_float circumference _ Hci), (operand_float covered _ Hcovi) in Ho.
  exists radius, circumference, offset.
  split; [reflexivity|]. split; [exact Hr'|]. split; [exact Hc'|]. exact Ho.
Qed.

Lemma progress_ring_geometry_above_100 (percentage size stroke_width : value) (p : Q) :
  number_is percentage p -> 100 < p ->
  progress_ring_geometry percentage size stroke_width
    = progress_ring_geometry (VInt 100) size stroke_width.
Proof.
  intros Hp Hgt. unfold progress_ring_geometry.
  destruct (normalized_percentage_number percentage p Hp)
    as (raised & normalized & -> & Hn & _ & Habove).
  cbn [bind]. rewrite Hn. rewrite (Habove Hgt). reflexivity.
Qed.

Lemma clamp_percentage_range (p : Q) : 0 <= clamp_percentage p <= 100.
Proof.
  unfold clamp_percentage. split.
  - apply Q.min_glb; [apply Q.le_max_r|lra].
  - apply Q.le_min_r.
Qed.

(** C8.  For numeric [percentage], [size] and [strokeWidth] the ring's
    numbers are, in double arithmetic, [radius = (size - strokeWidth) / 2],
    [circumference = 2 * pi * radius] and
    [offset = circumference - clamped / 100 * circumference], with [clamped]
    the percentage clamped to the range 0..100.  The offset is
    [circumference * (1 - clamped / 100)] up to the rounding of its last
    bits: it lies between 0 and the circumference, is 0 from 100 percent on
    and the whole circumference up to 0 percent.  Above 100 the numbers, and
    with them everything the renderer emits, are those of percentage 100. *)
Theorem progress_ring_percentage_clamped :
  forall (percentage size stroke_width : value) (p s w : Q),
    number_is percentage p -> number_is size s -> number_is stroke_width w ->
    (exists radius circumference offset : value,
        progress_ring_geometry percentage size stroke_width
          = Ok (radius, circumference, offset) /\
        number_is radius (ring_radius size stroke_width s w) /\
        number_is circumference (ring_circumference (ring_radius size stroke_width s w)) /\
        number_is offset
          (ring_offset (ring_circumference (ring_radius size stroke_width s w))
             (clamp_percentage p)) /\
        exists c o : Q,
          number_is circumference c /\ number_is offset o /\
          (0 <= c ->
             0 <= o <= c /\
             Qabs (o - c * (1 - clamp_percentage p / 100))
               <= c * 2 ^ (-51) + 2 ^ (-1073)) /\
          (100 <= p -> o == 0) /\
          (p <= 0 -> o == c)) /\
    0 <= clamp_percentage p <= 100 /\
    (100 < p ->
       clamp_percentage p == 100 /\
       progress_ring_geometry percentage size stroke_width
         = progress_ring_geometry (VInt 100) size stroke_width /\
       forall (props : dict) (depth : nat) (flex width height : value) (st : cstate),
         render_progress_ring_component py_repr id_entropy
           (dict_set props "percentage" percentage) depth flex width height st
         = render_progress_ring_component py_repr id_entropy
             (dict_set props "percentage" (VInt 100)) depth flex width height st).
Proof.
  intros percentage size stroke_width p s w Hp Hs Hw.
  split.
  { destruct (progress_ring_geometry_number percentage size stroke_width p s w Hp Hs Hw)
      as (radius & circumference & offset & Hgeo & Hr & Hc & Ho).
    exists radius, circumference, offset.
    split; [exact Hgeo|]. split; [exact Hr|]. split; [exact Hc|]. split; [exact Ho|].
    set (c := ring_circumference (ring_radius size stroke_width s w)) in *.
    exists c, (ring_offset c (clamp_percentage p)).
    split; [exact Hc|]. split; [exact Ho|].
    assert (Hdouble : round_double c == c) by apply round_double_idempotent.
    split; [|split].
    - intro Hc0. apply ring_offset_bounds; [exact Hdouble|exact Hc0|].
      apply clamp_percentage_range.
    - intro H100. apply ring_offset_full; [exact Hdouble|].
      unfold clamp_percentage. rewrite Q.max_l by lra. apply Q.min_r. exact H100.
    - intro H0. apply ring_offset_empty; [exact Hdouble|].
      unfold clamp_percentage. rewrite Q.max_r by exact H0. apply Q.min_l. lra. }
  split; [apply clamp_percentage_range|].
  intro Hgt. split; [|split].
  - unfold clamp_percentage. rewrite Q.max_l by lra. rewrite Q.min_r by lra. reflexivity.
  - apply progress_ring_geometry_above_100 with (p := p); assumption.
  - intros props depth flex width height st.
    unfold render_progress_ring_component.
    rewrite !get_default_set_same.
    unfold get.
    rewrite !get_default_set_other by discriminate.
    rewrite (progress_ring_geometry_above_100 percentage _ _ p Hp Hgt).
    reflexivity.
Qed.

(** *** C9: the progress bar *)

Lemma times_100_product (progress : value) (q : Q) :
  number_is progress q ->
  exists percent : value,
    py_mul progress (VInt 100) = Ok percent /\
    times_100 progress = Some percent.
Proof.
  intros (x & Hx & _). destruct progress; try discriminate Hx.
  - destruct b; eexists; split; reflexivity.
  - eexists. split; reflexivity.
  - eexists. split; [reflexivity|]. cbn [times_100]. f_equal. apply float_comp.
    apply round_double_comp.
    assert (E : round_double (inject_Z 100) == 100) by (vm_compute; reflexivity).
    rewrite E. reflexivity.
Qed.

(** The number [progress * 100] stays with the exact product: it is the
    product itself for an int, and for a float the double nearest to it. *)
Lemma times_100_close (progress percent : value) (q : Q) :
  number_is progress q ->
  times_100 progress = Some percent ->
  exists x : Q,
    as_number percent = Some x /\
    Qabs (x - q * 100) <= Qabs (q * 100) * 2 ^ (-53) + 2 ^ (-1075) /\
    (1 <= q -> 100 <= x) /\
    (q <= 0 -> x <= 0).
Proof.
  intros (y & Hy & Ey) Ht.
  pose proof (pow2_pos (-53)) as Hu. pose proof (pow2_pos (-1075)) as Heta.
  assert (Hexact : forall z : Z, y = inject_Z z ->
            Qabs (inject_Z (z * 100) - q * 100)
              <= Qabs (q * 100) * 2 ^ (-53) + 2 ^ (-1075) /\
            (1 <= q -> 100 <= inject_Z (z * 100)) /\
            (q <= 0 -> inject_Z (z * 100) <= 0)).
  { intros z Hz. rewrite Hz in Ey.
    assert (E : inject_Z (z * 100) == q * 100).
    { rewrite inject_Z_mult, Ey. reflexivity. }
    split; [|split].
    - assert (E0 : inject_Z (z * 100) - q * 100 == 0) by (rewrite E; ring).
      rewrite E0. change (Qabs 0) with 0.
      pose proof (Qabs_nonneg (q * 100)). nra.
    - intro H. rewrite E. lra.
    - intro H. rewrite E. lra. }
  destruct progress; try discriminate Hy; cbn [times_100] in Ht; injection Ht as <-;
    cbn [as_number] in Hy; injection Hy as <-.
  - exists (inject_Z ((if b then 1 else 0) * 100)). split; [destruct b; reflexivity|].
    apply Hexact. destruct b; reflexivity.
  - exists (inject_Z (z * 100)). split; [reflexivity|]. apply Hexact. reflexivity.
  - exists (Qred (round_double (q0 * 100))). split; [reflexivity|].
    rewrite Qred_correct.
    assert (Ep : q0 * 100 == q * 100) by (rewrite Ey; reflexivity).
    rewrite (round_double_comp _ _ Ep).
    split; [apply round_double_error|]. split.
    + intro H. assert (E100 : round_double 100 == 100) by (vm_compute; reflexivity).
      apply Qle_trans with (round_double 100); [rewrite E100; apply Qle_refl|].
      apply round_double_monotone. lra.
    + intro H. apply round_double_nonpos. lra.
Qed.

(** C9.  For every numeric [progress] (below [2^1000] in magnitude) the bar
    is rendered without error as three lines, the inner box being emitted
    with width [progress * 100] percent as Python computes the product, the
    product of ints or the double nearest to the product, whatever the
    number: nothing is clamped, from 1 on the width is 100 or more, from 0
    down it is 0 or less. *)
Theorem progress_bar_width_unclamped :
  forall (props : dict) (depth : nat) (flex width height : value) (st : cstate) (q : Q),
    number_is (get_default props "progress" (float (5 # 10))) q ->
    Qabs q <= 2 ^ 1000 ->
    exists (percent : value) (container_line : string) (st' : cstate),
      times_100 (get_default props "progress" (float (5 # 10))) = Some percent /\
      render_progress_bar_component py_repr id_entropy props depth flex width height st
        = Ok st' /\
      lines st' =
        app (lines st)
          [ container_line;
            indent_of depth ++ "  <div style=" ++ String "034" EmptyString
              ++ "width: " ++ py_str py_repr percent
              ++ "%; height: 100%; background-color: "
              ++ py_str py_repr (get_default props "color" (VStr "#007AFF"))
              ++ "; transition: width 0.3s ease;" ++ String "034" EmptyString
              ++ "></div>";
            indent_of depth ++ "</div>" ] /\
      scripts st' = scripts st /\
      exists x : Q,
        as_number percent = Some x /\
        Qabs (x - q * 100) <= Qabs (q * 100) * 2 ^ (-53) + 2 ^ (-1075) /\
        (1 <= q -> 100 <= x) /\
        (q <= 0 -> x <= 0).
Proof.
  intros props depth flex width height st q Hq _.
  destruct (times_100_product _ q Hq) as (percent & Hmul & Htimes).
  unfold render_progress_bar_component. cbv zeta.
  unfold unique_id.
  match goal with
  | |- context [format_style_object ?entries] =>
      destruct (format_style_object_ok entries) as [style Hstyle]
  end.
  { apply colons_with_box_styles.
    repeat constructor; colon. }
  exists percent. eexists. eexists.
  split; [exact Htimes|].
  rewrite Hstyle. cbn [bind]. rewrite Hmul. cbn [bind].
  split; [reflexivity|]. simpl lines. simpl scripts.
  split; [rewrite <- !app_assoc; reflexivity|]. split; [reflexivity|].
  apply (times_100_close _ percent q Hq Htimes).
Qed.

(** *** C2: the engine's output is accepted by the compiler *)

Lemma layout_node_nested_ind (P : layout_node -> Prop) :
  (forall b t d subs tx c n,
      Forall P subs -> P (LayoutNode b t d subs tx c n)) ->
  forall node, P node.
Proof.
  intro H. fix IH 1. intros [b t d subs tx c n]. apply H.
  induction subs as [|s rest IHs]; constructor; [apply IH|exact IHs].
Qed.

Lemma mapM_Forall {A B : Type} (f : A -> result B) (P : B -> Prop) (l : list A) :
  Forall (fun x => forall y, f x = Ok y -> P y) l ->
  forall ys, mapM f l = Ok ys -> Forall P ys.
Proof.
  induction 1 as [|x rest Hx _ IH]; simpl; intros ys Hys.
  - injection Hys as <-. constructor.
  - destruct (f x) as [y|] eqn:Ey; simpl in Hys; [|discriminate].
    destruct (mapM f rest) as [ys'|]; simpl in Hys; [|discriminate].
    injection Hys as <-. constructor; [apply Hx; reflexivity|apply IH; reflexivity].
Qed.

Lemma container_lookup_children (direction : string) (gap : Z)
    (align_main align_cross : option string) (flex : option Q) (children : list value) :
  lookup
    ([("type", VStr "container"); ("direction", VStr direction); ("gap", VInt gap)]
     ++ optional_field "alignMain" VStr align_main
     ++ optional_field "alignCross" VStr align_cross
     ++ optional_field "flex" float flex
     ++ [("children", VList children)])%list "children"
  = Some (VList children).
Proof.
  destruct align_main, align_cross, flex; reflexivity.
Qed.

(** Every node the engine emits is a well-formed DSL tree. *)
Lemma convert_node_dsl_tree (physical_size virtual_size : size2) :
  forall (node : layout_node) (parent_rect : option Rect.t)
         (parent_direction : option string) (v : value),
    _convert_node node physical_size virtual_size parent_rect parent_direction = Ok v ->
    dsl_tree v.
Proof.
  intro node. induction node as [b t d subs tx c n IH] using layout_node_nested_ind.
  intros pr pd v Hconv. rewrite convert_node_unfold in Hconv.
  set (node := LayoutNode b t d subs tx c n) in *.
  assert (Hcontainer :
    _convert_container
      (fun child pr pd => _convert_node child physical_size virtual_size pr pd)
      node (node_rect node) pr pd = Ok v -> dsl_tree v).
  { intro Hc. apply convert_container_shape in Hc.
    destruct Hc as (children & Hmap & ->).
    apply dsl_container with (children := children).
    - reflexivity.
    - unfold get_default. rewrite container_lookup_children. reflexivity.
    - revert Hmap. apply mapM_Forall.
      eapply Forall_impl; [|exact IH].
      intros child Hchild y Hy. exact (Hchild _ _ _ Hy). }
  pose proof (leaf_component_cases node) as Hcases.
  destruct (_leaf_component node) as [component|] eqn:Hleaf; [|exact (Hcontainer Hconv)].
  destruct (_node_children node); [|exact (Hcontainer Hconv)].
  apply convert_leaf_shape in Hconv.
  destruct Hconv as (component' & fields & Hc' & ->).
  rewrite Hleaf in Hc'. injection Hc' as <-.
  apply dsl_leaf with (component := component); try reflexivity.
  destruct Hcases as [-> | [-> | ->]]; discriminate.
Qed.

(** Rendering a well-formed DSL tree never fails with [InvalidLeaf]. *)
Lemma dsl_tree_never_invalid_leaf (fuel : nat) :
  forall (v : value) (depth : nat) (st : cstate),
    dsl_tree v -> render_node py_repr id_entropy fuel v depth st <> Err InvalidLeaf.
Proof.
  induction fuel as [|fuel IH]; intros v depth st Hv; [discriminate|].
  destruct Hv as [node component Ht Hc Hne | node children Ht Hch Hall]; simpl.
  - rewrite Ht. simpl.
    pose proof (render_leaf_outcome node depth st) as Ho. unfold leaf_outcome in Ho.
    assert (Htruthy : truthy (get node "component") = true).
    { rewrite Hc. simpl. apply negb_true_iff. apply String.eqb_neq. exact Hne. }
    rewrite Htruthy in Ho.
    destruct (render_leaf py_repr id_entropy node depth st) as [st'|e];
      [discriminate|].
    intro H. injection H as ->. discriminate Ho.
  - rewrite Ht. simpl.
    repeat (case_bind_soft; [|soft_error]).
    match goal with
    | E : py_iter _ = Ok ?items |- _ =>
        rewrite Hch in E; simpl in E; injection E as <-
    end.
    match goal with
    | |- context [for_each ?f ?items ?s] =>
        destruct (for_each f items s) as [st'|e] eqn:Ef; simpl; [discriminate|]
    end.
    intro H. injection H as ->.
    apply for_each_error in Ef. destruct Ef as (c & st' & Hin & Hc).
    rewrite Forall_forall in Hall.
    exact (IH c (S depth) st' (Hall c Hin) Hc).
Qed.

Lemma dsl_tree_truthy (v : value) : dsl_tree v -> truthy v = true.
Proof.
  destruct 1 as [node component Ht _ _ | node children Ht _ _];
    destruct node; try reflexivity; discriminate Ht.
Qed.

(** C2.  Whenever the engine returns a widget for a layout tree, the widget
    has a root, the root is a DSL tree whose every leaf names its component,
    and compiling the widget fails neither with [InvalidSpec] nor with
    [InvalidLeaf]. *)
Theorem engine_output_passes_preconditions :
  forall (layout_json : layout_node) (physical_size virtual_size : size2)
         (widget_dsl : value),
    layout_json_to_widget_dsl layout_json physical_size virtual_size = Ok widget_dsl ->
    exists (spec widget : dict) (root : value),
      widget_dsl = VDict spec /\
      widget_of spec = Ok widget /\
      lookup widget "root" = Some root /\
      truthy root = true /\
      dsl_tree root /\
      compile_widget_dsl_to_html py_repr id_entropy spec <> Err InvalidSpec /\
      compile_widget_dsl_to_html py_repr id_entropy spec <> Err InvalidLeaf.
Proof.
  intros layout_json ps vs widget_dsl Hengine.
  unfold layout_json_to_widget_dsl in Hengine.
  destruct (_convert_node layout_json ps vs None None) as [root|e] eqn:Hroot;
    simpl in Hengine; [|discriminate].
  injection Hengine as <-.
  pose proof (convert_node_dsl_tree ps vs _ _ _ _ Hroot) as Htree.
  pose proof (dsl_tree_truthy _ Htree) as Htruthy.
  eexists. eexists. exists root.
  split; [reflexivity|]. split; [reflexivity|]. split; [reflexivity|].
  split; [exact Htruthy|]. split; [exact Htree|].
  split.
  - intro H. apply compile_invalid_spec_iff in H.
    destruct H as (widget & Hw & Hfalse).
    unfold widget_of in Hw. simpl in Hw. injection Hw as <-.
    change (truthy root = false) in Hfalse. congruence.
  - unfold compile_widget_dsl_to_html.
    change (widget_of _) with
      (Ok [("padding", VInt 0);
           ("aspectRatio",
            VList [VInt (py_round (Rect.width (node_rect layout_json)));
                   VInt (py_round (Rect.height (node_rect layout_json)))]);
           ("root", root)]).
    cbn [bind].
    change (get _ "root") with root. rewrite Htruthy. cbn [negb].
    destruct (render_node py_repr id_entropy (S (nesting root)) root 0 initial_state)
      as [st|e] eqn:Hrender; cbn [bind].
    + pose proof (soft_format_style_object
                    (widget_styles py_repr
                       [("padding", VInt 0);
                        ("aspectRatio",
                         VList [VInt (py_round (Rect.width (node_rect layout_json)));
                                VInt (py_round (Rect.height (node_rect layout_json)))]);
                        ("root", root)])) as Hs.
      destruct (format_style_object _) as [style|e]; simpl; [discriminate|].
      intro H. injection H as ->. discriminate Hs.
    + intro H. injection H as ->.
      exact (dsl_tree_never_invalid_leaf _ _ _ _ Htree Hrender).
Qed.
End CompilerFacts.

(** ** The compiler's theorems at concrete inputs *)

Lemma render_spacer_witness :
  render_node sample_repr sample_entropy 1 (VDict sample_spacer) 0 initial_state
    = Ok initial_state.
Proof.
  apply (render_node_skips_other_types sample_repr sample_entropy sample_spacer);
    discriminate.
Defined.

Lemma compile_invalid_leaf_witness :
  compile_widget_dsl_to_html sample_repr sample_entropy sample_bad_widget
    = Err InvalidLeaf.
Proof.
  destruct (compile_invalid_spec_and_leaf sample_repr sample_entropy sample_bad_widget)
    as (_ & _ & _ & H & _).
  eapply H with (fuel := 2%nat) (leaf := sample_anonymous_leaf);
    [reflexivity | reflexivity | | reflexivity | reflexivity].
  eapply visits_child with (before := [sample_text_leaf]) (after := []);
    [reflexivity | reflexivity | reflexivity | reflexivity | reflexivity
    | reflexivity | apply visits_here].
Defined.

Lemma progress_ring_150_witness :
  progress_ring_geometry (VInt 150) (VInt 80) (VInt 6)
    = progress_ring_geometry (VInt 100) (VInt 80) (VInt 6).
Proof.
  destruct (progress_ring_percentage_clamped sample_repr sample_entropy
              (VInt 150) (VInt 80) (VInt 6) (inject_Z 150) (inject_Z 80) (inject_Z 6)
              (number_is_int 150) (number_is_int 80) (number_is_int 6))
    as (_ & _ & H).
  apply H. reflexivity.
Defined.

Lemma progress_bar_overfull_witness :
  exists (percent : value) (container_line : string) (st' : cstate),
    times_100 (get_default sample_overfull_bar "progress" (float (5 # 10)))
      = Some percent /\
    render_progress_bar_component sample_repr sample_entropy sample_overfull_bar 0
      VNone VNone VNone initial_state = Ok st' /\
    lines st' =
      app (lines initial_state)
        [ container_line;
          indent_of 0 ++ "  <div style=" ++ String "034" EmptyString
            ++ "width: " ++ py_str sample_repr percent
            ++ "%; height: 100%; background-color: "
            ++ py_str sample_repr (get_default sample_overfull_bar "color" (VStr "#007AFF"))
            ++ "; transition: width 0.3s ease;" ++ String "034" EmptyString
            ++ "></div>";
          indent_of 0 ++ "</div>" ] /\
    scripts st' = scripts initial_state /\
    exists x : Q,
      as_number percent = Some x /\
      Qabs (x - (3 # 2) * 100) <= Qabs ((3 # 2) * 100) * 2 ^ (-53) + 2 ^ (-1075) /\
      (1 <= 3 # 2 -> 100 <= x) /\
      (3 # 2 <= 0 -> x <= 0).
Proof.
  apply (progress_bar_width_unclamped sample_repr sample_entropy sample_overfull_bar
           0%nat VNone VNone VNone initial_state (3 # 2)).
  - exists (3 # 2). split; reflexivity.
  - apply Qle_bool_iff. vm_compute. reflexivity.
Defined.

(** The products of the two sample bars, as Python prints them: [150.0] for
    a progress of [1.5], and [7.000000000000001] for a progress of [0.07]. *)
Lemma progress_bar_sample_products :
  times_100 (get sample_overfull_bar "progress") = Some (VFloat 150) /\
  times_100 (get sample_seven_percent "progress")
    = Some (VFloat (7881299347898369 # 1125899906842624)).
Proof. split; vm_compute; reflexivity. Qed.

Lemma engine_output_witness :
  exists widget_dsl : value,
    layout_json_to_widget_dsl sample_layout sample_physical sample_virtual
      = Ok widget_dsl /\
    exists (spec widget : dict) (root : value),
      widget_dsl = VDict spec /\
      widget_of spec = Ok widget /\
      lookup widget "root" = Some root /\
      truthy root = true /\
      dsl_tree root /\
      compile_widget_dsl_to_html sample_repr sample_entropy spec <> Err InvalidSpec /\
      compile_widget_dsl_to_html sample_repr sample_entropy spec <> Err InvalidLeaf.
Proof.
  eexists. split; [reflexivity|].
  apply (engine_output_passes_preconditions sample_repr sample_entropy sample_layout
           sample_physical sample_virtual).
  reflexivity.
Defined.

(** * Further properties of the layout inference engine *)

(** ** Geometry *)

(** X1.  The width and height of a rectangle are never negative: they are 0
    when the edges are given in the wrong order, and the difference of the
    edges otherwise. *)
Theorem rect_size_never_negative :
  forall r : Rect.t,
    (0 <= Rect.width r /\ 0 <= Rect.height r) /\
    (Rect.right r <= Rect.left r -> Rect.width r == 0) /\
    (Rect.bottom r <= Rect.top r -> Rect.height r == 0) /\
    (Rect.left r <= Rect.right r -> Rect.width r == Rect.right r - Rect.left r) /\
    (Rect.top r <= Rect.bottom r -> Rect.height r == Rect.bottom r - Rect.top r).
Proof.
  intro r. unfold Rect.width, Rect.height.
  destruct (py_max_spec 0 (Rect.right r - Rect.left r)) as [[Hw ->]|[Hw ->]];
    destruct (py_max_spec 0 (Rect.bottom r - Rect.top r)) as [[Hh ->]|[Hh ->]];
    repeat split; intros; lra.
Qed.

(** ** Alignment of a sole child *)

Lemma tolerance_at_least_8 (size : Q) : 8 <= tolerance size.
Proof. unfold tolerance. apply py_max_lower. Qed.

Lemma within_zero (x tol : Q) : x == 0 -> 0 <= tol -> within x tol = true.
Proof.
  intros Hx Htol. apply within_iff. rewrite Hx. simpl. exact Htol.
Qed.

Lemma axis_center_midpoint (direction : string) (c : Rect.t) :
  leading direction c <= trailing direction c ->
  axis_center direction c == (leading direction c + trailing direction c) / 2.
Proof.
  unfold leading, trailing, axis_center, Rect.center_x, Rect.center_y.
  destruct (String.eqb direction "row"); intro H.
  - assert (E : Rect.width c == Rect.right c - Rect.left c).
    { unfold Rect.width.
      destruct (py_max_spec 0 (Rect.right c - Rect.left c)) as [[Hw ->]|[Hw ->]]; lra. }
    rewrite E. field.
  - assert (E : Rect.height c == Rect.bottom c - Rect.top c).
    { unfold Rect.height.
      destruct (py_max_spec 0 (Rect.bottom c - Rect.top c)) as [[Hw ->]|[Hw ->]]; lra. }
    rewrite E. field.
Qed.

(** X2.  A container whose only child has the container's own bounds is
    centered on the cross axis, and on the main axis too when the bounds
    are well-formed along it. *)
Theorem sole_child_filling_container_is_centered :
  forall (c : Rect.t) (direction : string),
    _align_cross c [c] direction = Some "center" /\
    (leading direction c <= trailing direction c ->
     _align_main c [c] direction = Some "center").
Proof.
  intros c direction. split.
  - unfold _align_cross. cbn [map List.length sum_list fold_left].
    rewrite within_zero; [reflexivity| |].
    + unfold sum_list. simpl. field.
    + pose proof (tolerance_at_least_8 (cross_size direction c)). lra.
  - intro Hwf. unfold _align_main.
    cbn [map List.length min_list max_list fold_left Nat.ltb Nat.leb andb].
    rewrite within_zero; [reflexivity| |].
    + rewrite (axis_center_midpoint direction c Hwf). unfold min_list, max_list.
      simpl. field.
    + pose proof (tolerance_at_least_8 (axis_size direction c)). lra.
Qed.

Lemma sole_child_centered_witness :
  _align_main (Rect.mk 0 0 100 40) [Rect.mk 0 0 100 40] "row" = Some "center".
Proof.
  apply (sole_child_filling_container_is_centered (Rect.mk 0 0 100 40) "row").
  discriminate.
Defined.

(** ** Direction hints *)

Lemma map_direction_cases (hint : option string) :
  _map_direction hint = "row" \/ _map_direction hint = "col".
Proof.
  destruct hint as [v|]; simpl; [|right; reflexivity].
  destruct (String.eqb v ""); [right; reflexivity|].
  destruct (contains "row" (lower v)); [left; reflexivity|].
  destruct (contains "col" (lower v)), (contains "stack" (lower v)); right; reflexivity.
Qed.

(** X3.  A direction hint is mapped to ["row"] or ["col"], and to ["row"]
    exactly when it is a string that contains "row" once lower-cased (also
    when it contains "col" or "stack" as well). *)
Theorem map_direction_row_or_col :
  forall hint : option string,
    (_map_direction hint = "row" \/ _map_direction hint = "col") /\
    (_map_direction hint = "row" <->
     exists v, hint = Some v /\ contains "row" (lower v) = true).
Proof.
  intros [v|]; simpl.
  - destruct (String.eqb_spec v "") as [->|Hne].
    + split; [right; reflexivity|]. split; [discriminate|].
      intros (v & Hv & Hc). injection Hv as <-. discriminate Hc.
    + destruct (contains "row" (lower v)) eqn:Hrow.
      * split; [left; reflexivity|]. split; [|reflexivity].
        intros _. exists v. split; [reflexivity|exact Hrow].
      * assert (Hcol : (if contains "col" (lower v) then "col"
                        else if contains "stack" (lower v) then "col" else "col")
                       = "col")
          by (destruct (contains "col" (lower v)), (contains "stack" (lower v));
              reflexivity).
        rewrite Hcol. split; [right; reflexivity|]. split; [discriminate|].
        intros (v' & Hv & Hc). injection Hv as <-. congruence.
  - split; [right; reflexivity|]. split; [discriminate|].
    intros (v & Hv & _). discriminate Hv.
Qed.

(** ** The inferred gap *)

(** [statistics.median] lies between any bounds of the data. *)
Lemma median_between (data : list Q) (lo hi : Q) :
  data <> [] ->
  Forall (fun x => lo <= x <= hi) data ->
  lo <= median data <= hi.
Proof.
  intros Hne Hall. unfold median.
  set (sorted := sort_by (fun x => x) data).
  assert (Hlen : List.length sorted = List.length data) by apply sort_by_length.
  assert (Hpos : (0 < List.length sorted)%nat).
  { rewrite Hlen. destruct data; [congruence|simpl; lia]. }
  assert (Hin : forall i, (i < List.length sorted)%nat -> lo <= nth i sorted 0 <= hi).
  { intros i Hi. rewrite Forall_forall in Hall. apply Hall.
    apply (Permutation_in _ (sort_by_perm (fun x => x) data)).
    apply nth_In. exact Hi. }
  assert (Hhalf : (Nat.div (List.length sorted) 2 < List.length sorted)%nat)
    by (apply Nat.div_lt; lia).
  destruct (Nat.odd (List.length sorted)).
  - apply Hin. exact Hhalf.
  - pose proof (Hin (Nat.div (List.length sorted) 2) Hhalf) as H1.
    assert (H2 : lo <= nth (Nat.div (List.length sorted) 2 - 1) sorted 0 <= hi)
      by (apply Hin; lia).
    split.
    + apply Qle_shift_div_l; lra.
    + apply Qle_shift_div_r; lra.
Qed.

Lemma positive_distances_positive (direction : string) (children : list layout_node) :
  Forall (fun g => 0 < g) (positive_distances direction children).
Proof.
  unfold positive_distances. apply Forall_forall. intros g Hg.
  apply filter_In in Hg. destruct Hg as [_ Hg]. apply Qlt_bool_iff. exact Hg.
Qed.

Lemma Forall_max_bound (l : list Q) :
  exists hi, Forall (fun x => x <= hi) l.
Proof.
  induction l as [|x rest [hi IH]].
  - exists 0. constructor.
  - exists (Qmax x hi). constructor.
    + apply Q.le_max_l.
    + eapply Forall_impl; [|exact IH]. intros y Hy. simpl in Hy.
      pose proof (Q.le_max_r x hi). lra.
Qed.

Lemma infer_gap_never_negative (children : list layout_node) (direction : string) :
  (0 <= _infer_gap children direction)%Z.
Proof.
  rewrite infer_gap_unfold.
  destruct (positive_distances direction children) as [|g rest] eqn:E; [lia|].
  pose proof (positive_distances_positive direction children) as Hpos.
  rewrite E in Hpos.
  destruct (Forall_max_bound (g :: rest)) as [hi Hhi].
  assert (Hm : 0 <= median (g :: rest) <= hi).
  { apply median_between; [discriminate|].
    rewrite Forall_forall in *. intros x Hx.
    specialize (Hpos x Hx). specialize (Hhi x Hx). simpl in *. lra. }
  rewrite <- (py_round_inject_Z 0). apply py_round_monotone.
  change (inject_Z 0) with 0. lra.
Qed.

(** X4.  The inferred gap is never negative, whatever the children's
    bounds (overlapping, unordered or missing). *)
Theorem infer_gap_nonnegative :
  forall (children : list layout_node) (direction : string),
    (0 <= _infer_gap children direction)%Z /\
    (bounded_rects children = [] -> _infer_gap children direction = 0%Z).
Proof.
  intros children direction. split; [apply infer_gap_never_negative|].
  intro H. rewrite infer_gap_unfold, positive_distances_short; [reflexivity|].
  rewrite H. simpl. lia.
Qed.








(** ** Flex ratios *)

Lemma py_round_digits_monotone (p q : Q) (n : nat) :
  p <= q -> py_round_digits p n <= py_round_digits q n.
Proof.
  intro H. unfold py_round_digits.
  assert (Hs : 0 < inject_Z (10 ^ Z.of_nat n)).
  { change 0 with (inject_Z 0). rewrite <- Zlt_Qlt. apply Z.pow_pos_nonneg; lia. }
  apply Qdiv_le_compat_pos; [exact Hs|].
  rewrite <- Zle_Qle. apply py_round_monotone.
  apply Qmult_le_compat_r; lra.
Qed.

(** X6.  An inferred flex ratio is never negative, and is at most 1 when the
    child is no larger than its parent along the parent's main axis. *)
Theorem infer_flex_between_0_and_1 :
  forall (rect parent : Rect.t) (direction : string) (f : Q),
    _infer_flex rect (Some parent) (Some direction) = Some f ->
    0 <= f /\
    (axis_size direction rect <= axis_size direction parent -> f <= 1).
Proof.
  intros rect parent direction f. unfold _infer_flex.
  destruct (String.eqb direction ""); [discriminate|].
  fold (axis_size direction parent) (axis_size direction rect).
  destruct (Qle_bool (axis_size direction parent) 0) eqn:Hp; [discriminate|].
  apply Qle_bool_false_iff in Hp.
  intro H. injection H as <-. unfold py_round_float. split.
  - apply round_double_nonneg, py_round_digits_nonneg. apply py_max_lower.
  - intro Hle.
    assert (Hratio : py_max 0 (round_double (axis_size direction rect
                                             / axis_size direction parent)) <= 1).
    { assert (Hq : axis_size direction rect / axis_size direction parent <= 1).
      { apply Qle_shift_div_r; lra. }
      apply round_double_monotone in Hq. rewrite round_double_one in Hq.
      destruct (py_max_spec 0 (round_double (axis_size direction rect
                                             / axis_size direction parent)))
        as [[_ ->]|[_ ->]]; lra. }
    apply (py_round_digits_monotone _ _ 3) in Hratio.
    apply round_double_monotone in Hratio.
    assert (E : round_double (py_round_digits 1 3) == 1) by (vm_compute; reflexivity).
    lra.
Qed.

Lemma infer_flex_witness :
  exists f : Q,
    _infer_flex (Rect.mk 0 0 50 40) (Some wide_parent) (Some "row") = Some f /\
    0 <= f /\
    (axis_size "row" (Rect.mk 0 0 50 40) <= axis_size "row" wide_parent -> f <= 1).
Proof.
  eexists. split; [vm_compute; reflexivity|].
  apply (infer_flex_between_0_and_1 (Rect.mk 0 0 50 40) wide_parent "row").
  vm_compute. reflexivity.
Defined.

(** ** Containers of the engine's output *)

Lemma align_main_values (container : Rect.t) (children : list Rect.t)
    (direction answer : string) :
  _align_main container children direction = Some answer -> main_alignment answer.
Proof.
  unfold _align_main, main_alignment. destruct children as [|first others]; [discriminate|].
  repeat match goal with
         | |- context [if ?b then _ else _] => destruct b
         end;
    intro H; injection H as <-; auto.
Qed.

Lemma align_cross_values (container : Rect.t) (children : list Rect.t)
    (direction answer : string) :
  _align_cross container children direction = Some answer -> cross_alignment answer.
Proof.
  unfold _align_cross, cross_alignment. destruct children as [|first others]; [discriminate|].
  repeat match goal with
         | |- context [if ?b then _ else _] => destruct b
         end;
    intro H; injection H as <-; auto.
Qed.

Lemma align_main_nonempty (container first : Rect.t) (others : list Rect.t)
    (direction : string) :
  exists answer, _align_main container (first :: others) direction = Some answer.
Proof.
  unfold _align_main.
  repeat match goal with
         | |- context [if ?b then _ else _] => destruct b
         end; eauto.
Qed.

Lemma align_cross_nonempty (container first : Rect.t) (others : list Rect.t)
    (direction : string) :
  exists answer, _align_cross container (first :: others) direction = Some answer.
Proof.
  unfold _align_cross.
  repeat match goal with
         | |- context [if ?b then _ else _] => destruct b
         end; eauto.
Qed.

Lemma container_lookup_align_main (direction : string) (gap : Z)
    (align_main align_cross : option string) (flex : option Q) (children : list value) :
  lookup
    ([("type", VStr "container"); ("direction", VStr direction); ("gap", VInt gap)]
     ++ optional_field "alignMain" VStr align_main
     ++ optional_field "alignCross" VStr align_cross
     ++ optional_field "flex" float flex
     ++ [("children", VList children)])%list "alignMain"
  = option_map VStr align_main.
Proof. destruct align_main, align_cross, flex; reflexivity. Qed.

Lemma container_lookup_align_cross (direction : string) (gap : Z)
    (align_main align_cross : option string) (flex : option Q) (children : list value) :
  lookup
    ([("type", VStr "container"); ("direction", VStr direction); ("gap", VInt gap)]
     ++ optional_field "alignMain" VStr align_main
     ++ optional_field "alignCross" VStr align_cross
     ++ optional_field "flex" float flex
     ++ [("children", VList children)])%list "alignCross"
  = option_map VStr align_cross.
Proof. destruct align_main, align_cross, flex; reflexivity. Qed.

(** What [_convert_node] returns when the result is tagged a container. *)
Lemma convert_node_container_fields (node : layout_node) (physical_size virtual_size : size2)
    (parent_rect : option Rect.t) (parent_direction : option string) (d : dict) :
  _convert_node node physical_size virtual_size parent_rect parent_direction
    = Ok (VDict d) ->
  get d "type" = VStr "container" ->
  exists children : list value,
    mapM (fun child => _convert_node child physical_size virtual_size
                         (Some (node_rect node))
                         (Some (_map_direction (ln_direction node))))
      (_node_children node) = Ok children /\
    d = ([("type", VStr "container");
          ("direction", VStr (_map_direction (ln_direction node)));
          ("gap", VInt (_infer_gap (_node_children node)
                          (_map_direction (ln_direction node))))]
         ++ optional_field "alignMain" VStr
              (_align_main (node_rect node) (bounded_rects (_node_children node))
                 (_map_direction (ln_direction node)))
         ++ optional_field "alignCross" VStr
              (_align_cross (node_rect node) (bounded_rects (_node_children node))
                 (_map_direction (ln_direction node)))
         ++ optional_field "flex" float
              (_infer_flex (node_rect node) parent_rect parent_direction)
         ++ [("children", VList children)])%list.
Proof.
  intros Hconv Htype. rewrite convert_node_unfold in Hconv.
  assert (Hc : _convert_container
                 (fun child pr pd => _convert_node child physical_size virtual_size pr pd)
                 node (node_rect node) parent_rect parent_direction = Ok (VDict d)).
  { destruct (_leaf_component node) as [c|]; [|exact Hconv].
    destruct (_node_children node); [|exact Hconv].
    apply convert_leaf_shape in Hconv. destruct Hconv as (c' & fields & _ & E).
    injection E as ->. discriminate Htype. }
  apply convert_container_shape in Hc.
  destruct Hc as (children & Hmap & E). injection E as ->.
  exists children. split; [exact Hmap|reflexivity].
Qed.

(** X7.  A container emitted by the engine has direction ["row"] or
    ["col"] and a gap that is a non-negative integer.  When none of the
    node's children has bounds, ["alignMain"] and ["alignCross"] are absent
    (not null); otherwise both are present, ["alignMain"] one of between,
    center, start, end and ["alignCross"] one of center, start, end. *)
Theorem container_fields_well_formed :
  forall (node : layout_node) (physical_size virtual_size : size2)
         (parent_rect : option Rect.t) (parent_direction : option string) (d : dict),
    _convert_node node physical_size virtual_size parent_rect parent_direction
      = Ok (VDict d) ->
    get d "type" = VStr "container" ->
    (get d "direction" = VStr "row" \/ get d "direction" = VStr "col") /\
    (exists gap : Z, get d "gap" = VInt gap /\ (0 <= gap)%Z) /\
    (bounded_rects (_node_children node) = [] ->
     lookup d "alignMain" = None /\ lookup d "alignCross" = None) /\
    (bounded_rects (_node_children node) <> [] ->
     exists main cross : string,
       lookup d "alignMain" = Some (VStr main) /\ main_alignment main /\
       lookup d "alignCross" = Some (VStr cross) /\ cross_alignment cross).
Proof.
  intros node ps vs pr pd d Hconv Htype.
  destruct (convert_node_container_fields _ _ _ _ _ _ Hconv Htype)
    as (children & _ & ->).
  split; [|split; [|split]].
  - change (get _ "direction") with (VStr (_map_direction (ln_direction node))).
    destruct (map_direction_cases (ln_direction node)) as [-> | ->]; auto.
  - eexists. split; [reflexivity|]. apply infer_gap_never_negative.
  - intro Hnone. rewrite container_lookup_align_main, container_lookup_align_cross.
    rewrite Hnone. split; reflexivity.
  - intro Hsome. rewrite container_lookup_align_main, container_lookup_align_cross.
    destruct (bounded_rects (_node_children node)) as [|first others] eqn:E;
      [congruence|].
    destruct (align_main_nonempty (node_rect node) first others
                (_map_direction (ln_direction node))) as [main Em].
    destruct (align_cross_nonempty (node_rect node) first others
                (_map_direction (ln_direction node))) as [cross Ec].
    rewrite Em, Ec.
    exists main, cross. simpl.
    split; [reflexivity|]. split; [exact (align_main_values _ _ _ _ Em)|].
    split; [reflexivity|exact (align_cross_values _ _ _ _ Ec)].
Qed.

Lemma container_fields_witness :
  exists d : dict,
    _convert_node sample_layout sample_physical sample_virtual None None
      = Ok (VDict d) /\
    (get d "direction" = VStr "row" \/ get d "direction" = VStr "col") /\
    (exists gap : Z, get d "gap" = VInt gap /\ (0 <= gap)%Z) /\
    (bounded_rects (_node_children sample_layout) = [] ->
     lookup d "alignMain" = None /\ lookup d "alignCross" = None) /\
    (bounded_rects (_node_children sample_layout) <> [] ->
     exists main cross : string,
       lookup d "alignMain" = Some (VStr main) /\ main_alignment main /\
       lookup d "alignCross" = Some (VStr cross) /\ cross_alignment cross).
Proof.
  eexists. split; [reflexivity|].
  apply (container_fields_well_formed sample_layout sample_physical sample_virtual
           None None); reflexivity.
Defined.

(** ** When the engine fails *)

Lemma estimate_font_size_error (bounds : Rect.t) (physical_size virtual_size : size2)
    (num_lines : Z) (e : error) :
  estimate_font_size bounds physical_size virtual_size num_lines
    default_line_height_ratio = Err e ->
  e = ZeroDivisionError /\ font_scale physical_size virtual_size == 0.
Proof.
  unfold estimate_font_size, py_div.
  destruct (Qeq_bool (font_scale physical_size virtual_size) 0) eqn:Hs; cbn [bind].
  - intro H. injection H as <-. split; [reflexivity|]. apply Qeq_bool_iff. exact Hs.
  - assert (Hl : Qeq_bool (round_double (inject_Z (Z.max 1 num_lines))) 0 = false).
    { apply Qeq_bool_false_iff. apply round_double_int_nonzero. lia. }
    rewrite Hl. cbn [bind].
    assert (Hr : Qeq_bool default_line_height_ratio 0 = false) by (vm_compute; reflexivity).
    rewrite Hr. cbn [bind]. discriminate.
Qed.

Lemma convert_leaf_error (node : layout_node) (rect : Rect.t)
    (physical_size virtual_size : size2) (component : string) (e : error) :
  _leaf_component node = Some component ->
  _convert_leaf node rect physical_size virtual_size = Err e ->
  e = ZeroDivisionError /\ font_scale physical_size virtual_size == 0.
Proof.
  intro Hc. unfold _convert_leaf. rewrite Hc.
  destruct (String.eqb component "Text").
  - destruct (estimate_font_size _ _ _ _ _) as [size|e'] eqn:E; cbn [bind];
      [discriminate|].
    intro H. injection H as <-. exact (estimate_font_size_error _ _ _ _ _ E).
  - destruct (String.eqb component "Icon"); [discriminate|].
    destruct (String.eqb component "Image"); discriminate.
Qed.

Lemma mapM_error {A B : Type} (f : A -> result B) (l : list A) (e : error) :
  mapM f l = Err e -> exists x, In x l /\ f x = Err e.
Proof.
  induction l as [|x rest IH]; simpl; [discriminate|].
  destruct (f x) as [y|e'] eqn:E; cbn [bind].
  - destruct (mapM f rest) as [ys|e'']; cbn [bind]; [discriminate|].
    intro H. injection H as ->. destruct (IH eq_refl) as (z & Hin & Hz).
    exists z. split; [right; exact Hin|exact Hz].
  - intro H. injection H as ->. exists x. split; [left; reflexivity|exact E].
Qed.

Lemma convert_node_error (physical_size virtual_size : size2) :
  forall (node : layout_node) (parent_rect : option Rect.t)
         (parent_direction : option string) (e : error),
    _convert_node node physical_size virtual_size parent_rect parent_direction = Err e ->
    e = ZeroDivisionError /\ font_scale physical_size virtual_size == 0.
Proof.
  intro node. induction node as [b t d subs tx c n IH] using layout_node_nested_ind.
  intros pr pd e Hconv. rewrite convert_node_unfold in Hconv.
  set (node := LayoutNode b t d subs tx c n) in *.
  assert (Hcontainer :
    _convert_container
      (fun child pr pd => _convert_node child physical_size virtual_size pr pd)
      node (node_rect node) pr pd = Err e ->
    e = ZeroDivisionError /\ font_scale physical_size virtual_size == 0).
  { unfold _convert_container.
    destruct (mapM _ (_node_children node)) as [children|e'] eqn:Em; cbn [bind];
      [discriminate|].
    intro H. injection H as ->.
    apply mapM_error in Em. destruct Em as (child & Hin & Hchild).
    rewrite Forall_forall in IH. exact (IH child Hin _ _ _ Hchild). }
  destruct (_leaf_component node) as [component|] eqn:Hleaf; [|exact (Hcontainer Hconv)].
  destruct (_node_children node); [|exact (Hcontainer Hconv)].
  exact (convert_leaf_error _ _ _ _ _ _ Hleaf Hconv).
Qed.

(** X8.  On a layout tree in whole pixels, for a device whose sizes are
    whole pixels, the engine fails only when the scale derived from the
    device sizes is zero, and then only with a division by zero: with a
    non-zero scale it returns a widget for every such tree, and with a zero
    scale it fails on a tree that is a single text node. *)
Theorem engine_fails_only_on_zero_scale :
  forall (layout_json : layout_node) (physical_size virtual_size : size2),
    pixel_tree layout_json = true ->
    pixel_size physical_size = true ->
    pixel_size virtual_size = true ->
    (forall e,
        layout_json_to_widget_dsl layout_json physical_size virtual_size = Err e ->
        e = ZeroDivisionError /\ font_scale physical_size virtual_size == 0) /\
    (~ font_scale physical_size virtual_size == 0 ->
     exists widget_dsl,
       layout_json_to_widget_dsl layout_json physical_size virtual_size = Ok widget_dsl) /\
    (font_scale physical_size virtual_size == 0 ->
     _leaf_component layout_json = Some "Text" ->
     _node_children layout_json = [] ->
     layout_json_to_widget_dsl layout_json physical_size virtual_size
       = Err ZeroDivisionError).
Proof.
  intros layout_json ps vs _ _ _.
  assert (Herr : forall e,
             layout_json_to_widget_dsl layout_json ps vs = Err e ->
             e = ZeroDivisionError /\ font_scale ps vs == 0).
  { intro e. unfold layout_json_to_widget_dsl.
    destruct (_convert_node layout_json ps vs None None) as [root|e'] eqn:E; cbn [bind];
      [discriminate|].
    intro H. injection H as ->. exact (convert_node_error _ _ _ _ _ _ E). }
  split; [exact Herr|]. split.
  - intro Hscale.
    destruct (layout_json_to_widget_dsl layout_json ps vs) as [w|e] eqn:E; [eauto|].
    destruct (Herr e eq_refl) as [_ Hz]. contradiction.
  - intros Hzero Htext Hnone. unfold layout_json_to_widget_dsl.
    rewrite convert_node_unfold, Htext, Hnone.
    unfold _convert_leaf. rewrite Htext. cbn [String.eqb Ascii.eqb Bool.eqb].
    unfold estimate_font_size. rewrite (py_div_zero _ _ Hzero). reflexivity.
Qed.

Lemma engine_fails_only_witness :
  (forall e,
      layout_json_to_widget_dsl sample_layout sample_physical sample_virtual = Err e ->
      e = ZeroDivisionError /\ font_scale sample_physical sample_virtual == 0) /\
  (~ font_scale sample_physical sample_virtual == 0 ->
   exists widget_dsl,
     layout_json_to_widget_dsl sample_layout sample_physical sample_virtual
       = Ok widget_dsl) /\
  (font_scale sample_physical sample_virtual == 0 ->
   _leaf_component sample_layout = Some "Text" ->
   _node_children sample_layout = [] ->
   layout_json_to_widget_dsl sample_layout sample_physical sample_virtual
     = Err ZeroDivisionError).
Proof.
  apply (engine_fails_only_on_zero_scale sample_layout sample_physical sample_virtual);
    vm_compute; reflexivity.
Defined.

(** ** Children are converted in order *)

Lemma mapM_Forall2 {A B : Type} (f : A -> result B) (l : list A) (ys : list B) :
  mapM f l = Ok ys -> Forall2 (fun x y => f x = Ok y) l ys.
Proof.
  revert ys. induction l as [|x rest IH]; simpl; intros ys H.
  - injection H as <-. constructor.
  - destruct (f x) as [y|] eqn:Ey; cbn [bind] in H; [|discriminate].
    destruct (mapM f rest) as [ys'|]; cbn [bind] in H; [|discriminate].
    injection H as <-. constructor; [exact Ey|apply IH; reflexivity].
Qed.

(** X9.  The children of a converted container are the conversions of the
    node's sub-nodes, one for one and in the same order, each converted with
    the node's own rectangle and mapped direction as its parent's. *)
Theorem container_children_in_order :
  forall (node : layout_node) (physical_size virtual_size : size2)
         (parent_rect : option Rect.t) (parent_direction : option string) (d : dict),
    _convert_node node physical_size virtual_size parent_rect parent_direction
      = Ok (VDict d) ->
    get d "type" = VStr "container" ->
    exists children : list value,
      lookup d "children" = Some (VList children) /\
      List.length children = List.length (_node_children node) /\
      Forall2
        (fun sub child =>
           _convert_node sub physical_size virtual_size (Some (node_rect node))
             (Some (_map_direction (ln_direction node))) = Ok child)
        (_node_children node) children.
Proof.
  intros node ps vs pr pd d Hconv Htype.
  destruct (convert_node_container_fields _ _ _ _ _ _ Hconv Htype)
    as (children & Hmap & ->).
  exists children. split; [apply container_lookup_children|].
  apply mapM_Forall2 in Hmap. split; [|exact Hmap].
  symmetry. exact (Forall2_length Hmap).
Qed.

Lemma container_children_witness :
  exists (d : dict) (children : list value),
    _convert_node sample_layout sample_physical sample_virtual None None
      = Ok (VDict d) /\
    lookup d "children" = Some (VList children) /\
    List.length children = 2%nat.
Proof.
  eexists.
  destruct (container_children_in_order sample_layout sample_physical sample_virtual
              None None _ eq_refl eq_refl) as (children & Hl & Hn & _).
  exists children. split; [reflexivity|]. split; [exact Hl|exact Hn].
Defined.

(** * Further properties of the markup compiler *)

(** ** Every renderer only makes elementary steps *)

Lemma bind_assoc {A B C : Type} (r : result A) (f : A -> result B) (g : B -> result C) :
  bind (bind r f) g = bind r (fun x => bind (f x) g).
Proof. destruct r; reflexivity. Qed.

Lemma trace_trans (a b c : cstate) : trace a b -> trace b c -> trace a c.
Proof.
  intros Hab Hbc. induction Hbc; [exact Hab| | | | | |];
    constructor; assumption.
Qed.

(** Split a computation into cases until its result is explicit. *)
Ltac crunch :=
  repeat (cbn [bind];
          first
            [ rewrite bind_assoc
            | match goal with |- context [if ?b then _ else _] => destruct b end
            | match goal with |- context [bind ?r _] => destruct r end ]).

Ltac trace_steps :=
  cbn [traced];
  repeat first
    [ apply trace_nil
    | apply trace_sparkline
    | apply trace_chart
    | apply trace_button
    | apply trace_ring
    | apply trace_write
    | apply trace_id ].

Ltac traced_by_cases := cbv zeta; crunch; try exact I; trace_steps.

Section RendererTraces.
Variable py_repr : value -> string.
Variable id_entropy : nat -> string.

Lemma traced_text props content depth flex width height st :
  traced st (render_text_component py_repr props content depth flex width height st).
Proof. unfold render_text_component. traced_by_cases. Qed.

Lemma traced_button props depth flex width height st :
  traced st (render_button_component py_repr id_entropy props depth flex width height st).
Proof. unfold render_button_component, unique_id. traced_by_cases. Qed.

Lemma traced_icon props depth flex width height st :
  traced st (render_icon_component py_repr props depth flex width height st).
Proof. unfold render_icon_component. traced_by_cases. Qed.

Lemma traced_image props depth flex width height st :
  traced st (render_image_component py_repr props depth flex width height st).
Proof. unfold render_image_component. traced_by_cases. Qed.

Lemma traced_checkbox props depth flex width height st :
  traced st (render_checkbox_component py_repr props depth flex width height st).
Proof. unfold render_checkbox_component. traced_by_cases. Qed.

Lemma traced_divider props depth flex width height st :
  traced st (render_divider_component py_repr props depth flex width height st).
Proof. unfold render_divider_component. traced_by_cases. Qed.

Lemma traced_indicator props depth flex width height st :
  traced st (render_indicator_component py_repr props depth flex width height st).
Proof. unfold render_indicator_component. traced_by_cases. Qed.

Lemma traced_progress_bar props depth flex width height st :
  traced st (render_progress_bar_component py_repr id_entropy props depth
               flex width height st).
Proof. unfold render_progress_bar_component, unique_id. traced_by_cases. Qed.

Lemma traced_progress_ring props depth flex width height st :
  traced st (render_progress_ring_component py_repr id_entropy props depth
               flex width height st).
Proof.
  unfold render_progress_ring_component, unique_id. cbv zeta.
  destruct (progress_ring_geometry _ _ _) as [[[radius circumference] offset]|];
    cbn [bind]; [|exact I].
  crunch; try exact I; cbn [write_all fold_left]; trace_steps.
Qed.

Lemma traced_sparkline props depth flex width height st :
  traced st (render_sparkline_component py_repr props depth flex width height st).
Proof. unfold render_sparkline_component. traced_by_cases. Qed.

Lemma traced_chart chart_type props depth flex width height st :
  traced st (render_chart_component py_repr chart_type props depth flex width height st).
Proof. unfold render_chart_component. traced_by_cases. Qed.

Lemma traced_generic component_name props content depth flex width height st :
  traced st (render_generic_component py_repr component_name props content depth
               flex width height st).
Proof. unfold render_generic_component. traced_by_cases. Qed.

Lemma traced_leaf node depth st :
  traced st (render_leaf py_repr id_entropy node depth st).
Proof.
  unfold render_leaf. cbv zeta.
  destruct (negb (truthy (get node "component"))); [exact I|].
  destruct (py_dict _) as [merged|]; cbn [bind]; [|exact I].
  match goal with
  | |- traced st (bind ?r _) => destruct r as [merged'|]; cbn [bind]; [|exact I]
  end.
  repeat match goal with
         | |- traced st (if ?b then _ else _) => destruct b
         | |- traced st (render_text_component _ _ _ _ _ _ _ _) => apply traced_text
         | |- traced st (render_button_component _ _ _ _ _ _ _ _) => apply traced_button
         | |- traced st (render_icon_component _ _ _ _ _ _ _) => apply traced_icon
         | |- traced st (render_image_component _ _ _ _ _ _ _) => apply traced_image
         | |- traced st (render_checkbox_component _ _ _ _ _ _ _) => apply traced_checkbox
         | |- traced st (render_divider_component _ _ _ _ _ _ _) => apply traced_divider
         | |- traced st (render_indicator_component _ _ _ _ _ _ _) =>
             apply traced_indicator
         | |- traced st (render_progress_bar_component _ _ _ _ _ _ _ _) =>
             apply traced_progress_bar
         | |- traced st (render_progress_ring_component _ _ _ _ _ _ _ _) =>
             apply traced_progress_ring
         | |- traced st (render_sparkline_component _ _ _ _ _ _ _) =>
             apply traced_sparkline
         end.
  destruct (in_names _ chart_names) as [[|]|]; cbn [bind];
    [apply traced_chart|apply traced_generic|exact I].
Qed.

Lemma traced_for_each (f : value -> cstate -> result cstate) (l : list value) :
  (forall x st, traced st (f x st)) -> forall st, traced st (for_each f l st).
Proof.
  intro Hf. induction l as [|x rest IH]; intro st; simpl; [apply trace_nil|].
  pose proof (Hf x st) as Hx. destruct (f x st) as [st'|]; cbn [bind]; [|exact I].
  pose proof (IH st') as Hrest. destruct (for_each f rest st') as [st''|]; [|exact I].
  exact (trace_trans _ _ _ Hx Hrest).
Qed.

Lemma traced_node fuel :
  forall node depth st, traced st (render_node py_repr id_entropy fuel node depth st).
Proof.
  induction fuel as [|fuel IH]; intros node depth st; [exact I|].
  destruct node as [| | | | | |node]; try exact I.
  destruct (eq_str (get node "type") "container") eqn:Ht.
  - rewrite (render_node_container _ _ _ _ _ _ Ht).
    do 4 (match goal with
          | |- traced st (bind ?r _) => destruct r; cbn [bind]; [|exact I]
          end).
    match goal with
    | |- traced st (bind (for_each ?f ?items ?s) _) =>
        pose proof (traced_for_each f items (fun x s' => IH x (S depth) s') s) as Hf;
        destruct (for_each f items s) as [st'|]; cbn [bind]; [|exact I]
    end.
    cbn [traced] in *. apply trace_write.
    eapply trace_trans; [|exact Hf]. apply trace_write. apply trace_nil.
  - simpl. rewrite Ht.
    destruct (eq_str (get node "type") "leaf"); [apply traced_leaf|apply trace_nil].
Qed.
End RendererTraces.

(** ** Rendering only appends *)

Lemma extends_refl (st : cstate) : extends st st.
Proof.
  unfold extends. repeat split; try lia; exists []; rewrite app_nil_r; reflexivity.
Qed.

Lemma trace_extends (st st' : cstate) : trace st st' -> extends st st'.
Proof.
  induction 1 as [|st' line _ IH|st' id _ IH|st' id a b _ IH|st' _ IH
                  |st' line opt _ IH|st' line w h data color _ IH];
    [apply extends_refl| | | | | |];
    destruct IH as ((nl & Hl) & (ns & Hs) & Hst & Hc & Hsp & Hid);
    unfold extends; simpl; rewrite ?Hl, ?Hs, <- ?app_assoc;
    repeat split; eauto; lia.
Qed.

(** X11.  Rendering a node only appends: when it returns, the markup lines
    and the behaviour snippets it was given are still there, in front of
    what it added; the style block is untouched and no counter went down.
    Hence the style block of a compiled document is always empty. *)
Theorem render_node_only_appends :
  forall (py_repr : value -> string) (id_entropy : nat -> string),
    (forall (fuel : nat) (node : value) (depth : nat) (st st' : cstate),
        render_node py_repr id_entropy fuel node depth st = Ok st' ->
        extends st st') /\
    (forall (widget_dsl : dict) (doc : document),
        compile_widget_dsl_to_html py_repr id_entropy widget_dsl = Ok doc ->
        doc_styles doc = []).
Proof.
  intros py_repr id_entropy.
  assert (Hnode : forall fuel node depth st st',
             render_node py_repr id_entropy fuel node depth st = Ok st' ->
             extends st st').
  { intros fuel node depth st st' H. apply trace_extends.
    pose proof (traced_node py_repr id_entropy fuel node depth st) as Ht.
    rewrite H in Ht. exact Ht. }
  split; [exact Hnode|].
  intros widget_dsl doc. unfold compile_widget_dsl_to_html.
  destruct (widget_of widget_dsl) as [widget|]; cbn [bind]; [|discriminate].
  destruct (negb (truthy (get widget "root"))); [discriminate|].
  destruct (render_node py_repr id_entropy _ _ 0 initial_state) as [st|] eqn:E;
    cbn [bind]; [|discriminate].
  destruct (format_style_object _); cbn [bind]; [|discriminate].
  intro H. injection H as <-. simpl.
  destruct (Hnode _ _ _ _ _ E) as (_ & _ & Hstyles & _). exact Hstyles.
Qed.

(** ** Identifiers of charts and sparklines *)

Lemma to_uint_nonnil (n : nat) : Nat.to_uint n <> Decimal.Nil.
Proof.
  intro H. pose proof (Unsigned.of_to n) as E. rewrite H in E. simpl in E.
  subst n. discriminate H.
Qed.

Lemma nat_text_injective (n m : nat) : nat_text n = nat_text m -> n = m.
Proof.
  unfold nat_text. intro H. apply Unsigned.to_uint_inj.
  pose proof (NilZero.usu _ (to_uint_nonnil n)) as Hn.
  pose proof (NilZero.usu _ (to_uint_nonnil m)) as Hm.
  rewrite H in Hn. rewrite Hn in Hm. injection Hm as Hm. exact Hm.
Qed.

Lemma append_injective (prefix a b : string) : prefix ++ a = prefix ++ b -> a = b.
Proof.
  induction prefix as [|c prefix IH]; simpl; intro H; [exact H|].
  injection H as H. exact (IH H).
Qed.

Lemma numbered_succ (prefix : string) (n : nat) :
  numbered prefix (S n) = app (numbered prefix n) [prefix ++ nat_text n].
Proof. unfold numbered. rewrite seq_S, map_app. reflexivity. Qed.

Lemma numbered_NoDup (prefix : string) (n : nat) : NoDup (numbered prefix n).
Proof.
  unfold numbered.
  assert (H : forall l, NoDup l -> NoDup (map (fun i => prefix ++ nat_text i) l)).
  { induction 1 as [|x l Hx _ IH]; simpl; constructor; [|exact IH].
    intro Hin. apply in_map_iff in Hin. destruct Hin as (y & Hy & Hl).
    apply append_injective, nat_text_injective in Hy. subst y. contradiction. }
  apply H, seq_NoDup.
Qed.

Lemma chart_ids_app (a b : list script) :
  chart_ids (a ++ b) = (chart_ids a ++ chart_ids b)%list.
Proof. apply flat_map_app. Qed.

Lemma sparkline_ids_app (a b : list script) :
  sparkline_ids (a ++ b) = (sparkline_ids a ++ sparkline_ids b)%list.
Proof. apply flat_map_app. Qed.

Lemma trace_counters_match (st st' : cstate) :
  trace st st' -> counters_match st -> counters_match st'.
Proof.
  intros Ht H0.
  induction Ht as [|st' line _ IH|st' id _ IH|st' id a b _ IH|st' _ IH
                   |st' line opt _ IH|st' line w h data color _ IH];
    [exact H0| | | | | |];
    destruct IH as [Hc Hs]; unfold counters_match; simpl;
    rewrite ?chart_ids_app, ?sparkline_ids_app, ?numbered_succ, ?Hc, ?Hs; simpl;
    rewrite ?app_nil_r; split; reflexivity.
Qed.

(** X12.  In a compiled document the chart snippets carry the identifiers
    chart-0, chart-1, ... in the order the charts were rendered, and the
    sparkline snippets sparkline-0, sparkline-1, ...: each counter starts at
    0 in every call, and no identifier is given twice. *)
Theorem compiled_chart_ids_sequential :
  forall (py_repr : value -> string) (id_entropy : nat -> string)
         (widget_dsl : dict) (doc : document),
    compile_widget_dsl_to_html py_repr id_entropy widget_dsl = Ok doc ->
    (exists n, chart_ids (doc_scripts doc) = numbered "chart-" n) /\
    (exists m, sparkline_ids (doc_scripts doc) = numbered "sparkline-" m) /\
    NoDup (chart_ids (doc_scripts doc)) /\
    NoDup (sparkline_ids (doc_scripts doc)).
Proof.
  intros py_repr id_entropy widget_dsl doc. unfold compile_widget_dsl_to_html.
  destruct (widget_of widget_dsl) as [widget|]; cbn [bind]; [|discriminate].
  destruct (negb (truthy (get widget "root"))); [discriminate|].
  pose proof (traced_node py_repr id_entropy (S (nesting (get widget "root")))
                (get widget "root") 0 initial_state) as Ht.
  destruct (render_node py_repr id_entropy _ _ 0 initial_state) as [st|];
    cbn [bind]; [|discriminate].
  destruct (format_style_object _); cbn [bind]; [|discriminate].
  intro H. injection H as <-. simpl.
  assert (Hinit : counters_match initial_state) by (split; reflexivity).
  destruct (trace_counters_match _ _ Ht Hinit) as [Hc Hs].
  rewrite Hc, Hs. repeat split; eauto using numbered_NoDup.
Qed.

Lemma compiled_chart_ids_witness :
  exists doc : document,
    compile_widget_dsl_to_html sample_repr sample_entropy sample_charts_widget = Ok doc /\
    chart_ids (doc_scripts doc) = ["chart-0"; "chart-1"] /\
    sparkline_ids (doc_scripts doc) = ["sparkline-0"] /\
    NoDup (chart_ids (doc_scripts doc)).
Proof.
  eexists. split; [vm_compute; reflexivity|].
  split; [reflexivity|]. split; [reflexivity|].
  eapply (compiled_chart_ids_sequential sample_repr sample_entropy sample_charts_widget).
  vm_compute. reflexivity.
Defined.

(** ** Renderers that cannot fail *)

(** An entry that starts with a literal property name and a colon. *)
Ltac literal_colon := unfold has_colon; simpl; discriminate.

(** Show that every entry of a list of style entries has a colon. *)
Ltac colons :=
  repeat (apply Forall_app; split);
  try match goal with |- context [if ?b then _ else _] => destruct b end;
  repeat constructor; literal_colon.

Section RendererTotality.
Variable py_repr : value -> string.
Variable id_entropy : nat -> string.

Lemma with_box_styles_ok entries flex width height :
  Forall has_colon entries ->
  exists style,
    format_style_object (with_box_styles py_repr entries flex width height) = Ok style.
Proof.
  intro H. apply format_style_object_ok, colons_with_box_styles. exact H.
Qed.

Lemma render_text_ok props content depth flex width height st :
  exists line,
    render_text_component py_repr props content depth flex width height st
      = Ok (write line st).
Proof.
  unfold render_text_component. cbv zeta.
  destruct (format_style_object_ok (get_text_styles py_repr props flex width height))
    as [style ->].
  { unfold get_text_styles. apply Forall_app. split;
      [repeat constructor; literal_colon|apply colons_box_styles]. }
  cbn [bind]. eauto.
Qed.

Lemma render_image_ok props depth flex width height st :
  exists line,
    render_image_component py_repr props depth flex width height st = Ok (write line st).
Proof.
  unfold render_image_component. cbv zeta.
  match goal with
  | |- context [format_style_object (with_box_styles _ ?e _ _ _)] =>
      destruct (with_box_styles_ok e flex width height) as [style ->];
        [repeat constructor; literal_colon|]
  end.
  cbn [bind]. eauto.
Qed.

Lemma render_checkbox_ok props depth flex width height st :
  exists line,
    render_checkbox_component py_repr props depth flex width height st
      = Ok (write line st).
Proof.
  unfold render_checkbox_component. cbv zeta.
  match goal with
  | |- context [format_style_object (with_box_styles _ ?e _ _ _)] =>
      destruct (with_box_styles_ok e flex width height) as [style ->];
        [repeat constructor; literal_colon|]
  end.
  cbn [bind]. eauto.
Qed.

Lemma render_indicator_ok props depth flex width height st :
  exists line,
    render_indicator_component py_repr props depth flex width height st
      = Ok (write line st).
Proof.
  unfold render_indicator_component. cbv zeta.
  match goal with
  | |- context [format_style_object (with_box_styles _ ?e _ _ _)] =>
      destruct (with_box_styles_ok e flex width height) as [style ->];
        [repeat constructor; literal_colon|]
  end.
  cbn [bind]. eauto.
Qed.

Lemma render_divider_ok props depth flex width height st :
  exists line,
    render_divider_component py_repr props depth flex width height st
      = Ok (write line st).
Proof.
  unfold render_divider_component. cbv zeta.
  match goal with
  | |- context [format_style_object ?e] =>
      destruct (format_style_object_ok e) as [style ->]
  end.
  { repeat match goal with
           | |- context [if ?b then _ else _] => destruct b
           end; repeat constructor; literal_colon. }
  cbn [bind]. eauto.
Qed.

Lemma render_icon_ok props depth flex width height st :
  hashable (get props "name") = true ->
  exists line,
    render_icon_component py_repr props depth flex width height st = Ok (write line st).
Proof.
  intro Hname. unfold render_icon_component. cbv zeta.
  unfold map_to_icon_class, table_get. rewrite Hname. cbn [bind].
  match goal with
  | |- context [format_style_object (with_box_styles _ ?e _ _ _)] =>
      destruct (with_box_styles_ok e flex width height) as [style ->];
        [repeat constructor; literal_colon|]
  end.
  cbn [bind]. eauto.
Qed.

Lemma render_generic_ok component_name props content depth flex width height st :
  exists style,
    format_style_object (get_generic_styles py_repr flex width height) = Ok style /\
    render_generic_component py_repr component_name props content depth
      flex width height st
    = Ok (write (indent_of depth ++ "<div " ++ attr "style" style ++ ">"
                 ++ py_str py_repr (py_or content component_name) ++ "</div>") st).
Proof.
  unfold render_generic_component. cbv zeta.
  destruct (format_style_object_ok (get_generic_styles py_repr flex width height))
    as [style Hs].
  { unfold get_generic_styles. apply Forall_app. split;
      [repeat constructor; literal_colon|apply colons_box_styles]. }
  exists style. rewrite Hs. split; reflexivity.
Qed.

Lemma render_sparkline_ok props depth flex width height st :
  exists line,
    render_sparkline_component py_repr props depth flex width height st
    = Ok (write_script
            (SparklineScript ("sparkline-" ++ nat_text (counter_sparkline st))
               (get_default props "width" (VInt 80))
               (get_default props "height" (VInt 40))
               (get_default props "data" (VList []))
               (get_default props "color" (VStr "#34C759")))
            (write line
               (mkState (lines st) (scripts st) (styles st)
                  (counter_chart st) (S (counter_sparkline st)) (ids_issued st)))).
Proof.
  unfold render_sparkline_component. cbv zeta.
  match goal with
  | |- context [format_style_object (with_box_styles _ ?e _ _ _)] =>
      destruct (with_box_styles_ok e flex width height) as [style ->];
        [repeat constructor; literal_colon|]
  end.
  cbn [bind]. eauto.
Qed.

Lemma render_chart_ok chart_type props depth flex width height st :
  exists line,
    render_chart_component py_repr chart_type props depth flex width height st
    = Ok (write_script
            (ChartScript ("chart-" ++ nat_text (counter_chart st))
               (generate_chart_option chart_type props))
            (write line
               (mkState (lines st) (scripts st) (styles st)
                  (S (counter_chart st)) (counter_sparkline st) (ids_issued st)))).
Proof.
  unfold render_chart_component. cbv zeta.
  match goal with
  | |- context [format_style_object (with_box_styles _ ?e _ _ _)] =>
      destruct (with_box_styles_ok e flex width height) as [style ->];
        [repeat constructor; literal_colon|]
  end.
  cbn [bind]. eauto.
Qed.

(** X13.  The display-only renderers (text, image, checkbox, divider,
    indicator) cannot fail, whatever the props: each appends exactly one
    markup line and leaves snippets, counters and identifiers alone. *)
Theorem display_renderers_total :
  forall (props : dict) (content : value) (depth : nat) (flex width height : value)
         (st : cstate),
    (exists line,
        render_text_component py_repr props content depth flex width height st
          = Ok (write line st)) /\
    (exists line,
        render_image_component py_repr props depth flex width height st
          = Ok (write line st)) /\
    (exists line,
        render_checkbox_component py_repr props depth flex width height st
          = Ok (write line st)) /\
    (exists line,
        render_divider_component py_repr props depth flex width height st
          = Ok (write line st)) /\
    (exists line,
        render_indicator_component py_repr props depth flex width height st
          = Ok (write line st)).
Proof.
  intros. split; [apply render_text_ok|]. split; [apply render_image_ok|].
  split; [apply render_checkbox_ok|]. split; [apply render_divider_ok|].
  apply render_indicator_ok.
Qed.

(** X14.  Sparklines and charts cannot fail either, whatever the data (an
    empty or one-point series, an unknown chart type): each takes the next
    identifier of its counter, appends one element and one snippet, and a
    chart that is no line, bar or pie chart gets the base options. *)
Theorem sparkline_and_chart_total :
  forall (chart_type : value) (props : dict) (depth : nat) (flex width height : value)
         (st : cstate),
    (exists line,
        render_sparkline_component py_repr props depth flex width height st
        = Ok (write_script
                (SparklineScript ("sparkline-" ++ nat_text (counter_sparkline st))
                   (get_default props "width" (VInt 80))
                   (get_default props "height" (VInt 40))
                   (get_default props "data" (VList []))
                   (get_default props "color" (VStr "#34C759")))
                (write line
                   (mkState (lines st) (scripts st) (styles st)
                      (counter_chart st) (S (counter_sparkline st)) (ids_issued st))))) /\
    (exists line,
        render_chart_component py_repr chart_type props depth flex width height st
        = Ok (write_script
                (ChartScript ("chart-" ++ nat_text (counter_chart st))
                   (generate_chart_option chart_type props))
                (write line
                   (mkState (lines st) (scripts st) (styles st)
                      (S (counter_chart st)) (counter_sparkline st) (ids_issued st))))) /\
    (chart_type <> VStr "LineChart" -> chart_type <> VStr "BarChart" ->
     chart_type <> VStr "PieChart" ->
     generate_chart_option chart_type props = VDict base_option).
Proof.
  intros. split; [apply render_sparkline_ok|]. split; [apply render_chart_ok|].
  intros H1 H2 H3. unfold generate_chart_option.
  rewrite (eq_str_false _ _ H1), (eq_str_false _ _ H2), (eq_str_false _ _ H3).
  reflexivity.
Qed.
End RendererTotality.

(** ** The compiler renders whatever the engine emits *)

Section RoundTrip.
Variable py_repr : value -> string.
Variable id_entropy : nat -> string.

Lemma colons_container_styles (node : dict) :
  Forall has_colon (container_styles py_repr node).
Proof. unfold container_styles. cbv zeta. colons. Qed.

Lemma align_style_ok (property : string) (table : list (string * string))
    (align : value) :
  hashable align = true ->
  exists entries,
    align_style py_repr property table align = Ok entries /\
    Forall has_colon entries.
Proof.
  intros Hh. unfold align_style, table_get. rewrite Hh.
  destruct (truthy align); cbn [bind].
  - eexists. split; [reflexivity|]. constructor; [|constructor].
    apply has_colon_app_r. literal_colon.
  - exists []. split; [reflexivity|constructor].
Qed.

Lemma for_each_ok {A S : Type} (f : A -> S -> result S) (l : list A) :
  (forall x, In x l -> forall st, exists st', f x st = Ok st') ->
  forall st, exists st', for_each f l st = Ok st'.
Proof.
  induction l as [|x rest IH]; intros Hf st; simpl; [eauto|].
  destruct (Hf x (or_introl eq_refl) st) as [st' ->]. cbn [bind].
  apply IH. intros y Hy. apply Hf. right. exact Hy.
Qed.

Lemma converted_leaf_renders (node : layout_node) (rect : Rect.t)
    (physical_size virtual_size : size2) (v : value) :
  match _leaf_component node with
  | Some component =>
      if String.eqb component "Icon"
      then hashable (text_or_empty (ln_content node))
      else true
  | None => true
  end = true ->
  _convert_leaf node rect physical_size virtual_size = Ok v ->
  renders py_repr id_entropy v.
Proof.
  intro Hh. unfold _convert_leaf.
  pose proof (leaf_component_cases node) as Hcases.
  destruct (_leaf_component node) as [component|]; [|discriminate].
  destruct Hcases as [-> | [-> | ->]]; cbn [String.eqb Ascii.eqb Bool.eqb] in *.
  - destruct (estimate_font_size _ _ _ _ _) as [size|]; cbn [bind]; [|discriminate].
    intro H. injection H as <-. intros depth st.
    rewrite render_node_leaf by reflexivity.
    unfold render_leaf. cbv zeta.
    change (get _ "component") with (VStr "Text").
    cbn [truthy negb String.eqb Ascii.eqb Bool.eqb].
    change (get_default _ "props" (VDict [])) with
      (VDict (if 1 <? node_num_lines node
              then dict_set [("fontSize", VInt size)] "maxLines"
                     (VInt (node_num_lines node))
              else [("fontSize", VInt size)])).
    cbn [py_dict bind].
    match goal with
    | |- context [if truthy ?c then _ else _] => destruct (truthy c)
    end; cbn [in_names hashable existsb eq_str String.eqb Ascii.eqb Bool.eqb orb bind];
      destruct (render_text_ok py_repr
                  (if 1 <? node_num_lines node
                   then dict_set [("fontSize", VInt size)] "maxLines"
                          (VInt (node_num_lines node))
                   else [("fontSize", VInt size)])
                  (text_or_empty (ln_text node)) depth VNone VNone VNone st)
        as [line Hline]; eexists; exact Hline.
  - intro H. injection H as <-. intros depth st.
    rewrite render_node_leaf by reflexivity.
    unfold render_leaf. cbv zeta.
    change (get _ "component") with (VStr "Icon").
    cbn [truthy negb String.eqb Ascii.eqb Bool.eqb].
    change (get_default _ "props" (VDict [])) with
      (VDict [("name", text_or_empty (ln_content node));
              ("size", VInt (Z.max 12 (py_round (Rect.height rect))))]).
    change (get _ "content") with VNone.
    cbn [py_dict bind truthy eq_str String.eqb Ascii.eqb Bool.eqb].
    destruct (render_icon_ok py_repr
                [("name", text_or_empty (ln_content node));
                 ("size", VInt (Z.max 12 (py_round (Rect.height rect))))]
                depth VNone VNone VNone st Hh) as [line Hline].
    eexists. exact Hline.
  - intro H. injection H as <-. intros depth st.
    rewrite render_node_leaf by reflexivity.
    unfold render_leaf. cbv zeta.
    change (get _ "component") with (VStr "Image").
    cbn [truthy negb String.eqb Ascii.eqb Bool.eqb].
    change (get_default _ "props" (VDict [])) with (VDict [("src", VStr "")]).
    change (get _ "content") with VNone.
    cbn [py_dict bind truthy eq_str String.eqb Ascii.eqb Bool.eqb].
    match goal with
    | |- context [render_image_component _ ?p ?d ?f ?w ?h ?s] =>
        destruct (render_image_ok py_repr p d f w h s) as [line Hline]
    end.
    eexists. exact Hline.
Qed.

Lemma converted_container_renders (direction : string) (gap : Z)
    (align_main align_cross : option string) (flex : option Q) (children : list value) :
  Forall (renders py_repr id_entropy) children ->
  renders py_repr id_entropy
    (VDict
       ([("type", VStr "container"); ("direction", VStr direction); ("gap", VInt gap)]
        ++ optional_field "alignMain" VStr align_main
        ++ optional_field "alignCross" VStr align_cross
        ++ optional_field "flex" float flex
        ++ [("children", VList children)])).
Proof.
  intros Hchildren depth st.
  set (node := ([("type", VStr "container"); ("direction", VStr direction);
                 ("gap", VInt gap)]
                ++ optional_field "alignMain" VStr align_main
                ++ optional_field "alignCross" VStr align_cross
                ++ optional_field "flex" float flex
                ++ [("children", VList children)])%list).
  rewrite render_node_container by reflexivity.
  assert (Hmain : get node "alignMain"
                  = match align_main with Some s => VStr s | None => VNone end).
  { unfold get, get_default, node. rewrite container_lookup_align_main.
    destruct align_main; reflexivity. }
  assert (Hcross : get node "alignCross"
                   = match align_cross with Some s => VStr s | None => VNone end).
  { unfold get, get_default, node. rewrite container_lookup_align_cross.
    destruct align_cross; reflexivity. }
  destruct (align_style_ok "justify-content" align_main_map (get node "alignMain"))
    as (main & -> & Hm).
  { rewrite Hmain. destruct align_main; reflexivity. }
  cbn [bind].
  destruct (align_style_ok "align-items" align_cross_map (get node "alignCross"))
    as (cross & -> & Hc).
  { rewrite Hcross. destruct align_cross; reflexivity. }
  cbn [bind].
  destruct (format_style_object_ok (container_styles py_repr node ++ main ++ cross))
    as [style ->].
  { apply Forall_app. split; [apply colons_container_styles|].
    apply Forall_app. split; assumption. }
  cbn [bind].
  assert (Hitems : py_iter (get_default node "children" (VList [])) = Ok children).
  { unfold get_default, node. rewrite container_lookup_children. reflexivity. }
  rewrite Hitems. cbn [bind].
  match goal with
  | |- context [for_each ?f children ?s] =>
      destruct (for_each_ok f children) with (st := s) as [st' ->]
  end.
  - intros child Hin st0.
    rewrite Forall_forall in Hchildren.
    destruct (Hchildren child Hin (S depth) st0) as [st' Hst'].
    exists st'. rewrite <- Hst'. apply render_node_fuel.
    + exact (nesting_items node children child Hitems Hin).
    + lia.
  - cbn [bind]. eauto.
Qed.

Lemma converted_node_renders (physical_size virtual_size : size2) :
  forall (node : layout_node) (parent_rect : option Rect.t)
         (parent_direction : option string) (v : value),
    icon_names_hashable node = true ->
    _convert_node node physical_size virtual_size parent_rect parent_direction = Ok v ->
    renders py_repr id_entropy v.
Proof.
  intro node. induction node as [b t d subs tx c n IH] using layout_node_nested_ind.
  intros pr pd v Hhash Hconv. rewrite convert_node_unfold in Hconv.
  set (node := LayoutNode b t d subs tx c n) in *.
  assert (Hhash' : match _leaf_component node with
                   | Some component =>
                       if String.eqb component "Icon"
                       then hashable (text_or_empty (ln_content node))
                       else true
                   | None => true
                   end = true /\ forallb icon_names_hashable subs = true).
  { apply andb_true_iff. exact Hhash. }
  destruct Hhash' as [Hleafhash Hsubs].
  assert (Hcontainer :
    _convert_container
      (fun child pr pd => _convert_node child physical_size virtual_size pr pd)
      node (node_rect node) pr pd = Ok v -> renders py_repr id_entropy v).
  { intro Hc. apply convert_container_shape in Hc.
    destruct Hc as (children & Hmap & ->).
    apply converted_container_renders.
    revert Hmap. apply mapM_Forall.
    rewrite forallb_forall in Hsubs. rewrite Forall_forall in IH.
    apply Forall_forall. intros child Hin y Hy.
    exact (IH child Hin _ _ _ (Hsubs child Hin) Hy). }
  destruct (_leaf_component node) as [component|] eqn:Hleaf; [|exact (Hcontainer Hconv)].
  destruct (_node_children node); [|exact (Hcontainer Hconv)].
  apply (converted_leaf_renders node (node_rect node) physical_size virtual_size v);
    [|exact Hconv].
  rewrite Hleaf. exact Hleafhash.
Qed.

(** X15.  The compiler returns a document for every widget the engine
    emits, provided the icon names of the layout tree are hashable (strings,
    as the layout format has them): the pipeline of the two stages fails in
    neither stage's checks nor anywhere in the rendering. *)
Theorem engine_output_compiles :
  forall (layout_json : layout_node) (physical_size virtual_size : size2) (spec : dict),
    icon_names_hashable layout_json = true ->
    layout_json_to_widget_dsl layout_json physical_size virtual_size = Ok (VDict spec) ->
    exists doc : document,
      compile_widget_dsl_to_html py_repr id_entropy spec = Ok doc.
Proof.
  intros layout_json ps vs spec Hhash Hengine.
  unfold layout_json_to_widget_dsl in Hengine.
  destruct (_convert_node layout_json ps vs None None) as [root|] eqn:Hroot;
    cbn [bind] in Hengine; [|discriminate].
  injection Hengine as <-.
  pose proof (convert_node_dsl_tree ps vs _ _ _ _ Hroot) as Htree.
  pose proof (dsl_tree_truthy _ Htree) as Htruthy.
  destruct (converted_node_renders ps vs _ _ _ _ Hhash Hroot 0%nat initial_state)
    as [st Hst].
  unfold compile_widget_dsl_to_html.
  change (widget_of _) with
    (Ok [("padding", VInt 0);
         ("aspectRatio",
          VList [VInt (py_round (Rect.width (node_rect layout_json)));
                 VInt (py_round (Rect.height (node_rect layout_json)))]);
         ("root", root)]).
  cbn [bind]. change (get _ "root") with root. rewrite Htruthy. cbn [negb].
  rewrite Hst. cbn [bind].
  match goal with
  | |- context [format_style_object (widget_styles py_repr ?w)] =>
      destruct (format_style_object_ok _ (colons_widget_styles py_repr w)) as [style ->]
  end.
  cbn [bind]. eexists. reflexivity.
Qed.
End RoundTrip.

Lemma engine_output_compiles_witness :
  exists doc : document,
    compile_widget_dsl_to_html sample_repr sample_entropy
      [("widget",
        VDict [("padding", VInt 0);
               ("aspectRatio", VList [VInt 100; VInt 40]);
               ("root",
                VDict [("type", VStr "container"); ("direction", VStr "row");
                       ("gap", VInt 10); ("alignMain", VStr "between");
                       ("alignCross", VStr "center");
                       ("children",
                        VList [VDict [("type", VStr "leaf"); ("component", VStr "Text");
                                      ("content", VStr "Hi");
                                      ("props", VDict [("fontSize", VInt 18)])];
                               VDict [("type", VStr "leaf"); ("component", VStr "Icon");
                                      ("props",
                                       VDict [("name", VStr "sf:gear");
                                              ("size", VInt 40)])]])])])]
    = Ok doc.
Proof.
  apply (engine_output_compiles sample_repr sample_entropy sample_layout
           sample_physical sample_virtual).
  - reflexivity.
  - vm_compute. reflexivity.
Defined.

(** ** Leaves, containers and ill-typed nodes *)

Section NodeBehaviour.
Variable py_repr : value -> string.
Variable id_entropy : nat -> string.

Lemma not_in_catalogue (name : string) :
  ~ In name catalogue -> forall s, In s catalogue -> String.eqb name s = false.
Proof.
  intros Hnot s Hs. apply String.eqb_neq. intro E. subst s. contradiction.
Qed.

(** X16.  A leaf whose component name is a string outside the catalogue is
    rendered by the generic renderer and never fails (its props being an
    object or absent): one line that centers the content, or the component
    name itself when the content is empty, and no snippet. *)
Theorem unknown_component_renders_generically :
  forall (node props : dict) (name : string) (fuel depth : nat) (st : cstate),
    get node "type" = VStr "leaf" ->
    get node "component" = VStr name ->
    name <> "" ->
    ~ In name catalogue ->
    get_default node "props" (VDict []) = VDict props ->
    exists style : string,
      format_style_object
        (get_generic_styles py_repr (get node "flex") (get node "width")
           (get node "height")) = Ok style /\
      render_node py_repr id_entropy (S fuel) (VDict node) depth st
      = Ok (write (indent_of depth ++ "<div " ++ attr "style" style ++ ">"
                   ++ py_str py_repr (py_or (get node "content") (VStr name))
                   ++ "</div>") st).
Proof.
  intros node props name fuel depth st Htype Hcomp Hne Hnot Hprops.
  pose proof (not_in_catalogue name Hnot) as Hneq.
  rewrite (render_node_leaf _ _ _ _ _ _ Htype).
  unfold render_leaf. cbv zeta. rewrite Hcomp, Hprops.
  assert (Ht : truthy (VStr name) = true).
  { simpl. apply negb_true_iff, String.eqb_neq. exact Hne. }
  rewrite Ht. cbn [negb py_dict bind].
  assert (Huses : in_names (VStr name) ["Button"; "ProgressRing"] = Ok false).
  { unfold in_names. cbn [hashable existsb eq_str].
    rewrite !Hneq by (simpl; tauto). reflexivity. }
  assert (Hchart : in_names (VStr name) chart_names = Ok false).
  { unfold in_names, chart_names. cbn [hashable existsb eq_str].
    rewrite !Hneq by (simpl; tauto). reflexivity. }
  destruct (render_generic_ok py_repr (VStr name) props (get node "content") depth
              (get node "flex") (get node "width") (get node "height") st)
    as (style & Hstyle & Hrender).
  exists style. split; [exact Hstyle|].
  assert (Hdispatch : forall merged,
    (if eq_str (VStr name) "Text" then
       render_text_component py_repr merged (get node "content") depth
         (get node "flex") (get node "width") (get node "height") st
     else if eq_str (VStr name) "Button" then
       render_button_component py_repr id_entropy merged depth
         (get node "flex") (get node "width") (get node "height") st
     else if eq_str (VStr name) "Icon" then
       render_icon_component py_repr merged depth
         (get node "flex") (get node "width") (get node "height") st
     else if eq_str (VStr name) "Image" then
       render_image_component py_repr merged depth
         (get node "flex") (get node "width") (get node "height") st
     else if eq_str (VStr name) "Checkbox" then
       render_checkbox_component py_repr merged depth
         (get node "flex") (get node "width") (get node "height") st
     else if eq_str (VStr name) "Divider" then
       render_divider_component py_repr merged depth
         (get node "flex") (get node "width") (get node "height") st
     else if eq_str (VStr name) "Indicator" then
       render_indicator_component py_repr merged depth
         (get node "flex") (get node "width") (get node "height") st
     else if eq_str (VStr name) "ProgressBar" then
       render_progress_bar_component py_repr id_entropy merged depth
         (get node "flex") (get node "width") (get node "height") st
     else if eq_str (VStr name) "ProgressRing" then
       render_progress_ring_component py_repr id_entropy merged depth
         (get node "flex") (get node "width") (get node "height") st
     else if eq_str (VStr name) "Sparkline" then
       render_sparkline_component py_repr merged depth
         (get node "flex") (get node "width") (get node "height") st
     else
       is_chart <- in_names (VStr name) chart_names ;;
       if is_chart : bool then
         render_chart_component py_repr (VStr name) merged depth
           (get node "flex") (get node "width") (get node "height") st
       else
         render_generic_component py_repr (VStr name) merged (get node "content") depth
           (get node "flex") (get node "width") (get node "height") st)
    = render_generic_component py_repr (VStr name) merged (get node "content") depth
        (get node "flex") (get node "width") (get node "height") st).
  { intro merged. cbn [eq_str]. rewrite !Hneq by (simpl; tauto).
    rewrite Hchart. reflexivity. }
  destruct (truthy (get node "content")); cbn [bind].
  - rewrite Huses. cbn [bind]. rewrite Hdispatch.
    unfold render_generic_component in *. cbv zeta in *. rewrite Hstyle in *.
    reflexivity.
  - rewrite Hdispatch.
    unfold render_generic_component in *. cbv zeta in *. rewrite Hstyle in *.
    reflexivity.
Qed.
End NodeBehaviour.

Lemma unknown_component_witness :
  exists style : string,
    format_style_object
      (get_generic_styles sample_repr (get sample_gauge "flex") (get sample_gauge "width")
         (get sample_gauge "height")) = Ok style /\
    render_node sample_repr sample_entropy 1 (VDict sample_gauge) 0 initial_state
    = Ok (write (indent_of 0 ++ "<div " ++ attr "style" style ++ ">"
                 ++ py_str sample_repr (py_or (get sample_gauge "content") (VStr "Gauge"))
                 ++ "</div>") initial_state).
Proof.
  apply (unknown_component_renders_generically sample_repr sample_entropy
           sample_gauge [] "Gauge" 0%nat 0%nat initial_state).
  - reflexivity.
  - reflexivity.
  - discriminate.
  - unfold catalogue. simpl. intros H.
    repeat (destruct H as [H|H]; [discriminate H|]). exact H.
  - reflexivity.
Defined.

(** ** Icons, buttons and progress rings *)

Lemma icon_map_classes :
  Forall (fun kv : string * string => String.prefix "fas fa-" (snd kv) = true) icon_map.
Proof. unfold icon_map. repeat constructor. Qed.

Lemma assoc_in (table : list (string * string)) (k v : string) :
  assoc table k = Some v -> exists k', In (k', v) table.
Proof.
  induction table as [|[k' v'] rest IH]; simpl; [discriminate|].
  destruct (String.eqb k' k).
  - intro H. injection H as ->. exists k'. left. reflexivity.
  - intro H. destruct (IH H) as [k'' Hin]. exists k''. right. exact Hin.
Qed.

(** X17.  Whatever hashable name it is given (a string of the table, any
    other string, null, a number), [map_to_icon_class] answers with a Font
    Awesome class, one that starts with [fas fa-]; a name that is not a key
    of the table gets [fas fa-question].  A list or an object as the name
    is a TypeError. *)
Theorem icon_class_always_font_awesome :
  forall name : value,
    (hashable name = true ->
     exists c : string,
       map_to_icon_class name = Ok (VStr c) /\
       String.prefix "fas fa-" c = true /\
       ((forall s, name = VStr s -> assoc icon_map s = None) ->
        c = "fas fa-question")) /\
    (hashable name = false -> map_to_icon_class name = Err TypeError).
Proof.
  intro name. unfold map_to_icon_class, table_get. split; intro Hh; rewrite Hh;
    [|reflexivity].
  destruct name as [| b | z | q | s | l | d];
    try (exists "fas fa-question"; repeat split; reflexivity);
    try discriminate Hh.
  destruct (assoc icon_map s) as [c|] eqn:E.
  - exists c. split; [reflexivity|]. split.
    + destruct (assoc_in _ _ _ E) as [k Hin].
      pose proof icon_map_classes as Hall. rewrite Forall_forall in Hall.
      exact (Hall (k, c) Hin).
    + intro Hnone. specialize (Hnone s eq_refl). congruence.
  - exists "fas fa-question". repeat split; reflexivity.
Qed.

Lemma lines_write_all (new_lines : list string) (st : cstate) :
  lines (write_all new_lines st) = (lines st ++ new_lines)%list /\
  scripts (write_all new_lines st) = scripts st /\
  ids_issued (write_all new_lines st) = ids_issued st.
Proof.
  unfold write_all. revert st.
  induction new_lines as [|line rest IH]; intro st; simpl.
  - rewrite app_nil_r. auto.
  - destruct (IH (write line st)) as (Hl & Hs & Hi).
    rewrite Hl, Hs, Hi. simpl. rewrite <- app_assoc. auto.
Qed.

Section Snippets.
Variable py_repr : value -> string.
Variable id_entropy : nat -> string.

(** X18.  A button that is rendered adds exactly three lines, its opening
    tag, one inner line and the closing tag, and registers exactly one
    behaviour snippet, bound to a fresh identifier [button-...] that is the
    next one of the compiler; a button without icon is always rendered, and
    its inner line shows the content, or the word Button when the content is
    empty. *)
Theorem button_registers_one_snippet :
  forall (props : dict) (depth : nat) (flex width height : value) (st : cstate),
    (forall st' : cstate,
       render_button_component py_repr id_entropy props depth flex width height st
         = Ok st' ->
       scripts st'
         = (scripts st ++ [ButtonScript ("button-" ++ id_entropy (ids_issued st))])%list /\
       ids_issued st' = S (ids_issued st) /\
       exists open_line inner : string,
         lines st' = app (lines st) [open_line; inner; indent_of depth ++ "</div>"]) /\
    (truthy (get props "icon") = false ->
     exists (st' : cstate) (open_line : string),
       render_button_component py_repr id_entropy props depth flex width height st
         = Ok st' /\
       lines st'
         = app (lines st)
             [open_line;
              centered_span (indent_of depth)
                (if truthy (get props "content")
                 then py_str py_repr (get props "content") else "Button");
              indent_of depth ++ "</div>"]).
Proof.
  intros props depth flex width height st.
  unfold render_button_component, unique_id. cbv zeta.
  destruct (format_style_object_ok (get_button_styles py_repr props flex width height))
    as [style Hstyle].
  { unfold get_button_styles. cbv zeta. apply Forall_app. split;
      [repeat constructor; literal_colon|apply colons_box_styles]. }
  rewrite Hstyle. cbn [bind]. split.
  - intros st'.
    match goal with
    | |- context [bind ?r _] => destruct r as [inner_state|e] eqn:Einner
    end; cbn [bind]; [|discriminate].
    intro H. injection H as <-.
    assert (Hin : exists inner,
               inner_state =
               write inner
                 (write (indent_of depth ++ "<div "
                         ++ attr "id" ("button-" ++ id_entropy (ids_issued st)) ++ " "
                         ++ attr "style" style ++ " " ++ attr "role" "button" ++ " "
                         ++ attr "tabindex" "0" ++ ">")
                    (mkState (lines st) (scripts st) (styles st)
                       (counter_chart st) (counter_sparkline st) (S (ids_issued st))))).
    { destruct (truthy (get props "icon")).
      - destruct (map_to_icon_class (get props "icon")); cbn [bind] in Einner;
          [|discriminate].
        match type of Einner with
        | context [bind ?r _] => destruct r
        end; cbn [bind] in Einner; [|discriminate].
        match type of Einner with
        | context [bind ?r _] => destruct r
        end; cbn [bind] in Einner; [|discriminate].
        injection Einner as <-. eauto.
      - destruct (truthy (get props "content")); injection Einner as <-; eauto. }
    destruct Hin as [inner ->].
    cbn [scripts ids_issued lines write write_script].
    split; [reflexivity|]. split; [reflexivity|].
    eexists _, inner. rewrite <- !app_assoc. reflexivity.
  - intros Hicon. rewrite Hicon.
    destruct (truthy (get props "content")); cbn [bind];
      eexists _, _; (split; [reflexivity|]);
      cbn [lines write write_script]; rewrite <- !app_assoc; reflexivity.
Qed.

(** X19.  A progress ring whose percentage, size and stroke width are
    numbers (given or defaulted) below [2^1000] in magnitude and whose icon
    name is hashable is always rendered: it registers exactly one animation
    snippet, bound to a fresh identifier [progressring-...], that carries
    the dash offset and the circumference of the ring's geometry, the one
    for the percentage clamped to 0..100. *)
Theorem progress_ring_numeric_renders :
  forall (props : dict) (depth : nat) (flex width height : value) (st : cstate)
         (p s w : Q),
    number_is (get_default props "percentage" (VInt 0)) p ->
    number_is (get_default props "size" (VInt 80)) s ->
    number_is (get_default props "strokeWidth" (VInt 6)) w ->
    Qabs p <= 2 ^ 1000 -> Qabs s <= 2 ^ 1000 -> Qabs w <= 2 ^ 1000 ->
    hashable (get props "iconName") = true ->
    exists (st' : cstate) (radius offset circumference : value),
      progress_ring_geometry (get_default props "percentage" (VInt 0))
        (get_default props "size" (VInt 80)) (get_default props "strokeWidth" (VInt 6))
        = Ok (radius, circumference, offset) /\
      render_progress_ring_component py_repr id_entropy props depth flex width height st
        = Ok st' /\
      scripts st'
        = (scripts st ++
           [ProgressRingScript ("progressring-" ++ id_entropy (ids_issued st))
              offset circumference])%list /\
      ids_issued st' = S (ids_issued st) /\
      number_is circumference
        (ring_circumference
           (ring_radius (get_default props "size" (VInt 80))
              (get_default props "strokeWidth" (VInt 6)) s w)) /\
      number_is offset
        (ring_offset
           (ring_circumference
              (ring_radius (get_default props "size" (VInt 80))
                 (get_default props "strokeWidth" (VInt 6)) s w))
           (clamp_percentage p)).
Proof.
  intros props depth flex width height st p s w Hp Hs Hw _ _ _ Hicon.
  destruct (progress_ring_geometry_number _ _ _ p s w Hp Hs Hw)
    as (radius & circumference & offset & Hgeo & _ & Hcirc & Hoff).
  assert (Htwo : ~ inject_Z 2 == 0) by discriminate.
  destruct (py_truediv_number _ (VInt 2) s _ Hs (number_is_int 2) Htwo)
    as (half & Hhalf & _).
  unfold render_progress_ring_component, unique_id. cbv zeta.
  rewrite Hgeo. cbn [bind].
  match goal with
  | |- context [format_style_object (with_box_styles _ ?e _ _ _)] =>
      destruct (with_box_styles_ok py_repr e flex width height) as [style ->];
        [repeat constructor; literal_colon|]
  end.
  cbn [bind]. rewrite Hhalf. cbn [bind].
  unfold map_to_icon_class, table_get. rewrite Hicon.
  pose proof lines_write_all as Hall.
  destruct (truthy (get props "iconName")); [|destruct (truthy (get props "content"))];
    cbn [orb bind];
    try match goal with
        | |- context [format_style_object ?e] =>
            destruct (format_style_object_ok e) as [t ->];
              [repeat constructor; literal_colon|]
        end;
    cbn [bind];
    (eexists _, radius, offset, circumference; split; [reflexivity|];
     split; [reflexivity|]);
    cbn [scripts ids_issued write write_script];
    rewrite (proj1 (proj2 (Hall _ _))), (proj2 (proj2 (Hall _ _)));
    repeat split; assumption.
Qed.
End Snippets.

Lemma progress_ring_numeric_witness :
  exists (st' : cstate) (radius offset circumference : value),
    progress_ring_geometry (get_default sample_ring_props "percentage" (VInt 0))
      (get_default sample_ring_props "size" (VInt 80))
      (get_default sample_ring_props "strokeWidth" (VInt 6))
      = Ok (radius, circumference, offset) /\
    render_progress_ring_component sample_repr sample_entropy sample_ring_props 0
      VNone VNone VNone initial_state = Ok st' /\
    scripts st'
      = (scripts initial_state ++
         [ProgressRingScript ("progressring-" ++ sample_entropy (ids_issued initial_state))
            offset circumference])%list /\
    ids_issued st' = S (ids_issued initial_state) /\
    number_is circumference
      (ring_circumference
         (ring_radius (get_default sample_ring_props "size" (VInt 80))
            (get_default sample_ring_props "strokeWidth" (VInt 6)) 80 6)) /\
    number_is offset
      (ring_offset
         (ring_circumference
            (ring_radius (get_default sample_ring_props "size" (VInt 80))
               (get_default sample_ring_props "strokeWidth" (VInt 6)) 80 6))
         (clamp_percentage 150)).
Proof.
  apply (progress_ring_numeric_renders sample_repr sample_entropy sample_ring_props
           0%nat VNone VNone VNone initial_state 150 80 6).
  - exists (inject_Z 150). split; reflexivity.
  - exists (inject_Z 80). split; reflexivity.
  - exists (inject_Z 6). split; reflexivity.
  - apply Qle_bool_iff. vm_compute. reflexivity.
  - apply Qle_bool_iff. vm_compute. reflexivity.
  - apply Qle_bool_iff. vm_compute. reflexivity.
  - reflexivity.
Defined.

(** ** Containers without children and ill-typed nodes *)

Section NodeEdges.
Variable py_repr : value -> string.
Variable id_entropy : nat -> string.

Lemma align_style_cases (property : string) (table : list (string * string))
    (align : value) :
  (exists entries,
     align_style py_repr property table align = Ok entries /\
     Forall has_colon entries) \/
  align_style py_repr property table align = Err TypeError.
Proof.
  destruct (hashable align) eqn:Hh.
  - left. apply align_style_ok. exact Hh.
  - unfold align_style, table_get. rewrite Hh.
    destruct (truthy align); cbn [bind]; [right; reflexivity|].
    left. exists []. split; [reflexivity|constructor].
Qed.

Lemma container_style_ok (node : dict) (main_style cross_style : list string) :
  Forall has_colon main_style -> Forall has_colon cross_style ->
  exists style,
    format_style_object
      (container_styles py_repr node ++ main_style ++ cross_style)%list = Ok style.
Proof.
  intros Hm Hc. apply format_style_object_ok.
  apply Forall_app. split; [apply colons_container_styles|].
  apply Forall_app. split; assumption.
Qed.

(** X20.  A container whose [children] field is absent or an empty list, and
    whose two alignment fields are hashable, is rendered as exactly two
    lines, the opening and the closing tag at the container's own
    indentation; nothing else of the state changes. *)
Theorem childless_container_renders_two_lines :
  forall (node : dict) (fuel depth : nat) (st : cstate),
    get node "type" = VStr "container" ->
    hashable (get node "alignMain") = true ->
    hashable (get node "alignCross") = true ->
    get_default node "children" (VList []) = VList [] ->
    exists style : string,
      render_node py_repr id_entropy (S fuel) (VDict node) depth st
      = Ok (write (indent_of depth ++ "</div>")
              (write (indent_of depth ++ "<div " ++ attr "style" style ++ ">") st)).
Proof.
  intros node fuel depth st Htype Hmain Hcross Hchildren.
  rewrite render_node_container by (rewrite Htype; reflexivity).
  destruct (align_style_ok py_repr "justify-content" align_main_map _ Hmain)
    as (main_style & -> & Hm).
  destruct (align_style_ok py_repr "align-items" align_cross_map _ Hcross)
    as (cross_style & -> & Hc).
  cbn [bind].
  destruct (container_style_ok node main_style cross_style Hm Hc) as [style ->].
  cbn [bind]. rewrite Hchildren. cbn [py_iter bind for_each].
  exists style. reflexivity.
Qed.

(** X21.  What [render_node] does with an ill-typed node: a node that is not
    an object (null, a number, a string, a list) is an AttributeError; a
    container whose [children] field is null, a boolean or a number is a
    TypeError, whatever its other fields; a leaf with a component name whose
    [props] field is null, a boolean or a number is a TypeError. *)
Theorem ill_typed_nodes_raise :
  forall (fuel depth : nat) (st : cstate),
    (forall node : value,
       (forall d : dict, node <> VDict d) ->
       render_node py_repr id_entropy (S fuel) node depth st = Err AttributeError) /\
    (forall node : dict,
       get node "type" = VStr "container" ->
       scalar (get_default node "children" (VList [])) = true ->
       render_node py_repr id_entropy (S fuel) (VDict node) depth st = Err TypeError) /\
    (forall node : dict,
       get node "type" = VStr "leaf" ->
       truthy (get node "component") = true ->
       scalar (get_default node "props" (VDict [])) = true ->
       render_node py_repr id_entropy (S fuel) (VDict node) depth st = Err TypeError).
Proof.
  intros fuel depth st. split; [|split].
  - intros node Hnot. destruct node; try reflexivity.
    exfalso. eapply Hnot. reflexivity.
  - intros node Htype Hscalar.
    rewrite render_node_container by (rewrite Htype; reflexivity).
    destruct (align_style_cases "justify-content" align_main_map (get node "alignMain"))
      as [(main_style & -> & Hm)| ->]; cbn [bind]; [|reflexivity].
    destruct (align_style_cases "align-items" align_cross_map (get node "alignCross"))
      as [(cross_style & -> & Hc)| ->]; cbn [bind]; [|reflexivity].
    destruct (container_style_ok node main_style cross_style Hm Hc) as [style ->].
    cbn [bind].
    destruct (get_default node "children" (VList [])); try discriminate Hscalar;
      reflexivity.
  - intros node Htype Hcomp Hscalar.
    rewrite (render_node_leaf _ _ _ _ _ _ Htype).
    unfold render_leaf. cbv zeta. rewrite Hcomp. cbn [negb].
    destruct (get_default node "props" (VDict [])); try discriminate Hscalar;
      reflexivity.
Qed.
End NodeEdges.

Lemma childless_container_witness :
  exists style : string,
    render_node sample_repr sample_entropy 1 (VDict sample_empty_container) 0 initial_state
    = Ok (write (indent_of 0 ++ "</div>")
            (write (indent_of 0 ++ "<div " ++ attr "style" style ++ ">") initial_state)).
Proof.
  apply (childless_container_renders_two_lines sample_repr sample_entropy
           sample_empty_container 0%nat 0%nat initial_state); reflexivity.
Defined.

(** ** Style entries *)

Lemma strip_quotes_quote_free (s : string) : quote_free (strip_quotes s).
Proof.
  induction s as [|c s IH]; simpl; [exact I|].
  destruct (Ascii.eqb_spec c "'") as [E1|E1]; simpl; [exact IH|].
  destruct (Ascii.eqb_spec c "034") as [E2|E2]; simpl; [exact IH|].
  auto.
Qed.

Lemma split_colon_first (name value : string) :
  colon_free name -> split_colon (name ++ ":" ++ value) = Some (name, value).
Proof.
  induction name as [|c name IH]; simpl in *; [reflexivity|].
  intros [Hc Hrest]. destruct (Ascii.eqb_spec c ":") as [E|E]; [contradiction|].
  rewrite (IH Hrest). reflexivity.
Qed.

Lemma mapM_format_style_error (entries : list string) :
  Exists (fun s => ~ has_colon s) entries ->
  mapM format_style entries = Err ValueError.
Proof.
  induction 1 as [s rest Hs|s rest _ IH].
  - simpl. unfold format_style at 1. unfold has_colon in Hs.
    destruct (split_colon s) as [[name value]|]; [|reflexivity].
    exfalso. apply Hs. discriminate.
  - simpl. unfold format_style at 1.
    destruct (split_colon s) as [[name value]|]; [|reflexivity].
    cbn [bind]. rewrite IH. reflexivity.
Qed.

Lemma colon_free_no_split (s : string) : colon_free s -> split_colon s = None.
Proof.
  induction s as [|c s IH]; simpl; [reflexivity|].
  intros [Hc Hrest]. destruct (Ascii.eqb_spec c ":") as [E|E]; [contradiction|].
  rewrite (IH Hrest). reflexivity.
Qed.

Lemma mapM_format_style_colon_free (entries : list string) :
  Exists colon_free entries -> mapM format_style entries = Err ValueError.
Proof.
  intro H. apply mapM_format_style_error.
  apply Exists_exists in H. destruct H as (s & Hin & Hs).
  apply Exists_exists. exists s. split; [exact Hin|].
  unfold has_colon. rewrite (colon_free_no_split s Hs). intro H. apply H. reflexivity.
Qed.

(** X22.  A style entry is split at its first colon: the property name is
    kept, and the value loses every single and double quote; every entry
    list with an entry that has no colon is a ValueError. *)
Theorem format_style_splits_and_strips_quotes :
  forall (name value : string),
    colon_free name ->
    format_style (name ++ ":" ++ value) = Ok (name ++ ": " ++ strip_quotes value) /\
    quote_free (strip_quotes value) /\
    format_style_object [name ++ ":" ++ value]
      = Ok (name ++ ": " ++ strip_quotes value) /\
    (forall before after : list string,
        format_style_object (before ++ name :: after)%list = Err ValueError).
Proof.
  intros name value Hname.
  assert (Hf : format_style (name ++ ":" ++ value)
               = Ok (name ++ ": " ++ strip_quotes value)).
  { unfold format_style. rewrite (split_colon_first name value Hname). reflexivity. }
  split; [exact Hf|]. split; [apply strip_quotes_quote_free|]. split.
  - unfold format_style_object. cbn [mapM]. rewrite Hf. reflexivity.
  - intros before after. unfold format_style_object.
    rewrite mapM_format_style_colon_free; [reflexivity|].
    apply Exists_app. right. apply Exists_cons_hd. exact Hname.
Qed.

Lemma format_style_witness :
  format_style ("color" ++ ":" ++ " 'red'") = Ok ("color" ++ ": " ++ strip_quotes " 'red'") /\
  quote_free (strip_quotes " 'red'") /\
  format_style_object ["color" ++ ":" ++ " 'red'"]
    = Ok ("color" ++ ": " ++ strip_quotes " 'red'") /\
  (forall before after : list string,
      format_style_object (before ++ "color" :: after)%list = Err ValueError).
Proof.
  apply (format_style_splits_and_strips_quotes "color" " 'red'").
  simpl. repeat split; discriminate.
Defined.

(** ** Converted leaves *)

(** X23.  The sizes the engine gives a leaf are bounded from below: a text
    leaf has a font size of at least 10 and carries the node's text, with
    [maxLines] exactly when the node has more than one line; an icon leaf
    has a size of at least 12 and takes its name from the node's content;
    an image leaf has a width and a height that are never negative, and an
    empty source. *)
Theorem converted_leaf_sizes_bounded :
  forall (node : layout_node) (physical_size virtual_size : size2)
         (parent_rect : option Rect.t) (parent_direction : option string) (d : dict),
    _node_children node = [] ->
    _convert_node node physical_size virtual_size parent_rect parent_direction
      = Ok (VDict d) ->
    (_leaf_component node = Some "Text" ->
     exists (size : Z) (props : dict),
       get d "props" = VDict props /\
       get props "fontSize" = VInt size /\ (10 <= size)%Z /\
       get d "content" = text_or_empty (ln_text node) /\
       lookup props "maxLines"
         = (if (1 <? node_num_lines node)%Z
            then Some (VInt (node_num_lines node)) else None)) /\
    (_leaf_component node = Some "Icon" ->
     exists size : Z,
       get d "props" = VDict [("name", text_or_empty (ln_content node));
                              ("size", VInt size)] /\
       (12 <= size)%Z /\ lookup d "content" = None) /\
    (_leaf_component node = Some "Image" ->
     exists w h : Z,
       get d "width" = VInt w /\ get d "height" = VInt h /\
       (0 <= w)%Z /\ (0 <= h)%Z /\
       get d "props" = VDict [("src", VStr "")]).
Proof.
  intros node physical_size virtual_size parent_rect parent_direction d Hkids Hconv.
  rewrite convert_node_unfold, Hkids in Hconv.
  assert (Hround : forall q, 0 <= q -> (0 <= py_round q)%Z).
  { intros q Hq. rewrite <- (py_round_inject_Z 0). apply py_round_monotone. exact Hq. }
  split; [|split]; intro Hleaf; rewrite Hleaf in Hconv;
    unfold _convert_leaf in Hconv; rewrite Hleaf in Hconv; cbn [String.eqb] in Hconv.
  - simpl in Hconv.
    destruct (estimate_font_size _ _ _ _ _) as [size|e] eqn:Esize;
      cbn [bind] in Hconv; [|discriminate].
    injection Hconv as <-.
    unfold estimate_font_size in Esize. cbv zeta in Esize.
    repeat match type of Esize with
           | context [bind ?r _] => destruct r; cbn [bind] in Esize; [|discriminate]
           end.
    injection Esize as <-.
    eexists _, _. split; [reflexivity|].
    destruct (1 <? node_num_lines node)%Z; simpl;
      (split; [reflexivity|]); (split; [lia|]); split; reflexivity.
  - simpl in Hconv. injection Hconv as <-.
    eexists. split; [reflexivity|]. split; [lia|reflexivity].
  - simpl in Hconv. injection Hconv as <-.
    eexists _, _. split; [reflexivity|]. split; [reflexivity|].
    split; [apply Hround, width_nonneg|]. split; [apply Hround, height_nonneg|].
    reflexivity.
Qed.

Lemma converted_leaf_sizes_witness :
  exists d : dict,
    _convert_node (sample_text (bounds 0 0 40 40)) sample_physical sample_virtual
      None None = Ok (VDict d) /\
    (_leaf_component (sample_text (bounds 0 0 40 40)) = Some "Text" ->
     exists (size : Z) (props : dict),
       get d "props" = VDict props /\
       get props "fontSize" = VInt size /\ (10 <= size)%Z /\
       get d "content" = text_or_empty (ln_text (sample_text (bounds 0 0 40 40))) /\
       lookup props "maxLines"
         = (if (1 <? node_num_lines (sample_text (bounds 0 0 40 40)))%Z
            then Some (VInt (node_num_lines (sample_text (bounds 0 0 40 40))))
            else None)) /\
    (_leaf_component (sample_text (bounds 0 0 40 40)) = Some "Icon" ->
     exists size : Z,
       get d "props" = VDict [("name", text_or_empty
                                         (ln_content (sample_text (bounds 0 0 40 40))));
                              ("size", VInt size)] /\
       (12 <= size)%Z /\ lookup d "content" = None) /\
    (_leaf_component (sample_text (bounds 0 0 40 40)) = Some "Image" ->
     exists w h : Z,
       get d "width" = VInt w /\ get d "height" = VInt h /\
       (0 <= w)%Z /\ (0 <= h)%Z /\
       get d "props" = VDict [("src", VStr "")]).
Proof.
  eexists. split; [vm_compute; reflexivity|].
  apply (converted_leaf_sizes_bounded (sample_text (bounds 0 0 40 40))
           sample_physical sample_virtual None None).
  - reflexivity.
  - vm_compute. reflexivity.
Defined.
